(** * GitSwipe: the issue feed engine and the swipe navigation controller

    A shallow embedding of the parts of the application that decide how
    issues are fetched, paged, filtered, swiped through and edited:

    - [Types]            : src/types/index.ts
    - [GitHubService]    : services/GitHubService.ts
    - [MainScreen]       : screens/MainScreen.tsx
    - [IssueDetailModal] : components/IssueDetailModal.tsx

    JavaScript values are kept as the code sees them: an optional or
    nullable field is an [option], a number that is only compared with
    integers is a [Z], gesture displacement and velocity are rationals
    (every finite double is one, and the code only compares them), a
    rejected promise or a thrown [Error] is the [Err] branch of [Result]. *)

From Stdlib Require Import ZArith QArith Qabs List String Ascii Bool Lia Lqa.
From Stdlib Require Import Permutation Sorted.
Import ListNotations.

Local Open Scope string_scope.
Local Open Scope Z_scope.

(* ===================================================================== *)
(** ** JavaScript helpers *)
(* ===================================================================== *)

Module Js.

(** [s || d] on a possibly missing string: [undefined], [null] and the
    empty string are falsy. *)
Definition truthy_str (o : option string) : bool :=
  match o with
  | Some s => negb (String.eqb s EmptyString)
  | None => false
  end.

Definition str_or (o : option string) (d : string) : string :=
  match o with
  | Some s => if String.eqb s EmptyString then d else s
  | None => d
  end.

(** [n || d] on a possibly missing number: [undefined] and [0] are falsy. *)
Definition truthy_num (o : option Z) : bool :=
  match o with
  | Some n => negb (n =? 0)
  | None => false
  end.

Definition num_or (o : option Z) (d : Z) : Z :=
  match o with
  | Some n => if n =? 0 then d else n
  | None => d
  end.

(** [a || []] on a possibly missing array: every array is truthy. *)
Definition arr_or {A : Type} (o : option (list A)) : list A :=
  match o with
  | Some l => l
  | None => []
  end.

(** [o === s] for a possibly missing string [o] and a string [s]. *)
Definition opt_str_eqb (o : option string) (s : string) : bool :=
  match o with
  | Some t => String.eqb t s
  | None => false
  end.

(** [a === b] on two possibly missing strings. *)
Definition opt_eqb (a b : option string) : bool :=
  match a, b with
  | Some x, Some y => String.eqb x y
  | None, None => true
  | _, _ => false
  end.

(** [hay.includes(needle)] *)
Fixpoint includes (hay needle : string) : bool :=
  if String.prefix needle hay then true
  else match hay with
       | EmptyString => false
       | String _ rest => includes rest needle
       end.

(** [l.includes(x)] on an array of strings *)
Definition arr_includes (l : list string) (x : string) : bool :=
  existsb (String.eqb x) l.

Fixpoint drop (n : nat) (s : string) : string :=
  match n, s with
  | O, _ => s
  | S n', String _ rest => drop n' rest
  | S _, EmptyString => EmptyString
  end.

(** [s.replace(pat, rep)] with a string pattern: the first occurrence only. *)
Fixpoint replace (s pat rep : string) : string :=
  if String.prefix pat s then rep ++ drop (String.length pat) s
  else match s with
       | EmptyString => EmptyString
       | String c rest => String c (replace rest pat rep)
       end.

(** [s.split(sep)] for a one-character separator. *)
Fixpoint split_go (sep : ascii) (cur : string) (s : string) : list string :=
  match s with
  | EmptyString => [cur]
  | String c rest =>
      if Ascii.eqb c sep then cur :: split_go sep EmptyString rest
      else split_go sep (cur ++ String c EmptyString) rest
  end.

Definition split (s : string) (sep : ascii) : list string :=
  split_go sep EmptyString s.

(** [l.join(sep)] *)
Definition join (l : list string) (sep : string) : string :=
  String.concat sep l.

(** [l[i] || ''] *)
Definition nth_or_empty (l : list string) (i : nat) : string :=
  str_or (nth_error l i) EmptyString.

Definition dquote : string := String (ascii_of_nat 34) EmptyString.
Definition slash : ascii := ascii_of_nat 47.

(** A lower-casing of the ASCII letters, the instance of
    [String.prototype.toLowerCase] used in the worked examples. *)
Definition ascii_lower (c : ascii) : ascii :=
  let n := nat_of_ascii c in
  if (Nat.leb 65 n && Nat.leb n 90)%bool then ascii_of_nat (n + 32) else c.

Fixpoint asciiToLowerCase (s : string) : string :=
  match s with
  | EmptyString => EmptyString
  | String c rest => String (ascii_lower c) (asciiToLowerCase rest)
  end.

(** [s.slice(0, n)] *)
Definition slice0 (n : nat) (s : string) : string := String.substring 0 n s.

(** [l.sort(cmp)].  The sort is stable; for a comparator that orders by
    a key its result is the one obtained by inserting each element, from
    the last to the first, before the first element it does not follow. *)
Fixpoint insert_by {A : Type} (cmp : A -> A -> Z) (x : A) (l : list A) : list A :=
  match l with
  | [] => [x]
  | y :: r => if cmp x y <=? 0 then x :: y :: r else y :: insert_by cmp x r
  end.

Fixpoint sort {A : Type} (cmp : A -> A -> Z) (l : list A) : list A :=
  match l with
  | [] => []
  | x :: r => insert_by cmp x (sort cmp r)
  end.

Definition newline : string := String (ascii_of_nat 10) EmptyString.

End Js.

(* ===================================================================== *)
(** ** src/types/index.ts *)
(* ===================================================================== *)

Module Types.

(** The [id] of a user is a number on the search surface and an opaque
    node id on the structured surface. *)
Inductive Ident : Type :=
| IdNum (n : Z)
| IdStr (s : string).

Record GitHubUser : Type := mkUser {
  user_id : Ident;
  login : string;
  user_name : string;
  avatar_url : string;
  email : string
}.

Record GitHubLabel : Type := mkLabel {
  label_name : string;
  color : string
}.

Inductive IssueState : Type := open | closed.

Record ProjectLink : Type := mkProjectLink {
  projectId : string;
  projectTitle : string;
  statusFieldId : string;
  statusValue : string;
  itemId : option string
}.

Record NormalizedIssue : Type := mkIssue {
  issueId : Z;
  nodeId : option string;
  title : string;
  body : string;
  repo : string;
  org : string;
  url : string;
  state : IssueState;
  labels : list GitHubLabel;
  assignees : list GitHubUser;
  createdAt : string;
  updatedAt : string;
  commentCount : Z;
  number : Z;
  user : GitHubUser;
  project : option ProjectLink
}.

Inductive IssueSource : Type := all | organization.

Inductive SortOrder : Type := updated | created | comments.

Inductive SortDirection : Type := asc | desc.

Record IssueFilters : Type := mkFilters {
  source : IssueSource;
  f_state : IssueState;
  repository : option string;
  f_labels : option (list string);
  sortOrder : SortOrder;
  sortDirection : SortDirection;
  f_organization : option string;
  assignee : option string
}.

Record PaginatedResponse : Type := mkPage {
  items : list NormalizedIssue;
  totalCount : Z;
  hasNextPage : bool
}.

Definition state_str (s : IssueState) : string :=
  match s with open => "open" | closed => "closed" end.

Definition sort_str (s : SortOrder) : string :=
  match s with updated => "updated" | created => "created" | comments => "comments" end.

Definition direction_str (d : SortDirection) : string :=
  match d with asc => "asc" | desc => "desc" end.

(** The spec's identity of an issue: repository full name and number. *)
Definition issue_key (i : NormalizedIssue) : string * Z := (repo i, number i).

End Types.

(* ===================================================================== *)
(** ** services/GitHubService.ts *)
(* ===================================================================== *)

Module GitHubService.
Import Types.

(** *** Errors and results *)

(** The [Error] values the service throws, and the rejection of [fetch]
    itself. *)
Inductive Error : Type :=
| TokenNotSet            (* GitHub access token not set. Please re-authenticate. *)
| AuthenticationFailed   (* status 401 *)
| AccessForbidden        (* status 403 *)
| ResourceNotFound       (* status 404 *)
| ApiError (status : Z) (errorText : string)
| GraphQLFailed (status : Z)
| NotFoundAsOrganization
| NetworkFailure (reason : string).

Inductive Result (A : Type) : Type :=
| Ok (a : A)
| Err (e : Error).
Arguments Ok {A} a.
Arguments Err {A} e.

(** *** What travels over the wire *)

Record HttpResponse (T : Type) : Type := mkResponse {
  status : Z;
  text : string;
  json : T
}.
Arguments mkResponse {T} _ _ _.
Arguments status {T} _.
Arguments text {T} _.
Arguments json {T} _.

(** [response.ok] *)
Definition ok {T : Type} (r : HttpResponse T) : bool :=
  (200 <=? status r) && (status r <=? 299).

(** An item of [/search/issues], with the fields [normalizeSearchIssue]
    reads. *)
Record RawLabel : Type := mkRawLabel {
  raw_label_name : string;
  raw_label_color : string
}.

Record RawUser : Type := mkRawUser {
  raw_user_id : Z;
  raw_user_login : string;
  raw_user_avatar_url : string
}.

Record RawSearchIssue : Type := mkRawIssue {
  raw_id : Z;
  raw_node_id : string;
  raw_title : string;
  raw_body : option string;
  raw_repository_url : option string;
  raw_html_url : string;
  raw_state : string;
  raw_labels : option (list RawLabel);
  raw_assignees : option (list RawUser);
  raw_created_at : string;
  raw_updated_at : string;
  raw_comments : option Z;
  raw_number : Z;
  raw_user : option RawUser
}.

Record SearchData : Type := mkSearchData {
  data_items : option (list RawSearchIssue);
  total_count : option Z
}.

(** The query parameters of [GET /search/issues]; [q] is the query
    string before [encodeURIComponent]. *)
Record SearchRequest : Type := mkSearchRequest {
  q : string;
  sort : string;
  order : string;
  req_page : Z;
  per_page : Z
}.

(** The shapes of the project query's answer. *)
Record GqlField : Type := mkGqlField {
  field_id : string;
  field_name : option string
}.

Record GqlFieldValue : Type := mkGqlFieldValue {
  fv_name : option string;
  fv_field : option GqlField
}.

Record GqlLabel : Type := mkGqlLabel {
  gl_name : string;
  gl_color : string
}.

Record GqlAssignee : Type := mkGqlAssignee {
  ga_id : option string;
  ga_login : string;
  ga_name : option string;
  ga_avatarUrl : option string;
  ga_email : option string
}.

Record GqlAuthor : Type := mkGqlAuthor {
  author_login : option string;
  author_avatarUrl : option string
}.

Record GqlRepository : Type := mkGqlRepository {
  nameWithOwner : option string;
  owner_login : option string
}.

Record GqlContent : Type := mkGqlContent {
  c_id : option string;
  c_number : option Z;
  c_title : string;
  c_body : option string;
  c_state : option string;
  c_url : string;
  c_createdAt : string;
  c_updatedAt : string;
  c_labels : option (list GqlLabel);
  c_assignees : option (list GqlAssignee);
  c_author : option GqlAuthor;
  c_repository : option GqlRepository;
  c_comments : option Z
}.

Record GqlNode : Type := mkGqlNode {
  node_id : string;
  fieldValues : option (list (option GqlFieldValue));
  content : option GqlContent
}.

Record GqlPageInfo : Type := mkGqlPageInfo {
  pi_endCursor : option string;
  pi_hasNextPage : option bool
}.

Record GqlItems : Type := mkGqlItems {
  items_totalCount : option Z;
  pageInfo : option GqlPageInfo;
  nodes : option (list GqlNode)
}.

Record GqlProject : Type := mkGqlProject {
  project_id : string;
  project_title : string;
  project_items : GqlItems
}.

Record GqlData : Type := mkGqlData {
  data_organization : option (option GqlProject);  (* data.organization?.projectV2 *)
  data_user : option (option GqlProject)           (* data.user?.projectV2 *)
}.

Record GqlResult : Type := mkGqlResult {
  data : option GqlData;
  errors : option (list string)
}.

(** Which root field the project query addresses: the query text as
    written, or after [query.replace('organization(login: $owner)',
    'user(login: $owner)')]. *)
Inductive OwnerKind : Type := AsOrganization | AsUser.

Record GraphqlRequest : Type := mkGraphqlRequest {
  query : OwnerKind;
  var_owner : string;
  var_number : Z;
  var_first : Z;
  var_after : option string
}.

Inductive IssuePatch : Type :=
| PatchState (s : IssueState)
| PatchAssignees (a : list string).

Inductive WriteRequest : Type :=
| PatchIssue (owner repo : string) (issueNumber : Z) (p : IssuePatch)
| PutLabels (owner repo : string) (issueNumber : Z) (l : list string)
| PostComment (owner repo : string) (issueNumber : Z) (b : string).

Inductive Request : Type :=
| GetUser
| GetSearchIssues (r : SearchRequest)
| PostGraphql (r : GraphqlRequest)
| SendWrite (r : WriteRequest).

(** The upstream service at one moment: what [fetch] resolves to for
    each request ([Err] when the promise rejects). *)
Record Upstream : Type := mkUpstream {
  up_user : Result (HttpResponse GitHubUser);
  up_search : SearchRequest -> Result (HttpResponse SearchData);
  up_graphql : GraphqlRequest -> Result (HttpResponse GqlResult);
  up_write : WriteRequest -> Result (HttpResponse unit)
}.

(** The session: [githubAccessToken] once storage has been consulted,
    and the upstream the calls go to. *)
Record Session : Type := mkSession {
  token : option string;
  upstream : Upstream
}.

(** *** The service monad: results, and the requests issued so far *)

Definition M (A : Type) : Type := list Request -> Result A * list Request.

Definition ret {A : Type} (a : A) : M A := fun log => (Ok a, log).

Definition throw {A : Type} (e : Error) : M A := fun log => (Err e, log).

Definition bind {A B : Type} (m : M A) (k : A -> M B) : M B :=
  fun log =>
    match m log with
    | (Ok a, log') => k a log'
    | (Err e, log') => (Err e, log')
    end.

(** [try { m } catch { h }] *)
Definition try_catch {A : Type} (m : M A) (h : M A) : M A :=
  fun log =>
    match m log with
    | (Ok a, log') => (Ok a, log')
    | (Err _, log') => h log'
    end.

(** [await fetch(...)]: the request is issued and the upstream answers. *)
Definition fetch {T : Type} (req : Request) (answer : Result (HttpResponse T))
  : M (HttpResponse T) :=
  fun log => (answer, (log ++ [req])%list).

Declare Scope service_scope.
Delimit Scope service_scope with service.
Notation "x <- m ;; k" := (bind m (fun x => k))
  (at level 61, m at next level, right associativity) : service_scope.
Local Open Scope service_scope.

Definition run {A : Type} (m : M A) : Result A := fst (m []).
Definition requests {A : Type} (m : M A) : list Request := snd (m []).

Section Service.
Variable session : Session.

Definition getAccessToken : M string :=
  match token session with
  | Some t => if String.eqb t EmptyString then throw TokenNotSet else ret t
  | None => throw TokenNotSet
  end.

Definition apiRequest {T : Type} (req : Request)
           (answer : Result (HttpResponse T)) : M T :=
  _ <- getAccessToken ;;
  response <- fetch req answer ;;
  if negb (ok response) then
    if status response =? 401 then throw AuthenticationFailed
    else if status response =? 403 then throw AccessForbidden
    else if status response =? 404 then throw ResourceNotFound
    else throw (ApiError (status response) (text response))
  else ret (json response).

Definition graphqlRequest (r : GraphqlRequest) : M GqlResult :=
  _ <- getAccessToken ;;
  response <- fetch (PostGraphql r) (up_graphql (upstream session) r) ;;
  if negb (ok response) then throw (GraphQLFailed (status response))
  else ret (json response).

Definition getCurrentUser : M GitHubUser :=
  apiRequest GetUser (up_user (upstream session)).

(** *** Helpers *)

Definition normalizeSearchIssue (raw : RawSearchIssue) : NormalizedIssue :=
  let repoUrl := Js.str_or (raw_repository_url raw) EmptyString in
  let repoParts :=
    Js.split (Js.replace repoUrl "https://api.github.com/repos/" EmptyString)
             Js.slash in
  let org := Js.nth_or_empty repoParts 0 in
  let repoName := Js.nth_or_empty repoParts 1 in
  let fullName := org ++ "/" ++ repoName in
  {| issueId := raw_id raw;
     nodeId := Some (raw_node_id raw);
     title := raw_title raw;
     body := Js.str_or (raw_body raw) EmptyString;
     repo := fullName;
     org := org;
     url := raw_html_url raw;
     state := if String.eqb (raw_state raw) "open" then open else closed;
     labels := map (fun l => {| label_name := raw_label_name l;
                                color := raw_label_color l |})
                   (Js.arr_or (raw_labels raw));
     assignees := map (fun a => {| user_id := IdNum (raw_user_id a);
                                   login := raw_user_login a;
                                   user_name := raw_user_login a;
                                   avatar_url := raw_user_avatar_url a;
                                   email := EmptyString |})
                      (Js.arr_or (raw_assignees raw));
     createdAt := raw_created_at raw;
     updatedAt := raw_updated_at raw;
     commentCount := Js.num_or (raw_comments raw) 0;
     number := raw_number raw;
     user := {| user_id := IdNum (Js.num_or (option_map raw_user_id (raw_user raw)) 0);
                login := Js.str_or (option_map raw_user_login (raw_user raw)) EmptyString;
                user_name := Js.str_or (option_map raw_user_login (raw_user raw)) EmptyString;
                avatar_url := Js.str_or (option_map raw_user_avatar_url (raw_user raw))
                                        EmptyString;
                email := EmptyString |};
     project := None |}.

(** [labels.map(l => `label:"${l}"`).join(' ')] *)
Definition label_terms (l : list string) : string :=
  Js.join (map (fun x => "label:" ++ Js.dquote ++ x ++ Js.dquote) l) " ".

Definition with_labels (q0 : string) (labels : option (list string)) : string :=
  match labels with
  | Some (x :: l) => q0 ++ " " ++ label_terms (x :: l)
  | _ => q0
  end.

Definition with_search (q0 : string) (searchQuery : option string) : string :=
  if Js.truthy_str searchQuery then q0 ++ " " ++ Js.str_or searchQuery EmptyString
  else q0.

(** The object both search fetches return. *)
Definition search_page (d : SearchData) (perPage : Z) : PaginatedResponse :=
  {| items := map normalizeSearchIssue (Js.arr_or (data_items d));
     totalCount := Js.num_or (total_count d) 0;
     hasNextPage := Z.of_nat (List.length (Js.arr_or (data_items d))) =? perPage |}.

(** *** Issue fetching *)

Definition fetchAllIssues (page perPage : Z) (state : IssueState)
           (sort direction : string) (repo : option string)
           (labels : option (list string)) (searchQuery : option string)
  : M PaginatedResponse :=
  user <- getCurrentUser ;;
  let q0 := "is:issue state:" ++ state_str state ++ " assignee:" ++ login user in
  let q1 := if Js.truthy_str repo
            then q0 ++ " repo:" ++ Js.str_or repo EmptyString else q0 in
  let q2 := with_labels q1 labels in
  let q3 := with_search q2 searchQuery in
  let req := {| q := q3; sort := sort; order := direction;
                req_page := page; per_page := perPage |} in
  d <- apiRequest (GetSearchIssues req) (up_search (upstream session) req) ;;
  ret (search_page d perPage).

Definition fetchOrgIssues (org : string) (page perPage : Z) (state : IssueState)
           (sort direction : string) (repo : option string)
           (assignee : option string) (labels : option (list string))
           (searchQuery : option string)
  : M PaginatedResponse :=
  let q0 := "is:issue state:" ++ state_str state in
  let q1 := if Js.truthy_str repo
            then q0 ++ " repo:" ++ Js.str_or repo EmptyString
            else q0 ++ " org:" ++ org in
  q2 <- (if Js.opt_str_eqb assignee "me" then
           user <- getCurrentUser ;; ret (q1 ++ " assignee:" ++ login user)
         else if Js.opt_str_eqb assignee "unassigned" then
           ret (q1 ++ " no:assignee")
         else if Js.truthy_str assignee && negb (Js.opt_str_eqb assignee "all") then
           ret (q1 ++ " assignee:" ++ Js.str_or assignee EmptyString)
         else ret q1) ;;
  let q3 := with_labels q2 labels in
  let q4 := with_search q3 searchQuery in
  let req := {| q := q4; sort := sort; order := direction;
                req_page := page; per_page := perPage |} in
  d <- apiRequest (GetSearchIssues req) (up_search (upstream session) req) ;;
  ret (search_page d perPage).

(** *** The structured surface *)

Variable toLowerCase : string -> string.

(** [result.data?.organization?.projectV2] and
    [result.data?.user?.projectV2] *)
Definition organization_project (r : GqlResult) : option GqlProject :=
  match data r with
  | Some d => match data_organization d with Some p => p | None => None end
  | None => None
  end.

Definition user_project (r : GqlResult) : option GqlProject :=
  match data r with
  | Some d => match data_user d with Some p => p | None => None end
  | None => None
  end.

(** [!!result.errors]: an array, even an empty one, is truthy. *)
Definition has_errors (r : GqlResult) : bool :=
  match errors r with Some _ => true | None => false end.

Definition is_some {A : Type} (o : option A) : bool :=
  match o with Some _ => true | None => false end.

(** The inner loop over [node.fieldValues?.nodes]: the last single-select
    value whose field name contains "status" wins. *)
Definition status_step (acc : string * string) (fv : option GqlFieldValue)
  : string * string :=
  match fv with
  | Some v =>
      match fv_field v with
      | Some f =>
          if Js.truthy_str (fv_name v)
             && match field_name f with
                | Some n => Js.includes (toLowerCase n) "status"
                | None => false
                end
          then (Js.str_or (fv_name v) EmptyString, field_id f)
          else acc
      | None => acc
      end
  | None => acc
  end.

(** [(statusValue, statusFieldId)] of a node *)
Definition node_status (node : GqlNode) : string * string :=
  fold_left status_step (Js.arr_or (fieldValues node)) (EmptyString, EmptyString).

Definition content_logins (c : GqlContent) : list string :=
  map ga_login (Js.arr_or (c_assignees c)).

Definition content_repo (c : GqlContent) : option string :=
  match c_repository c with Some r => nameWithOwner r | None => None end.

Definition content_owner (c : GqlContent) : option string :=
  match c_repository c with Some r => owner_login r | None => None end.

(** The three [continue] tests of the loop, in source order. *)
Definition status_skips (statusFilter : option string) (statusValue : string) : bool :=
  Js.truthy_str statusFilter
  && negb (Js.opt_str_eqb statusFilter "all")
  && negb (String.eqb (toLowerCase statusValue)
                      (toLowerCase (Js.str_or statusFilter EmptyString))).

Definition repo_skips (repoFilter : option string) (c : GqlContent) : bool :=
  Js.truthy_str repoFilter && negb (Js.opt_eqb (content_repo c) repoFilter).

Definition assignee_skips (assigneeFilter : option string) (c : GqlContent) : bool :=
  if Js.truthy_str assigneeFilter then
    let logins := content_logins c in
    if Js.opt_str_eqb assigneeFilter "unassigned" && (0 <? Z.of_nat (List.length logins))
    then true
    else negb (Js.opt_str_eqb assigneeFilter "all")
         && negb (Js.opt_str_eqb assigneeFilter "unassigned")
         && negb (Js.arr_includes logins (Js.str_or assigneeFilter EmptyString))
  else false.

(** The object pushed for a node that survives the tests. *)
Definition project_issue (owner : string) (projectData : GqlProject)
           (node : GqlNode) (c : GqlContent) (statusValue statusFieldId : string)
  : NormalizedIssue :=
  {| issueId := Js.num_or (c_number c) 0;
     nodeId := c_id c;
     title := c_title c;
     body := Js.str_or (c_body c) EmptyString;
     repo := Js.str_or (content_repo c) EmptyString;
     org := Js.str_or (content_owner c) owner;
     url := c_url c;
     state := if Js.opt_str_eqb (option_map toLowerCase (c_state c)) "open"
              then open else closed;
     labels := map (fun l => {| label_name := gl_name l; color := gl_color l |})
                   (Js.arr_or (c_labels c));
     assignees := map (fun a =>
                         {| user_id := if Js.truthy_str (ga_id a)
                                       then IdStr (Js.str_or (ga_id a) EmptyString)
                                       else IdNum 0;
                            login := ga_login a;
                            user_name := Js.str_or (ga_name a) (ga_login a);
                            avatar_url := Js.str_or (ga_avatarUrl a) EmptyString;
                            email := Js.str_or (ga_email a) EmptyString |})
                      (Js.arr_or (c_assignees c));
     createdAt := c_createdAt c;
     updatedAt := c_updatedAt c;
     commentCount := Js.num_or (c_comments c) 0;
     number := Js.num_or (c_number c) 0;
     user := {| user_id := IdNum 0;
                login := Js.str_or (match c_author c with
                                    | Some a => author_login a | None => None end)
                                   EmptyString;
                user_name := Js.str_or (match c_author c with
                                        | Some a => author_login a | None => None end)
                                       EmptyString;
                avatar_url := Js.str_or (match c_author c with
                                         | Some a => author_avatarUrl a | None => None end)
                                        EmptyString;
                email := EmptyString |};
     project := Some {| projectId := project_id projectData;
                        projectTitle := project_title projectData;
                        statusFieldId := statusFieldId;
                        statusValue := statusValue;
                        itemId := Some (node_id node) |} |}.

(** One iteration of [for (const node of (itemsData.nodes || []))]:
    [issues] is returned unchanged where the source says [continue]. *)
Definition project_step (owner : string) (projectData : GqlProject)
           (statusFilter assigneeFilter repoFilter : option string)
           (issues : list NormalizedIssue) (node : GqlNode)
  : list NormalizedIssue :=
  match content node with
  | None => issues
  | Some c =>
      if negb (Js.truthy_num (c_number c)) then issues
      else
        let statusValue := fst (node_status node) in
        let statusFieldId := snd (node_status node) in
        if status_skips statusFilter statusValue then issues
        else if repo_skips repoFilter c then issues
        else if assignee_skips assigneeFilter c then issues
        else (issues ++ [project_issue owner projectData node c
                                       statusValue statusFieldId])%list
  end.

Record ProjectPage : Type := mkProjectPage {
  page : PaginatedResponse;
  endCursor : option string
}.

Definition empty_project_page : ProjectPage :=
  {| page := {| items := []; totalCount := 0; hasNextPage := false |};
     endCursor := None |}.

(** The part of [fetchProjectIssues] after the project has been found. *)
Definition project_page (owner : string) (projectData : GqlProject)
           (statusFilter assigneeFilter repoFilter : option string) : ProjectPage :=
  let itemsData := project_items projectData in
  let issues :=
    fold_left (project_step owner projectData statusFilter assigneeFilter repoFilter)
              (Js.arr_or (nodes itemsData)) [] in
  {| page := {| items := issues;
                totalCount := Js.num_or (items_totalCount itemsData) 0;
                hasNextPage :=
                  match pageInfo itemsData with
                  | Some pi => match pi_hasNextPage pi with
                               | Some b => b | None => false end
                  | None => false
                  end |};
     endCursor := match pageInfo itemsData with
                  | Some pi => pi_endCursor pi
                  | None => None
                  end |}.

Definition project_request (kind : OwnerKind) (owner : string) (projectNumber : Z)
           (cursor : option string) (perPage : Z) : GraphqlRequest :=
  {| query := kind; var_owner := owner; var_number := projectNumber;
     var_first := perPage;
     var_after := if Js.truthy_str cursor then cursor else None |}.

(** The [try { ... } catch { ... }] at the head of [fetchProjectIssues]. *)
Definition project_query (owner : string) (projectNumber : Z)
           (cursor : option string) (perPage : Z) : M GqlResult :=
  try_catch
    (result <- graphqlRequest
                 (project_request AsOrganization owner projectNumber cursor perPage) ;;
     if negb (is_some (organization_project result)) && negb (has_errors result)
     then throw NotFoundAsOrganization
     else ret result)
    (graphqlRequest (project_request AsUser owner projectNumber cursor perPage)).

Definition fetchProjectIssues (owner : string) (projectNumber : Z)
           (cursor : option string) (perPage : Z)
           (statusFilter assigneeFilter repoFilter : option string)
  : M ProjectPage :=
  result <- project_query owner projectNumber cursor perPage ;;
  if has_errors result then ret empty_project_page
  else
    match (match organization_project result with
           | Some p => Some p
           | None => user_project result
           end) with
    | None => ret empty_project_page
    | Some projectData =>
        ret (project_page owner projectData statusFilter assigneeFilter repoFilter)
    end.

(** *** Issue actions *)

Definition updateIssueState (owner repo : string) (issueNumber : Z)
           (state : IssueState) : M unit :=
  let w := PatchIssue owner repo issueNumber (PatchState state) in
  apiRequest (SendWrite w) (up_write (upstream session) w).

Definition assignIssue (owner repo : string) (issueNumber : Z)
           (assignees : list string) : M unit :=
  let w := PatchIssue owner repo issueNumber (PatchAssignees assignees) in
  apiRequest (SendWrite w) (up_write (upstream session) w).

Definition updateLabels (owner repo : string) (issueNumber : Z)
           (labels : list string) : M unit :=
  let w := PutLabels owner repo issueNumber labels in
  apiRequest (SendWrite w) (up_write (upstream session) w).

Definition addComment (owner repo : string) (issueNumber : Z)
           (body : string) : M unit :=
  let w := PostComment owner repo issueNumber body in
  apiRequest (SendWrite w) (up_write (upstream session) w).

End Service.

(** *** Projects *)

Record ProjectFieldOption : Type := mkFieldOption {
  option_id : string;
  option_name : string
}.

(** A node of [fields(first: 30)].  A field of a kind that neither
    fragment of the query selects comes back as an object without [id]. *)
Record ProjectField : Type := mkProjectField {
  pfield_id : option string;
  pfield_name : option string;
  dataType : option string;
  options : option (list ProjectFieldOption)
}.

(** A node of [projectsV2]: [rp_fields] is [p.fields?.nodes], [rp_owner]
    is [p.owner?.login].  The elements of a [nodes] array may be [null]. *)
Record RawProject : Type := mkRawProject {
  rp_id : string;
  rp_number : Z;
  rp_title : string;
  rp_url : string;
  rp_fields : option (list (option ProjectField));
  rp_owner : option string
}.

Record GitHubProject : Type := mkProject {
  gp_id : string;
  gp_number : Z;
  gp_title : string;
  gp_url : string;
  gp_owner : string;
  gp_fields : list ProjectField
}.

(** [l.filter(f => f.id)]; reading [f.id] of a [null] element throws,
    which is [None] here. *)
Fixpoint filter_fields (l : list (option ProjectField)) : option (list ProjectField) :=
  match l with
  | [] => Some []
  | None :: _ => None
  | Some f :: r =>
      match filter_fields r with
      | Some r' => Some (if Js.truthy_str (pfield_id f) then f :: r' else r')
      | None => None
      end
  end.

(** [{ ...p, owner, fields: (p.fields?.nodes || []).filter(f => f.id) }] *)
Definition project_of (owner : string) (p : RawProject) : option GitHubProject :=
  match filter_fields (Js.arr_or (rp_fields p)) with
  | Some fs => Some {| gp_id := rp_id p; gp_number := rp_number p;
                       gp_title := rp_title p; gp_url := rp_url p;
                       gp_owner := owner; gp_fields := fs |}
  | None => None
  end.

(** [nodes.map(p => ({ ...p, owner, fields: ... }))]; reading [p.fields]
    of a [null] node throws. *)
Fixpoint map_projects (owner : string) (l : list (option RawProject))
  : option (list GitHubProject) :=
  match l with
  | [] => Some []
  | None :: _ => None
  | Some p :: r =>
      match project_of owner p, map_projects owner r with
      | Some g, Some r' => Some (g :: r')
      | _, _ => None
      end
  end.

(** What the two project-list queries come back with: [result.errors],
    [result.data?.viewer?.login] and
    [result.data?.organization?.projectsV2?.nodes] (or the viewer's). *)
Record ProjectsResult : Type := mkProjectsResult {
  pr_errors : option (list string);
  pr_login : option string;
  pr_nodes : option (list (option RawProject))
}.

(** [getOrgProjects(org)] and [getUserProjects()] from the point where
    [graphqlRequest] has settled with [outcome]; whatever is thrown
    inside the [try] ends in [return []]. *)
Definition getOrgProjects (org : string) (outcome : Result ProjectsResult)
  : list GitHubProject :=
  match outcome with
  | Err _ => []
  | Ok result =>
      if is_some (pr_errors result) then []
      else match map_projects org (Js.arr_or (pr_nodes result)) with
           | Some l => l
           | None => []
           end
  end.

Definition getUserProjects (outcome : Result ProjectsResult) : list GitHubProject :=
  match outcome with
  | Err _ => []
  | Ok result =>
      if is_some (pr_errors result) then []
      else
        let login := Js.str_or (pr_login result) EmptyString in
        match map_projects login (Js.arr_or (pr_nodes result)) with
        | Some l => l
        | None => []
        end
  end.

(** A node of the viewer's [repositories]: [repo.owner?.login] and
    [repo.projectsV2?.nodes]. *)
Record RawRepository : Type := mkRawRepository {
  repo_owner : option string;
  repo_projects : option (list (option RawProject))
}.

Record ViewerResult : Type := mkViewerResult {
  vr_errors : option (list string);
  vr_repositories : option (list (option RawRepository))
}.

(** One iteration of the inner loop: [allProjects] and [seenIds] so
    far, [None] once something has thrown. *)
Definition viewer_project_step (repo : RawRepository)
           (acc : option (list GitHubProject * list string))
           (p : option RawProject)
  : option (list GitHubProject * list string) :=
  match acc with
  | None => None
  | Some (allProjects, seenIds) =>
      match p with
      | None => acc
      | Some p =>
          if Js.arr_includes seenIds (rp_id p) then acc
          else
            match project_of (Js.str_or (rp_owner p)
                                        (Js.str_or (repo_owner repo) EmptyString)) p with
            | Some g => Some ((allProjects ++ [g])%list, (seenIds ++ [rp_id p])%list)
            | None => None
            end
      end
  end.

(** One iteration of the outer loop; reading [repo.projectsV2] of a
    [null] node throws. *)
Definition viewer_repo_step (acc : option (list GitHubProject * list string))
           (repo : option RawRepository)
  : option (list GitHubProject * list string) :=
  match repo with
  | None => None
  | Some r => fold_left (viewer_project_step r) (Js.arr_or (repo_projects r)) acc
  end.

Definition getViewerAccessibleProjects (outcome : Result ViewerResult)
  : list GitHubProject :=
  match outcome with
  | Err _ => []
  | Ok result =>
      if is_some (vr_errors result) then []
      else match fold_left viewer_repo_step (Js.arr_or (vr_repositories result))
                           (Some ([], [])) with
           | Some (allProjects, _) => allProjects
           | None => []
           end
  end.

Section ProjectStatus.
Variable toLowerCase : string -> string.

(** [f => f.name?.toLowerCase().includes('status')] *)
Definition names_status (f : ProjectField) : bool :=
  match pfield_name f with
  | Some n => Js.includes (toLowerCase n) "status"
  | None => false
  end.

Definition getProjectStatusOptions (project : GitHubProject) : list ProjectFieldOption :=
  match find names_status (gp_fields project) with
  | Some statusField =>
      match options statusField with
      | Some (o :: l) =>
          map (fun o => {| option_id := option_id o; option_name := option_name o |})
              (o :: l)
      | _ => []
      end
  | None => []
  end.

Definition getProjectStatusFieldId (project : GitHubProject) : option string :=
  match find names_status (gp_fields project) with
  | Some statusField => pfield_id statusField
  | None => None
  end.

End ProjectStatus.

(** *** Analytics *)

(** A repository of [/user/repos], with the fields the analytics read. *)
Record GitHubRepo : Type := mkRepo {
  repo_name : string;
  full_name : option string;
  stargazers_count : option Z;
  forks_count : option Z;
  language : option string;
  open_issues_count : option Z;
  is_private : bool
}.

Record TopRepo : Type := mkTopRepo {
  top_name : string;
  stars : Z;
  forks : Z;
  top_language : string;
  openIssues : Z;
  isPrivate : bool
}.

(** [(a, b) => (b.stargazers_count || 0) - (a.stargazers_count || 0)] *)
Definition by_stars (a b : GitHubRepo) : Z :=
  Js.num_or (stargazers_count b) 0 - Js.num_or (stargazers_count a) 0.

(** The [topRepos] of [getAnalyticsData]:
    [[...repos].sort(...).slice(0, 8).map(...)] *)
Definition topRepos (repos : list GitHubRepo) : list TopRepo :=
  map (fun r => {| top_name := Js.str_or (full_name r) (repo_name r);
                   stars := Js.num_or (stargazers_count r) 0;
                   forks := Js.num_or (forks_count r) 0;
                   top_language := Js.str_or (language r) "Unknown";
                   openIssues := Js.num_or (open_issues_count r) 0;
                   isPrivate := is_private r |})
      (firstn 8 (Js.sort by_stars repos)).

(** [languageBreakdown[k] = (languageBreakdown[k] || 0) + 1] on an object
    whose keys are language names (none of them a number or a property
    of [Object.prototype]), kept in the order they were first written. *)
Fixpoint count_language (k : string) (m : list (string * Z)) : list (string * Z) :=
  match m with
  | [] => [(k, Js.num_or None 0 + 1)]
  | (k', n) :: r =>
      if String.eqb k' k then (k', Js.num_or (Some n) 0 + 1) :: r
      else (k', n) :: count_language k r
  end.

Definition languageBreakdown (repos : list GitHubRepo) : list (string * Z) :=
  fold_left (fun m repo =>
               if Js.truthy_str (language repo)
               then count_language (Js.str_or (language repo) EmptyString) m
               else m)
            repos [].

End GitHubService.

(* ===================================================================== *)
(** ** services/GitHubService.ts: token management *)
(* ===================================================================== *)

(** The module variable [githubAccessToken] and the calls made on
    [AsyncStorage] for the key 'github_access_token'.  [setItem] and
    [removeItem] are not awaited and their failure is only logged, so a
    call is all the module sees of them; what [getItem] resolves to is
    given to the function that awaits it.  [cache.clear()] acts on the
    response cache alone and is left out. *)

Module AccessToken.
Import GitHubService.

Inductive StorageCall : Type :=
| SetItem (value : string)
| GetItem
| RemoveItem.

Record Store : Type := mkStore {
  githubAccessToken : option string;
  storageCalls : list StorageCall
}.

(** The module as loaded. *)
Definition empty : Store := {| githubAccessToken := None; storageCalls := [] |}.

Definition called (c : StorageCall) (st : Store) : Store :=
  {| githubAccessToken := githubAccessToken st;
     storageCalls := (storageCalls st ++ [c])%list |}.

Definition setGitHubAccessToken (token : string) (st : Store) : Store :=
  called (SetItem token)
         {| githubAccessToken := Some token; storageCalls := storageCalls st |}.

(** [stored] is what [AsyncStorage.getItem] settles with. *)
Definition getStoredAccessToken (stored : Result (option string)) (st : Store)
  : option string * Store :=
  if Js.truthy_str (githubAccessToken st) then (githubAccessToken st, st)
  else
    let st1 := called GetItem st in
    match stored with
    | Ok storedToken =>
        if Js.truthy_str storedToken
        then (storedToken, {| githubAccessToken := storedToken;
                              storageCalls := storageCalls st1 |})
        else (storedToken, st1)
    | Err _ => (None, st1)
    end.

Definition clearGitHubAccessToken (st : Store) : Store :=
  called RemoveItem {| githubAccessToken := None; storageCalls := storageCalls st |}.

(** [GitHubService.getAccessToken]; it returns [githubAccessToken!],
    whatever that holds. *)
Definition getAccessToken (stored : Result (option string)) (st : Store)
  : Result (option string) * Store :=
  if negb (Js.truthy_str (githubAccessToken st)) then
    let (storedToken, st1) := getStoredAccessToken stored st in
    if negb (Js.truthy_str storedToken) then (Err TokenNotSet, st1)
    else (Ok (githubAccessToken st1), st1)
  else (Ok (githubAccessToken st), st).

End AccessToken.

(* ===================================================================== *)
(** ** services/AuthService.ts, screens/LoginScreen.tsx, App.tsx *)
(* ===================================================================== *)

(** Signing in and out, as far as the GitHub token is concerned.  What
    the token endpoint, Firebase and the storage answer is given to the
    function that awaits it. *)

Module AuthService.
Import GitHubService.
Import AccessToken.

(** The JSON of the token endpoint: [data.access_token]. *)
Record TokenData : Type := mkTokenData { access_token : option string }.

(** The errors thrown in [exchangeCodeForToken], before they are wrapped
    into "Token exchange failed: ...". *)
Inductive ExchangeFailure : Type :=
| HttpError (status : Z)     (* HTTP error! status: ... *)
| NoAccessToken              (* No access token in response *)
| RequestRejected.           (* [fetch] or [response.json()] rejected *)

(** What [signInWithCredential] settles with. *)
Inductive Credential : Type :=
| CredentialRejected
| NoUser                     (* a result without [user] *)
| SignedIn (uid : string).

Inductive AuthError : Type :=
| NoCodeVerifier                               (* No codeVerifier available for PKCE *)
| TokenExchangeFailed (cause : ExchangeFailure)
| GitHubSignInFailed                           (* GitHub sign-in failed: ... *)
| SignOutFailed.                               (* Sign out failed: ... *)

Inductive Outcome (A : Type) : Type :=
| Done (a : A)
| Failed (e : AuthError).
Arguments Done {A} a.
Arguments Failed {A} e.

Definition exchangeCodeForToken (answer : option (HttpResponse TokenData))
  : Outcome string :=
  match answer with
  | None => Failed (TokenExchangeFailed RequestRejected)
  | Some response =>
      if negb (ok response)
      then Failed (TokenExchangeFailed (HttpError (status response)))
      else if negb (Js.truthy_str (access_token (json response)))
           then Failed (TokenExchangeFailed NoAccessToken)
           else Done (Js.str_or (access_token (json response)) EmptyString)
  end.

Definition signInWithGitHub (accessToken : string) (credential : Credential)
           (st : Store) : Outcome string * Store :=
  let st1 := setGitHubAccessToken accessToken st in
  match credential with
  | SignedIn uid => (Done uid, st1)
  | NoUser | CredentialRejected => (Failed GitHubSignInFailed, st1)
  end.

(** [signOut()]; [firebase] tells whether [firebaseSignOut] resolved. *)
Definition signOut (firebase : bool) (st : Store) : Outcome unit * Store :=
  let st1 := clearGitHubAccessToken st in
  if firebase then (Done tt, st1) else (Failed SignOutFailed, st1).

End AuthService.

Module LoginScreen.
Import GitHubService.
Import AccessToken.
Import AuthService.

(** The screen's [isLoading], the alerts it has raised, and the token
    module beside it. *)
Record Login : Type := mkLogin {
  isLoading : bool;
  alerts : list AuthError;
  store : Store
}.

Definition fail (e : AuthError) (st : Store) (l : Login) : Login :=
  {| isLoading := false; alerts := (alerts l ++ [e])%list; store := st |}.

(** [handleCodeExchange(code)] run to its end. *)
Definition handleCodeExchange (codeVerifier : option string)
           (answer : option (HttpResponse TokenData)) (credential : Credential)
           (l : Login) : Login :=
  if negb (Js.truthy_str codeVerifier) then fail NoCodeVerifier (store l) l
  else
    match exchangeCodeForToken answer with
    | Failed e => fail e (store l) l
    | Done accessToken =>
        let st1 := setGitHubAccessToken accessToken (store l) in
        match signInWithGitHub accessToken credential st1 with
        | (Done _, st2) =>
            {| isLoading := isLoading l; alerts := alerts l; store := st2 |}
        | (Failed e, st2) => fail e st2 l
        end
    end.

End LoginScreen.

Module App.
Import GitHubService.
Import AccessToken.

(** The root component: the Firebase user, [isLoading], and the token
    module beside them. *)
Record Root : Type := mkRoot {
  user : option string;
  isLoading : bool;
  store : Store
}.

(** The root as first rendered over the token module [st]. *)
Definition launched (st : Store) : Root :=
  {| user := None; isLoading := true; store := st |}.

(** The callback given to [onAuthStateChanged], run to its end;
    [stored] is what the storage answers should it be read. *)
Definition authStateChanged (u : option string) (stored : Result (option string))
           (r : Root) : Root :=
  match u with
  | Some _ =>
      {| user := u; isLoading := false;
         store := snd (getStoredAccessToken stored (store r)) |}
  | None => {| user := None; isLoading := false; store := store r |}
  end.

(** What the root renders. *)
Inductive Shown : Type := Nothing | Main | Login.

Definition shown (r : Root) : Shown :=
  if isLoading r then Nothing
  else match user r with
       | Some _ => Main
       | None => Login
       end.

End App.

(* ===================================================================== *)
(** ** screens/MainScreen.tsx *)
(* ===================================================================== *)

(** The component is a state machine.  Its state is the values held by
    [useState] and [useRef], together with what the runtime holds on its
    behalf: the timeouts scheduled, the start callbacks of the animations
    started, the calls of [fetchIssues] awaiting the service.  Each
    handler runs to completion on one state and is followed by the
    renders it causes, in which the effects whose dependencies changed
    run.  The runtime delivers the expiry of a timeout, the completion of
    an animation and the answer to a fetch as events of their own, in any
    order. *)

Module MainScreen.
Import Types.

Definition SWIPE_THRESHOLD : Q := 50.
Definition SWIPE_VELOCITY_THRESHOLD : Q := 1 # 4.

(** [a < b] and [a > b] on numbers *)
Definition Qlt_bool (a b : Q) : bool := negb (Qle_bool b a).
Definition Qgt_bool (a b : Q) : bool := Qlt_bool b a.

Inductive Direction : Type := Left | Right.

(** The [gestureState] fields the responder reads. *)
Record GestureState : Type := mkGesture {
  dx : Q;
  dy : Q;
  vx : Q
}.

(** The configuration handed to [Animated.spring(position, ...)]. *)
Record Spring : Type := mkSpring {
  toValue : Q;
  friction : Z;
  tension : Z;
  restDisplacementThreshold : option Z;
  restSpeedThreshold : option Z
}.

(** A scheduled [setTimeout]: its handle, its delay, and the [newIndex]
    its closure captured. *)
Record Timer : Type := mkTimer {
  timer_id : nat;
  delay : Z;
  timer_newIndex : Z
}.

(** A call of [fetchIssues] that is awaiting the service: the [filters]
    of the closure that made it, and its two arguments. *)
Record PendingFetch : Type := mkPending {
  pf_filters : IssueFilters;
  pageNum : Z;
  isReset : bool
}.

(** [Alert.alert(title, e.message || fallback)] and
    [Alert.alert(title, message)] *)
Inductive Alert : Type :=
| AlertError (title : string) (e : GitHubService.Error) (fallback : string)
| AlertText (title : string) (message : string).

(** The state of the screen.  The state no handler below reads
    ([currentUser], [orgs], [orgMembers], [detailVisible]) is left out. *)
Record Screen : Type := mkScreen {
  (* useState *)
  issues : list NormalizedIssue;
  currentIndex : Z;
  loading : bool;
  loadingMore : bool;
  totalCount : Z;
  page : Z;
  hasMore : bool;
  filters : IssueFilters;
  selectedIssue : option NormalizedIssue;
  (* useRef *)
  position : Q;
  isAnimatingRef : bool;
  currentIndexRef : Z;
  issuesRef : list NormalizedIssue;
  safetyTimerRef : option nat;
  (* the runtime around the component: scheduled timeouts, animations
     started, start callbacks not yet invoked, fetches in flight, alerts *)
  timers : list Timer;
  nextTimerId : nat;
  springs : list Spring;
  callbacks : list Z;
  fetches : list PendingFetch;
  alerts : list Alert
}.

Definition set_issues (v : list NormalizedIssue) (s : Screen) : Screen :=
  {| issues := v; currentIndex := currentIndex s; loading := loading s;
     loadingMore := loadingMore s; totalCount := totalCount s; page := page s;
     hasMore := hasMore s; filters := filters s; selectedIssue := selectedIssue s;
     position := position s; isAnimatingRef := isAnimatingRef s;
     currentIndexRef := currentIndexRef s; issuesRef := issuesRef s;
     safetyTimerRef := safetyTimerRef s; timers := timers s;
     nextTimerId := nextTimerId s; springs := springs s; callbacks := callbacks s;
     fetches := fetches s; alerts := alerts s |}.

Definition set_currentIndex (v : Z) (s : Screen) : Screen :=
  {| issues := issues s; currentIndex := v; loading := loading s;
     loadingMore := loadingMore s; totalCount := totalCount s; page := page s;
     hasMore := hasMore s; filters := filters s; selectedIssue := selectedIssue s;
     position := position s; isAnimatingRef := isAnimatingRef s;
     currentIndexRef := currentIndexRef s; issuesRef := issuesRef s;
     safetyTimerRef := safetyTimerRef s; timers := timers s;
     nextTimerId := nextTimerId s; springs := springs s; callbacks := callbacks s;
     fetches := fetches s; alerts := alerts s |}.

Definition set_loading (v : bool) (s : Screen) : Screen :=
  {| issues := issues s; currentIndex := currentIndex s; loading := v;
     loadingMore := loadingMore s; totalCount := totalCount s; page := page s;
     hasMore := hasMore s; filters := filters s; selectedIssue := selectedIssue s;
     position := position s; isAnimatingRef := isAnimatingRef s;
     currentIndexRef := currentIndexRef s; issuesRef := issuesRef s;
     safetyTimerRef := safetyTimerRef s; timers := timers s;
     nextTimerId := nextTimerId s; springs := springs s; callbacks := callbacks s;
     fetches := fetches s; alerts := alerts s |}.

Definition set_loadingMore (v : bool) (s : Screen) : Screen :=
  {| issues := issues s; currentIndex := currentIndex s; loading := loading s;
     loadingMore := v; totalCount := totalCount s; page := page s;
     hasMore := hasMore s; filters := filters s; selectedIssue := selectedIssue s;
     position := position s; isAnimatingRef := isAnimatingRef s;
     currentIndexRef := currentIndexRef s; issuesRef := issuesRef s;
     safetyTimerRef := safetyTimerRef s; timers := timers s;
     nextTimerId := nextTimerId s; springs := springs s; callbacks := callbacks s;
     fetches := fetches s; alerts := alerts s |}.

Definition set_totalCount (v : Z) (s : Screen) : Screen :=
  {| issues := issues s; currentIndex := currentIndex s; loading := loading s;
     loadingMore := loadingMore s; totalCount := v; page := page s;
     hasMore := hasMore s; filters := filters s; selectedIssue := selectedIssue s;
     position := position s; isAnimatingRef := isAnimatingRef s;
     currentIndexRef := currentIndexRef s; issuesRef := issuesRef s;
     safetyTimerRef := safetyTimerRef s; timers := timers s;
     nextTimerId := nextTimerId s; springs := springs s; callbacks := callbacks s;
     fetches := fetches s; alerts := alerts s |}.

Definition set_page (v : Z) (s : Screen) : Screen :=
  {| issues := issues s; currentIndex := currentIndex s; loading := loading s;
     loadingMore := loadingMore s; totalCount := totalCount s; page := v;
     hasMore := hasMore s; filters := filters s; selectedIssue := selectedIssue s;
     position := position s; isAnimatingRef := isAnimatingRef s;
     currentIndexRef := currentIndexRef s; issuesRef := issuesRef s;
     safetyTimerRef := safetyTimerRef s; timers := timers s;
     nextTimerId := nextTimerId s; springs := springs s; callbacks := callbacks s;
     fetches := fetches s; alerts := alerts s |}.

Definition set_hasMore (v : bool) (s : Screen) : Screen :=
  {| issues := issues s; currentIndex := currentIndex s; loading := loading s;
     loadingMore := loadingMore s; totalCount := totalCount s; page := page s;
     hasMore := v; filters := filters s; selectedIssue := selectedIssue s;
     position := position s; isAnimatingRef := isAnimatingRef s;
     currentIndexRef := currentIndexRef s; issuesRef := issuesRef s;
     safetyTimerRef := safetyTimerRef s; timers := timers s;
     nextTimerId := nextTimerId s; springs := springs s; callbacks := callbacks s;
     fetches := fetches s; alerts := alerts s |}.

Definition set_filters (v : IssueFilters) (s : Screen) : Screen :=
  {| issues := issues s; currentIndex := currentIndex s; loading := loading s;
     loadingMore := loadingMore s; totalCount := totalCount s; page := page s;
     hasMore := hasMore s; filters := v; selectedIssue := selectedIssue s;
     position := position s; isAnimatingRef := isAnimatingRef s;
     currentIndexRef := currentIndexRef s; issuesRef := issuesRef s;
     safetyTimerRef := safetyTimerRef s; timers := timers s;
     nextTimerId := nextTimerId s; springs := springs s; callbacks := callbacks s;
     fetches := fetches s; alerts := alerts s |}.

Definition set_selectedIssue (v : option NormalizedIssue) (s : Screen) : Screen :=
  {| issues := issues s; currentIndex := currentIndex s; loading := loading s;
     loadingMore := loadingMore s; totalCount := totalCount s; page := page s;
     hasMore := hasMore s; filters := filters s; selectedIssue := v;
     position := position s; isAnimatingRef := isAnimatingRef s;
     currentIndexRef := currentIndexRef s; issuesRef := issuesRef s;
     safetyTimerRef := safetyTimerRef s; timers := timers s;
     nextTimerId := nextTimerId s; springs := springs s; callbacks := callbacks s;
     fetches := fetches s; alerts := alerts s |}.

Definition set_position (v : Q) (s : Screen) : Screen :=
  {| issues := issues s; currentIndex := currentIndex s; loading := loading s;
     loadingMore := loadingMore s; totalCount := totalCount s; page := page s;
     hasMore := hasMore s; filters := filters s; selectedIssue := selectedIssue s;
     position := v; isAnimatingRef := isAnimatingRef s;
     currentIndexRef := currentIndexRef s; issuesRef := issuesRef s;
     safetyTimerRef := safetyTimerRef s; timers := timers s;
     nextTimerId := nextTimerId s; springs := springs s; callbacks := callbacks s;
     fetches := fetches s; alerts := alerts s |}.

Definition set_isAnimatingRef (v : bool) (s : Screen) : Screen :=
  {| issues := issues s; currentIndex := currentIndex s; loading := loading s;
     loadingMore := loadingMore s; totalCount := totalCount s; page := page s;
     hasMore := hasMore s; filters := filters s; selectedIssue := selectedIssue s;
     position := position s; isAnimatingRef := v;
     currentIndexRef := currentIndexRef s; issuesRef := issuesRef s;
     safetyTimerRef := safetyTimerRef s; timers := timers s;
     nextTimerId := nextTimerId s; springs := springs s; callbacks := callbacks s;
     fetches := fetches s; alerts := alerts s |}.

Definition set_currentIndexRef (v : Z) (s : Screen) : Screen :=
  {| issues := issues s; currentIndex := currentIndex s; loading := loading s;
     loadingMore := loadingMore s; totalCount := totalCount s; page := page s;
     hasMore := hasMore s; filters := filters s; selectedIssue := selectedIssue s;
     position := position s; isAnimatingRef := isAnimatingRef s;
     currentIndexRef := v; issuesRef := issuesRef s;
     safetyTimerRef := safetyTimerRef s; timers := timers s;
     nextTimerId := nextTimerId s; springs := springs s; callbacks := callbacks s;
     fetches := fetches s; alerts := alerts s |}.

Definition set_issuesRef (v : list NormalizedIssue) (s : Screen) : Screen :=
  {| issues := issues s; currentIndex := currentIndex s; loading := loading s;
     loadingMore := loadingMore s; totalCount := totalCount s; page := page s;
     hasMore := hasMore s; filters := filters s; selectedIssue := selectedIssue s;
     position := position s; isAnimatingRef := isAnimatingRef s;
     currentIndexRef := currentIndexRef s; issuesRef := v;
     safetyTimerRef := safetyTimerRef s; timers := timers s;
     nextTimerId := nextTimerId s; springs := springs s; callbacks := callbacks s;
     fetches := fetches s; alerts := alerts s |}.

Definition set_safetyTimerRef (v : option nat) (s : Screen) : Screen :=
  {| issues := issues s; currentIndex := currentIndex s; loading := loading s;
     loadingMore := loadingMore s; totalCount := totalCount s; page := page s;
     hasMore := hasMore s; filters := filters s; selectedIssue := selectedIssue s;
     position := position s; isAnimatingRef := isAnimatingRef s;
     currentIndexRef := currentIndexRef s; issuesRef := issuesRef s;
     safetyTimerRef := v; timers := timers s; nextTimerId := nextTimerId s;
     springs := springs s; callbacks := callbacks s; fetches := fetches s;
     alerts := alerts s |}.

Definition set_timers (v : list Timer) (s : Screen) : Screen :=
  {| issues := issues s; currentIndex := currentIndex s; loading := loading s;
     loadingMore := loadingMore s; totalCount := totalCount s; page := page s;
     hasMore := hasMore s; filters := filters s; selectedIssue := selectedIssue s;
     position := position s; isAnimatingRef := isAnimatingRef s;
     currentIndexRef := currentIndexRef s; issuesRef := issuesRef s;
     safetyTimerRef := safetyTimerRef s; timers := v; nextTimerId := nextTimerId s;
     springs := springs s; callbacks := callbacks s; fetches := fetches s;
     alerts := alerts s |}.

Definition set_nextTimerId (v : nat) (s : Screen) : Screen :=
  {| issues := issues s; currentIndex := currentIndex s; loading := loading s;
     loadingMore := loadingMore s; totalCount := totalCount s; page := page s;
     hasMore := hasMore s; filters := filters s; selectedIssue := selectedIssue s;
     position := position s; isAnimatingRef := isAnimatingRef s;
     currentIndexRef := currentIndexRef s; issuesRef := issuesRef s;
     safetyTimerRef := safetyTimerRef s; timers := timers s; nextTimerId := v;
     springs := springs s; callbacks := callbacks s; fetches := fetches s;
     alerts := alerts s |}.

Definition set_springs (v : list Spring) (s : Screen) : Screen :=
  {| issues := issues s; currentIndex := currentIndex s; loading := loading s;
     loadingMore := loadingMore s; totalCount := totalCount s; page := page s;
     hasMore := hasMore s; filters := filters s; selectedIssue := selectedIssue s;
     position := position s; isAnimatingRef := isAnimatingRef s;
     currentIndexRef := currentIndexRef s; issuesRef := issuesRef s;
     safetyTimerRef := safetyTimerRef s; timers := timers s;
     nextTimerId := nextTimerId s; springs := v; callbacks := callbacks s;
     fetches := fetches s; alerts := alerts s |}.

Definition set_callbacks (v : list Z) (s : Screen) : Screen :=
  {| issues := issues s; currentIndex := currentIndex s; loading := loading s;
     loadingMore := loadingMore s; totalCount := totalCount s; page := page s;
     hasMore := hasMore s; filters := filters s; selectedIssue := selectedIssue s;
     position := position s; isAnimatingRef := isAnimatingRef s;
     currentIndexRef := currentIndexRef s; issuesRef := issuesRef s;
     safetyTimerRef := safetyTimerRef s; timers := timers s;
     nextTimerId := nextTimerId s; springs := springs s; callbacks := v;
     fetches := fetches s; alerts := alerts s |}.

Definition set_fetches (v : list PendingFetch) (s : Screen) : Screen :=
  {| issues := issues s; currentIndex := currentIndex s; loading := loading s;
     loadingMore := loadingMore s; totalCount := totalCount s; page := page s;
     hasMore := hasMore s; filters := filters s; selectedIssue := selectedIssue s;
     position := position s; isAnimatingRef := isAnimatingRef s;
     currentIndexRef := currentIndexRef s; issuesRef := issuesRef s;
     safetyTimerRef := safetyTimerRef s; timers := timers s;
     nextTimerId := nextTimerId s; springs := springs s; callbacks := callbacks s;
     fetches := v; alerts := alerts s |}.

Definition set_alerts (v : list Alert) (s : Screen) : Screen :=
  {| issues := issues s; currentIndex := currentIndex s; loading := loading s;
     loadingMore := loadingMore s; totalCount := totalCount s; page := page s;
     hasMore := hasMore s; filters := filters s; selectedIssue := selectedIssue s;
     position := position s; isAnimatingRef := isAnimatingRef s;
     currentIndexRef := currentIndexRef s; issuesRef := issuesRef s;
     safetyTimerRef := safetyTimerRef s; timers := timers s;
     nextTimerId := nextTimerId s; springs := springs s; callbacks := callbacks s;
     fetches := fetches s; alerts := v |}.

(** The component as first rendered, before its effects have run. *)
Definition initial : Screen :=
  {| issues := []; currentIndex := 0; loading := true; loadingMore := false;
     totalCount := 0; page := 1; hasMore := true;
     filters := {| source := all; f_state := open; repository := None;
                   f_labels := None; sortOrder := updated; sortDirection := desc;
                   f_organization := None; assignee := None |};
     selectedIssue := None;
     position := 0; isAnimatingRef := false; currentIndexRef := 0;
     issuesRef := []; safetyTimerRef := None;
     timers := []; nextTimerId := 1; springs := []; callbacks := [];
     fetches := []; alerts := [] |}.

Definition alert (a : Alert) (s : Screen) : Screen :=
  set_alerts (alerts s ++ [a])%list s.

(** *** Fetch issues *)

(** [needsSelection]: the organization feed with no organization chosen. *)
Definition needsSelection (f : IssueFilters) : bool :=
  match source f with
  | organization => negb (Js.truthy_str (f_organization f))
  | all => false
  end.

(** [fetchIssues(pageNum, isReset)] up to its first [await]: [closure]
    is the [filters] of the render whose [fetchIssues] is being called,
    the state setters are queued onto [s].  With no organization chosen
    the function returns before any [await], through its [finally]. *)
Definition fetchIssues_begin (closure : IssueFilters) (pageNum : Z) (isReset : bool)
           (s : Screen) : Screen :=
  let s1 := if isReset then set_loading true s else set_loadingMore true s in
  if needsSelection closure then set_loadingMore false (set_loading false s1)
  else set_fetches (fetches s1 ++ [{| pf_filters := closure; pageNum := pageNum;
                                      isReset := isReset |}])%list s1.

(** What the [try] block of a suspended [fetchIssues] obtains from the
    service; [Ok None] stands for a [result] left undefined, which a call
    that got as far as its [await] does not produce. *)
Definition fetchIssues_call (session : GitHubService.Session) (pf : PendingFetch)
  : GitHubService.Result (option PaginatedResponse) :=
  let f := pf_filters pf in
  match source f with
  | all =>
      match GitHubService.run
              (GitHubService.fetchAllIssues session (pageNum pf) 20 (f_state f)
                 (sort_str (sortOrder f)) (direction_str (sortDirection f))
                 (repository f) (f_labels f) None) with
      | GitHubService.Ok r => GitHubService.Ok (Some r)
      | GitHubService.Err e => GitHubService.Err e
      end
  | organization =>
      if needsSelection f then GitHubService.Ok None
      else
        match GitHubService.run
                (GitHubService.fetchOrgIssues session
                   (Js.str_or (f_organization f) EmptyString) (pageNum pf) 20
                   (f_state f) (sort_str (sortOrder f))
                   (direction_str (sortDirection f))
                   (repository f) (assignee f) (f_labels f) None) with
        | GitHubService.Ok r => GitHubService.Ok (Some r)
        | GitHubService.Err e => GitHubService.Err e
        end
  end.

(** [fetchIssues] from the point where the service has answered. *)
Definition fetchIssues_settle (pf : PendingFetch)
           (r : GitHubService.Result (option PaginatedResponse)) (s : Screen) : Screen :=
  let s1 :=
    match r with
    | GitHubService.Ok (Some result) =>
        let s2 := if isReset pf
                  then set_currentIndex 0 (set_issues (items result) s)
                  else set_issues (issues s ++ items result)%list s in
        set_page (pageNum pf)
          (set_hasMore (hasNextPage result)
             (set_totalCount (Types.totalCount result) s2))
    | GitHubService.Ok None => s
    | GitHubService.Err e => alert (AlertError "Error" e "Failed to load issues") s
    end in
  set_loadingMore false (set_loading false s1).

(** *** Swipe: the animation lock and the safety timer *)

Definition clearTimeout (id : nat) (s : Screen) : Screen :=
  set_timers (filter (fun t => negb (Nat.eqb (timer_id t) id)) (timers s)) s.

(** [setTimeout(() => { if (isAnimatingRef.current) completeSwipe(newIndex) }, ms)]
    stored in [safetyTimerRef.current]; handles are positive. *)
Definition setSafetyTimeout (newIndex : Z) (ms : Z) (s : Screen) : Screen :=
  let id := nextTimerId s in
  set_safetyTimerRef (Some id)
    (set_nextTimerId (S id)
       (set_timers (timers s ++ [{| timer_id := id; delay := ms;
                                    timer_newIndex := newIndex |}])%list s)).

(** [Animated.spring(position, cfg).start(cb)] *)
Definition startSpring (cfg : Spring) (cb : option Z) (s : Screen) : Screen :=
  let s1 := set_springs (springs s ++ [cfg])%list s in
  match cb with
  | Some newIndex => set_callbacks (callbacks s1 ++ [newIndex])%list s1
  | None => s1
  end.

Definition resetAnimationLock (s : Screen) : Screen :=
  let s1 := match safetyTimerRef s with
            | Some id => set_safetyTimerRef None (clearTimeout id s)
            | None => s
            end in
  set_isAnimatingRef false s1.

Definition completeSwipe (newIndex : Z) (s : Screen) : Screen :=
  resetAnimationLock
    (set_currentIndex newIndex
       (set_currentIndexRef newIndex
          (set_position 0 s))).

Section Gestures.
(** [Dimensions.get('window').width] *)
Variable SCREEN_WIDTH : Q.

Definition bounceAtEdge : Spring :=
  {| toValue := 0; friction := 6; tension := 80;
     restDisplacementThreshold := None; restSpeedThreshold := None |}.

Definition springBack : Spring :=
  {| toValue := 0; friction := 7; tension := 80;
     restDisplacementThreshold := None; restSpeedThreshold := None |}.

Definition swipeOut (direction : Direction) : Spring :=
  {| toValue := match direction with
                | Left => (- SCREEN_WIDTH * (3 # 2))%Q
                | Right => (SCREEN_WIDTH * (3 # 2))%Q
                end;
     friction := 8; tension := 40;
     restDisplacementThreshold := Some 100; restSpeedThreshold := Some 100 |}.

Definition forceSwipe (direction : Direction) (s : Screen) : Screen :=
  if isAnimatingRef s then s
  else
    let idx := currentIndexRef s in
    let len := Z.of_nat (List.length (issuesRef s)) in
    let newIndex := match direction with
                    | Left => idx + 1
                    | Right => idx - 1
                    end in
    if (newIndex <? 0) || (newIndex >=? len) then
      startSpring bounceAtEdge None s
    else
      let s1 := set_isAnimatingRef true s in
      let s2 := setSafetyTimeout newIndex 500 s1 in
      startSpring (swipeOut direction) (Some newIndex) s2.

(** The pan responder.  [position.stopAnimation()] and
    [position.setValue(v)] act on the animated value only; whether and
    when a start callback is invoked is the runtime's business and is
    the event [SpringFinished] below. *)
Definition onMoveShouldSetPanResponder (gs : GestureState) (s : Screen) : bool :=
  if isAnimatingRef s then false
  else Qgt_bool (Qabs (dx gs)) 15
       && Qgt_bool (Qabs (dx gs)) (Qabs (dy gs) * (3 # 2))%Q.

Definition onPanResponderGrant (s : Screen) : Screen :=
  resetAnimationLock (set_position 0 s).

Definition onPanResponderMove (gs : GestureState) (s : Screen) : Screen :=
  set_position (dx gs) s.

Definition swipedLeft (gs : GestureState) : bool :=
  Qlt_bool (dx gs) (- SWIPE_THRESHOLD)%Q
  || (Qlt_bool (dx gs) (- (25))%Q && Qlt_bool (vx gs) (- SWIPE_VELOCITY_THRESHOLD)%Q).

Definition swipedRight (gs : GestureState) : bool :=
  Qgt_bool (dx gs) SWIPE_THRESHOLD
  || (Qgt_bool (dx gs) 25 && Qgt_bool (vx gs) SWIPE_VELOCITY_THRESHOLD).

Definition onPanResponderRelease (gs : GestureState) (s : Screen) : Screen :=
  if swipedLeft gs then forceSwipe Left s
  else if swipedRight gs then forceSwipe Right s
  else startSpring springBack None s.

Definition onPanResponderTerminate (s : Screen) : Screen :=
  resetAnimationLock (set_position 0 s).

End Gestures.

(** *** What the runtime delivers *)

(** The safety timeout [id] expires. *)
Definition timerFired (id : nat) (s : Screen) : Screen :=
  match find (fun t => Nat.eqb (timer_id t) id) (timers s) with
  | None => s
  | Some t =>
      let s1 := clearTimeout id s in
      if isAnimatingRef s1 then completeSwipe (timer_newIndex t) s1 else s1
  end.

Fixpoint remove_first (n : Z) (l : list Z) : list Z :=
  match l with
  | [] => []
  | x :: r => if x =? n then r else x :: remove_first n r
  end.

(** The start callback that captured [newIndex] is invoked. *)
Definition springFinished (newIndex : Z) (s : Screen) : Screen :=
  if existsb (Z.eqb newIndex) (callbacks s)
  then completeSwipe newIndex
         (set_callbacks (remove_first newIndex (callbacks s)) s)
  else s.

Fixpoint remove_nth {A : Type} (k : nat) (l : list A) : list A :=
  match k, l with
  | _, [] => []
  | O, _ :: r => r
  | S k', x :: r => x :: remove_nth k' r
  end.

(** The [k]-th fetch in flight is answered by the upstream of [session]. *)
Definition fetchSettled (k : nat) (session : GitHubService.Session) (s : Screen)
  : Screen :=
  match nth_error (fetches s) k with
  | None => s
  | Some pf =>
      fetchIssues_settle pf (fetchIssues_call session pf)
                         (set_fetches (remove_nth k (fetches s)) s)
  end.

(** *** Source and filter handlers *)

Definition handleSourceChange (src : IssueSource) (orgs : list string) (s : Screen)
  : Screen :=
  let newFilters :=
    {| source := src; f_state := open; repository := None; f_labels := None;
       sortOrder := updated; sortDirection := desc;
       f_organization := match src, orgs with
                         | organization, o :: _ => Some o
                         | _, _ => None
                         end;
       assignee := None |} in
  set_filters newFilters s.

Definition handleFiltersChange (newFilters : IssueFilters) (s : Screen) : Screen :=
  set_filters newFilters s.

(** *** Detail modal *)

Definition same_issue (updated i : NormalizedIssue) : bool :=
  (issueId i =? issueId updated) && String.eqb (repo i) (repo updated).

Definition handleIssueUpdated (updated : NormalizedIssue) (s : Screen) : Screen :=
  set_selectedIssue (Some updated)
    (set_issues (map (fun i => if same_issue updated i then updated else i)
                     (issues s)) s).

Definition handleOpenDetail (s : Screen) : Screen :=
  if currentIndex s <? 0 then s
  else match nth_error (issues s) (Z.to_nat (currentIndex s)) with
       | Some i => set_selectedIssue (Some i) s
       | None => s
       end.

(** *** Effects *)

Definition state_eqb (a b : IssueState) : bool :=
  match a, b with open, open | closed, closed => true | _, _ => false end.

Definition source_eqb (a b : IssueSource) : bool :=
  match a, b with all, all | organization, organization => true | _, _ => false end.

Definition sortOrder_eqb (a b : SortOrder) : bool :=
  match a, b with
  | updated, updated | created, created | comments, comments => true
  | _, _ => false
  end.

Definition sortDirection_eqb (a b : SortDirection) : bool :=
  match a, b with asc, asc | desc, desc => true | _, _ => false end.

(** The dependency list of the fetch effect:
    [filters.source, filters.state, filters.sortOrder, filters.sortDirection,
     filters.repository, filters.organization, filters.assignee]. *)
Definition fetch_deps_same (a b : IssueFilters) : bool :=
  source_eqb (source a) (source b)
  && state_eqb (f_state a) (f_state b)
  && sortOrder_eqb (sortOrder a) (sortOrder b)
  && sortDirection_eqb (sortDirection a) (sortDirection b)
  && Js.opt_eqb (repository a) (repository b)
  && Js.opt_eqb (f_organization a) (f_organization b)
  && Js.opt_eqb (assignee a) (assignee b).

(** The body of the fetch effect.  [r] is the render whose closure
    runs; its state setters are queued onto [acc]. *)
Definition fetchEffect (r acc : Screen) : Screen :=
  let a1 := set_issues [] acc in
  let a2 := set_currentIndex 0 a1 in
  let a3 := set_page 1 a2 in
  let a4 := set_hasMore true a3 in
  fetchIssues_begin (filters r) 1 true a4.

(** The dependency list of the auto-load effect:
    [currentIndex, issues.length, hasMore, loadingMore, page]. *)
Definition autoLoad_deps_same (a b : Screen) : bool :=
  (currentIndex a =? currentIndex b)
  && Nat.eqb (List.length (issues a)) (List.length (issues b))
  && Bool.eqb (hasMore a) (hasMore b)
  && Bool.eqb (loadingMore a) (loadingMore b)
  && (page a =? page b).

Definition autoLoadEffect (r acc : Screen) : Screen :=
  let len := Z.of_nat (List.length (issues r)) in
  if (len >? 0) && (currentIndex r >=? len - 3) && hasMore r && negb (loadingMore r)
  then fetchIssues_begin (filters r) (page r + 1) false acc
  else acc.

(** One render of state [r] after a render of state [prev], and the
    effects whose dependencies changed, in source order: the two
    ref-syncing effects, the fetch effect, the auto-load effect.  The
    effect on [issues] depends on the identity of the array; an array
    with the same items is the same value here, so writing [issuesRef]
    at every render is what the effect does. *)
Definition commit (prev r : Screen) : Screen :=
  let a1 := if currentIndex prev =? currentIndex r then r
            else set_currentIndexRef (currentIndex r) r in
  let a2 := set_issuesRef (issues r) a1 in
  let a3 := if fetch_deps_same (filters prev) (filters r) then a2
            else fetchEffect r a2 in
  if autoLoad_deps_same prev r then a3 else autoLoadEffect r a3.

(** A handler has turned the rendered state [prev] into [s]: the
    component renders [s], and renders once more for what the effects
    of that render queued. *)
Definition render (prev s : Screen) : Screen :=
  commit s (commit prev s).

(** The first render: every effect runs. *)
Definition mount : Screen :=
  let r := initial in
  let a1 := set_currentIndexRef (currentIndex r) r in
  let a2 := set_issuesRef (issues r) a1 in
  let a3 := fetchEffect r a2 in
  commit r (autoLoadEffect r a3).

(** *** The component as a machine *)

Inductive Event : Type :=
| SourceChange (src : IssueSource) (orgs : list string)
| FiltersChange (newFilters : IssueFilters)
| FetchSettled (k : nat) (session : GitHubService.Session)
| PanGrant (gs : GestureState)
| PanMove (gs : GestureState)
| PanRelease (gs : GestureState)
| PanTerminate
| TimerFired (id : nat)
| SpringFinished (newIndex : Z)
| OpenDetail
| IssueUpdated (updated : NormalizedIssue).

Section Machine.
Variable SCREEN_WIDTH : Q.

Definition dispatch (e : Event) (s : Screen) : Screen :=
  match e with
  | SourceChange src orgs => handleSourceChange src orgs s
  | FiltersChange f => handleFiltersChange f s
  | FetchSettled k session => fetchSettled k session s
  | PanGrant gs =>
      if onMoveShouldSetPanResponder gs s then onPanResponderGrant s else s
  | PanMove gs => onPanResponderMove gs s
  | PanRelease gs => onPanResponderRelease SCREEN_WIDTH gs s
  | PanTerminate => onPanResponderTerminate s
  | TimerFired id => timerFired id s
  | SpringFinished n => springFinished n s
  | OpenDetail => handleOpenDetail s
  | IssueUpdated u => handleIssueUpdated u s
  end.

Definition handle (e : Event) (s : Screen) : Screen :=
  render s (dispatch e s).

Definition run_events (es : list Event) (s : Screen) : Screen :=
  fold_left (fun st e => handle e st) es s.

End Machine.

(** *** What a render shows *)

(** [issues[i]] *)
Definition issue_at (l : list NormalizedIssue) (i : Z) : option NormalizedIssue :=
  if i <? 0 then None else nth_error l (Z.to_nat i).

(** [progress]: the filled share of the progress bar *)
Definition progress (s : Screen) : Q :=
  if Z.of_nat (List.length (issues s)) >? 0
  then (inject_Z (currentIndex s + 1) / inject_Z (Z.of_nat (List.length (issues s))))%Q
  else 0.

(** The alternatives of the card area, in the order the render tests
    them; [Blank] is the final [null]. *)
Inductive CardArea : Type :=
| LoadingIssues
| SelectAnOrganization
| NoIssuesFound
| CardsStack (currentIssue : NormalizedIssue) (nextIssue : option NormalizedIssue)
| Blank.

Definition cardArea (s : Screen) : CardArea :=
  if loading s then LoadingIssues
  else if needsSelection (filters s) then SelectAnOrganization
  else if Nat.eqb (List.length (issues s)) 0 then NoIssuesFound
  else match issue_at (issues s) (currentIndex s) with
       | Some currentIssue =>
           CardsStack currentIssue (issue_at (issues s) (currentIndex s + 1))
       | None => Blank
       end.

End MainScreen.

(* ===================================================================== *)
(** ** components/FilterBar.tsx *)
(* ===================================================================== *)

Module FilterBar.
Import Types.

(** The controls of the bar that call [update]: the state chip, a row of
    the organization picker, a row of the assignee picker, a row of the
    sort picker, the direction chip. *)
Inductive Control : Type :=
| StateChip
| OrganizationRow (id : string)
| AssigneeRow (id : string)
| SortRow (key : SortOrder)
| DirectionChip.

(** [{ ...filters, ...partial }] for the [partial] of each control: what
    the bar hands to [onFiltersChange]. *)
Definition update (c : Control) (filters : IssueFilters) : IssueFilters :=
  match c with
  | StateChip =>
      {| source := source filters;
         f_state := match f_state filters with open => closed | closed => open end;
         repository := repository filters; f_labels := f_labels filters;
         sortOrder := sortOrder filters; sortDirection := sortDirection filters;
         f_organization := f_organization filters; assignee := assignee filters |}
  | OrganizationRow id =>
      {| source := source filters; f_state := f_state filters;
         repository := repository filters; f_labels := f_labels filters;
         sortOrder := sortOrder filters; sortDirection := sortDirection filters;
         f_organization := Some id; assignee := None |}
  | AssigneeRow id =>
      {| source := source filters; f_state := f_state filters;
         repository := repository filters; f_labels := f_labels filters;
         sortOrder := sortOrder filters; sortDirection := sortDirection filters;
         f_organization := f_organization filters;
         assignee := if String.eqb id EmptyString then None else Some id |}
  | SortRow key =>
      {| source := source filters; f_state := f_state filters;
         repository := repository filters; f_labels := f_labels filters;
         sortOrder := key; sortDirection := sortDirection filters;
         f_organization := f_organization filters; assignee := assignee filters |}
  | DirectionChip =>
      {| source := source filters; f_state := f_state filters;
         repository := repository filters; f_labels := f_labels filters;
         sortOrder := sortOrder filters;
         sortDirection := match sortDirection filters with desc => asc | asc => desc end;
         f_organization := f_organization filters; assignee := assignee filters |}
  end.

End FilterBar.

(* ===================================================================== *)
(** ** components/IssueDetailModal.tsx *)
(* ===================================================================== *)

Module IssueDetailModal.
Import Types.
Import MainScreen.

(** [{ ...issue, state }], [{ ...issue, assignees }], [{ ...issue, labels }] *)
Definition with_state (issue : NormalizedIssue) (v : IssueState) : NormalizedIssue :=
  {| issueId := issueId issue; nodeId := nodeId issue; title := title issue;
     body := body issue; repo := repo issue; org := org issue; url := url issue;
     state := v; labels := labels issue; assignees := assignees issue;
     createdAt := createdAt issue; updatedAt := updatedAt issue;
     commentCount := commentCount issue; number := number issue;
     user := user issue; project := project issue |}.

Definition with_assignees (issue : NormalizedIssue) (v : list GitHubUser)
  : NormalizedIssue :=
  {| issueId := issueId issue; nodeId := nodeId issue; title := title issue;
     body := body issue; repo := repo issue; org := org issue; url := url issue;
     state := state issue; labels := labels issue; assignees := v;
     createdAt := createdAt issue; updatedAt := updatedAt issue;
     commentCount := commentCount issue; number := number issue;
     user := user issue; project := project issue |}.

Definition with_labels (issue : NormalizedIssue) (v : list GitHubLabel)
  : NormalizedIssue :=
  {| issueId := issueId issue; nodeId := nodeId issue; title := title issue;
     body := body issue; repo := repo issue; org := org issue; url := url issue;
     state := state issue; labels := v; assignees := assignees issue;
     createdAt := createdAt issue; updatedAt := updatedAt issue;
     commentCount := commentCount issue; number := number issue;
     user := user issue; project := project issue |}.

(** [repoParts]: [issue.repo.split('/')], each part defaulting to [''] *)
Definition repoParts (issue : NormalizedIssue) : string * string :=
  let parts := Js.split (repo issue) Js.slash in
  (Js.nth_or_empty parts 0, Js.nth_or_empty parts 1).

(** Membership toggle against the current snapshot:
    [cur.includes(x) ? cur.filter(a => a !== x) : [...cur, x]] *)
Definition toggle (cur : list string) (x : string) : list string :=
  if Js.arr_includes cur x
  then filter (fun a => negb (String.eqb a x)) cur
  else (cur ++ [x])%list.

Definition is_ws (c : ascii) : bool :=
  let n := nat_of_ascii c in
  (Nat.leb 9 n && Nat.leb n 13) || Nat.eqb n 32.

Fixpoint trim_start (s : string) : string :=
  match s with
  | String c rest => if is_ws c then trim_start rest else s
  | EmptyString => EmptyString
  end.

Fixpoint rev_string (acc s : string) : string :=
  match s with
  | EmptyString => acc
  | String c rest => rev_string (String c acc) rest
  end.

(** [s.trim()] on ASCII white space *)
Definition trim (s : string) : string :=
  rev_string EmptyString (trim_start (rev_string EmptyString (trim_start s))).

Section Handlers.
(** The session the service calls go through when the handler runs. *)
Variable session : GitHubService.Session.

(** Each handler is given the screen that owns the modal: the [issue]
    prop is its [selectedIssue], [onIssueUpdated] is its
    [handleIssueUpdated]. *)

Definition handleToggleState (s : Screen) : Screen :=
  match selectedIssue s with
  | None => s
  | Some issue =>
      let newState := match state issue with open => closed | closed => open end in
      match GitHubService.run
              (GitHubService.updateIssueState session
                 (fst (repoParts issue)) (snd (repoParts issue))
                 (number issue) newState) with
      | GitHubService.Ok _ =>
          alert (AlertText "Updated"
                           (match newState with
                            | closed => "Issue closed"
                            | open => "Issue reopened"
                            end))
                (handleIssueUpdated (with_state issue newState) s)
      | GitHubService.Err e =>
          alert (AlertError "Error" e "Failed to update issue state") s
      end
  end.

Definition handleAssign (who : string) (s : Screen) : Screen :=
  match selectedIssue s with
  | None => s
  | Some issue =>
      let currentAssignees := map login (assignees issue) in
      let newAssignees := toggle currentAssignees who in
      match GitHubService.run
              (GitHubService.assignIssue session
                 (fst (repoParts issue)) (snd (repoParts issue))
                 (number issue) newAssignees) with
      | GitHubService.Ok _ =>
          let updatedAssignees :=
            map (fun l =>
                   match find (fun a => String.eqb (login a) l) (assignees issue) with
                   | Some existing => existing
                   | None => {| user_id := IdNum 0; login := l; user_name := l;
                                avatar_url := EmptyString; email := EmptyString |}
                   end) newAssignees in
          handleIssueUpdated (with_assignees issue updatedAssignees) s
      | GitHubService.Err e =>
          alert (AlertError "Error" e "Failed to update assignees") s
      end
  end.

Definition handleToggleLabel (labelName : string) (s : Screen) : Screen :=
  match selectedIssue s with
  | None => s
  | Some issue =>
      let currentLabels := map label_name (labels issue) in
      let newLabels := toggle currentLabels labelName in
      match GitHubService.run
              (GitHubService.updateLabels session
                 (fst (repoParts issue)) (snd (repoParts issue))
                 (number issue) newLabels) with
      | GitHubService.Ok _ =>
          handleIssueUpdated
            (with_labels issue
               (map (fun name =>
                       match find (fun l => String.eqb (label_name l) name)
                                  (labels issue) with
                       | Some existing => existing
                       | None => {| label_name := name; color := "666666" |}
                       end) newLabels)) s
      | GitHubService.Err e =>
          alert (AlertError "Error" e "Failed to update labels") s
      end
  end.

Definition handleAddComment (newComment : string) (s : Screen) : Screen :=
  match selectedIssue s with
  | None => s
  | Some issue =>
      if String.eqb (trim newComment) EmptyString then s
      else
        match GitHubService.run
                (GitHubService.addComment session
                   (fst (repoParts issue)) (snd (repoParts issue))
                   (number issue) (trim newComment)) with
        | GitHubService.Ok _ => alert (AlertText "Done" "Comment added") s
        | GitHubService.Err e =>
            alert (AlertError "Error" e "Failed to add comment") s
        end
  end.

(** The four edits the modal offers. *)
Inductive Mutation : Type :=
| ToggleState
| Assign (who : string)
| ToggleLabel (labelName : string)
| AddComment (newComment : string).

Definition mutate (m : Mutation) (s : Screen) : Screen :=
  match m with
  | ToggleState => handleToggleState s
  | Assign who => handleAssign who s
  | ToggleLabel l => handleToggleLabel l s
  | AddComment c => handleAddComment c s
  end.

End Handlers.

End IssueDetailModal.

(* ===================================================================== *)
(** ** services/GroqService.ts *)
(* ===================================================================== *)

Module GroqService.

(** [data.choices?.[0]?.message?.content] *)
Record Message : Type := mkMessage { content : option string }.
Record Choice : Type := mkChoice { message : option Message }.
Record GroqData : Type := mkGroqData { choices : option (list (option Choice)) }.

Inductive Error : Type :=
| GroqApiError (status : Z)    (* Groq API error: <status> *)
| FetchRejected.               (* [fetch] itself rejected *)

Inductive Outcome : Type :=
| Resolved (summary : string)
| Rejected (e : Error).

(** [summaryCache]: a [Map] from keys to summaries, in insertion order. *)
Definition Cache : Type := list (string * string).

Fixpoint cache_get (k : string) (c : Cache) : option string :=
  match c with
  | [] => None
  | (k', v) :: r => if String.eqb k' k then Some v else cache_get k r
  end.

Fixpoint cache_set (k v : string) (c : Cache) : Cache :=
  match c with
  | [] => [(k, v)]
  | (k', v') :: r =>
      if String.eqb k' k then (k', v) :: r else (k', v') :: cache_set k v r
  end.

Definition first_content (d : GroqData) : option string :=
  match choices d with
  | Some (Some c :: _) =>
      match message c with
      | Some m => content m
      | None => None
      end
  | _ => None
  end.

Definition prompt_of (title body : string) (labels : list string) (repo : string)
  : string :=
  let labelsStr := match labels with
                   | [] => EmptyString
                   | _ :: _ => "Labels: " ++ Js.join labels ", "
                   end in
  let bodyTrimmed := Js.slice0 800 body in
  "Summarize this GitHub issue in exactly 2 short sentences (max 120 chars total). Be concise and actionable."
  ++ Js.newline ++ Js.newline
  ++ "Title: " ++ title ++ Js.newline
  ++ "Repo: " ++ repo ++ Js.newline
  ++ labelsStr ++ Js.newline
  ++ "Description: " ++ bodyTrimmed ++ Js.newline ++ Js.newline
  ++ "Summary:".

(** What one call leaves behind: its outcome, the cache, and the
    prompts posted to the completion endpoint. *)
Record Call : Type := mkCall {
  outcome : Outcome;
  cache : Cache;
  posted : list string
}.

(** [getIssueSummary(title, body, labels, repo)] on the cache [c];
    [answer] is what [fetch] settles with, [None] when it rejects. *)
Definition getIssueSummary (title body : string) (labels : list string)
           (repo : string)
           (answer : option (GitHubService.HttpResponse GroqData)) (c : Cache)
  : Call :=
  let cacheKey := repo ++ ":" ++ title in
  if Js.truthy_str (cache_get cacheKey c)
  then {| outcome := Resolved (Js.str_or (cache_get cacheKey c) EmptyString);
          cache := c; posted := [] |}
  else
    let prompt := prompt_of title body labels repo in
    match answer with
    | None => {| outcome := Rejected FetchRejected; cache := c; posted := [prompt] |}
    | Some response =>
        if negb (GitHubService.ok response)
        then {| outcome := Rejected (GroqApiError (GitHubService.status response));
                cache := c; posted := [prompt] |}
        else
          let summary :=
            Js.str_or (option_map IssueDetailModal.trim
                                  (first_content (GitHubService.json response)))
                      "Unable to generate summary." in
          {| outcome := Resolved summary;
             cache := cache_set cacheKey summary c;
             posted := [prompt] |}
    end.

End GroqService.

(* ===================================================================== *)
(** ** components/IssueCard.tsx: the summary button *)
(* ===================================================================== *)

Module IssueCard.
Import Types.

(** The card's own state and, beside it, the summary cache of the
    service and the prompts posted so far. *)
Record Card : Type := mkCard {
  summary : option string;
  summaryLoading : bool;
  summaryError : bool;
  summaryCache : GroqService.Cache;
  prompts : list string
}.

(** A card as mounted over the cache [c]. *)
Definition mounted (c : GroqService.Cache) : Card :=
  {| summary := None; summaryLoading := false; summaryError := false;
     summaryCache := c; prompts := [] |}.

(** [handleAISummary] run to its end; [answer] is what the completion
    endpoint settles with should the service ask it. *)
Definition handleAISummary (issue : NormalizedIssue)
           (answer : option (GitHubService.HttpResponse GroqService.GroqData))
           (card : Card) : Card :=
  if Js.truthy_str (summary card) || summaryLoading card then card
  else
    let call := GroqService.getIssueSummary
                  (title issue) (Js.str_or (Some (body issue)) EmptyString)
                  (map label_name (labels issue)) (repo issue)
                  answer (summaryCache card) in
    match GroqService.outcome call with
    | GroqService.Resolved result =>
        {| summary := Some result; summaryLoading := false; summaryError := false;
           summaryCache := GroqService.cache call;
           prompts := (prompts card ++ GroqService.posted call)%list |}
    | GroqService.Rejected _ =>
        {| summary := summary card; summaryLoading := false; summaryError := true;
           summaryCache := GroqService.cache call;
           prompts := (prompts card ++ GroqService.posted call)%list |}
    end.

(** The unit of the label: m, h, d or mo. *)
Inductive TimeUnit : Type := Minutes | Hours | Days | Months.

(** [getTimeAgo(dateString)]: [now] is [Date.now()], [date] is the time
    of [dateString], both in milliseconds; the label is the number
    followed by the unit and " ago".  A [dateString] that does not
    parse, whose time is NaN, is not covered. *)
Definition getTimeAgo (now date : Z) : Z * TimeUnit :=
  let diff := now - date in
  let mins := diff / 60000 in
  if mins <? 60 then (mins, Minutes)
  else
    let hours := mins / 60 in
    if hours <? 24 then (hours, Hours)
    else
      let days := hours / 24 in
      if days <? 30 then (days, Days)
      else (days / 30, Months).

End IssueCard.

(* ===================================================================== *)
(** ** screens/AnalyticsScreen.tsx: the language chart *)
(* ===================================================================== *)

Module AnalyticsScreen.

(** [Object.entries(data.languageBreakdown).sort((a, b) => b[1] - a[1]).slice(0, 8)] *)
Definition sortedLangs (languageBreakdown : list (string * Z)) : list (string * Z) :=
  firstn 8 (Js.sort (fun a b => snd b - snd a) languageBreakdown).

(** [sortedLangs.reduce((sum, [, count]) => sum + count, 0)] *)
Definition totalLangRepos (languageBreakdown : list (string * Z)) : Z :=
  fold_left (fun sum entry => sum + snd entry) (sortedLangs languageBreakdown) 0.

End AnalyticsScreen.

(* ===================================================================== *)
(** ** Stand-in upstreams for the worked scenarios *)
(* ===================================================================== *)

Module Fixtures.
Import Types.
Import GitHubService.

Definition octocat : GitHubUser :=
  {| user_id := IdNum 1; login := "octocat"; user_name := "The Octocat";
     avatar_url := EmptyString; email := EmptyString |}.

Definition ok_response {T : Type} (payload : T) : Result (HttpResponse T) :=
  Ok {| status := 200; text := EmptyString; json := payload |}.

(** The [n]-th issue of the repository octo/deck as the search surface
    lists it. *)
Definition raw_issue (n : Z) : RawSearchIssue :=
  {| raw_id := 1000 + n; raw_node_id := "I_kw"; raw_title := "Issue";
     raw_body := None;
     raw_repository_url := Some "https://api.github.com/repos/octo/deck";
     raw_html_url := "https://github.com/octo/deck/issues";
     raw_state := "open"; raw_labels := Some []; raw_assignees := Some [];
     raw_created_at := "2024-01-01T00:00:00Z";
     raw_updated_at := "2024-01-02T00:00:00Z";
     raw_comments := Some 0; raw_number := n; raw_user := None |}.

(** Issues numbered [from], [from + 1], ..., [count] of them. *)
Fixpoint raw_issues (from : Z) (count : nat) : list RawSearchIssue :=
  match count with
  | O => []
  | S k => raw_issue from :: raw_issues (from + 1) k
  end.

(** A search surface holding [feed] in feed order and answering with
    offset pagination: page [p] of size [n] is the items at offsets
    [(p - 1) * n] up to [p * n]. *)
Definition search_surface (feed : list RawSearchIssue) (r : SearchRequest)
  : Result (HttpResponse SearchData) :=
  ok_response
    {| data_items :=
         Some (firstn (Z.to_nat (per_page r))
                      (skipn (Z.to_nat ((req_page r - 1) * per_page r)) feed));
       total_count := Some (Z.of_nat (List.length feed)) |}.

(** A write endpoint that answers every request with [code]. *)
Definition write_status (code : Z) (_ : WriteRequest) : Result (HttpResponse unit) :=
  Ok {| status := code; text := "response body"; json := tt |}.

(** A graph surface that knows no project at all. *)
Definition no_projects (_ : GraphqlRequest) : Result (HttpResponse GqlResult) :=
  ok_response {| data := Some {| data_organization := None; data_user := None |};
                 errors := None |}.

Definition session_of (feed : list RawSearchIssue) (write_code : Z) : Session :=
  {| token := Some "gho_token";
     upstream := {| up_user := ok_response octocat;
                    up_search := search_surface feed;
                    up_graphql := no_projects;
                    up_write := write_status write_code |} |}.

(** A feed of 25 matching issues. *)
Definition feed25 : Session := session_of (raw_issues 1 25) 200.

(** A project board of ten issues of octo/deck.  Nodes 3, 6 and 9 are in
    column "Done", the others in column "In Progress"; the server counts
    42 items in the whole project. *)
Definition status_field : GqlField :=
  {| field_id := "PVTSSF_status"; field_name := Some "Status" |}.

Definition board_node (n : Z) (column : string) : GqlNode :=
  {| node_id := "PVTI_item";
     fieldValues := Some [None;
                          Some {| fv_name := None; fv_field := None |};
                          Some {| fv_name := Some column;
                                  fv_field := Some status_field |}];
     content := Some {| c_id := Some "I_node"; c_number := Some n;
                        c_title := "Card"; c_body := None;
                        c_state := Some "OPEN";
                        c_url := "https://github.com/octo/deck/issues";
                        c_createdAt := "2024-01-01T00:00:00Z";
                        c_updatedAt := "2024-01-02T00:00:00Z";
                        c_labels := None; c_assignees := None;
                        c_author := None;
                        c_repository := Some {| nameWithOwner := Some "octo/deck";
                                                owner_login := Some "octo" |};
                        c_comments := None |} |}.



(** A graph surface on which [pd] is the project of an organization. *)
Definition organization_board (pd : GqlProject) (r : GraphqlRequest)
  : Result (HttpResponse GqlResult) :=
  match query r with
  | AsOrganization =>
      ok_response {| data := Some {| data_organization := Some (Some pd);
                                     data_user := None |};
                     errors := None |}
  | AsUser => no_projects r
  end.

(** A graph surface on which [pd] is the project of a user: the
    organization query finds nothing and reports no error. *)
Definition user_board (pd : GqlProject) (r : GraphqlRequest)
  : Result (HttpResponse GqlResult) :=
  match query r with
  | AsOrganization => no_projects r
  | AsUser =>
      ok_response {| data := Some {| data_organization := None;
                                     data_user := Some (Some pd) |};
                     errors := None |}
  end.

Definition board_session (surface : GraphqlRequest -> Result (HttpResponse GqlResult))
  : Session :=
  {| token := Some "gho_token";
     upstream := {| up_user := ok_response octocat;
                    up_search := search_surface [];
                    up_graphql := surface;
                    up_write := write_status 200 |} |}.

(** Two flings: far enough and fast enough to commit either way. *)
Definition fling_left : MainScreen.GestureState :=
  {| MainScreen.dx := - (120); MainScreen.dy := 4; MainScreen.vx := - (1 # 2) |}.


(** The width of the window in the scenarios. *)
Definition width : Q := 400.

(** The screen once the first page of [feed25] has arrived. *)
Definition loaded : MainScreen.Screen :=
  MainScreen.run_events width [MainScreen.FetchSettled 0 feed25] MainScreen.mount.

(** [count] committed swipes to the left, each completed by its start
    callback, the first of them aiming at index [from]. *)
Fixpoint swipes_left (from : Z) (count : nat) : list MainScreen.Event :=
  match count with
  | O => []
  | S k => MainScreen.PanRelease fling_left :: MainScreen.SpringFinished from
           :: swipes_left (from + 1) k
  end.

(** The screen after two committed swipes over the first page. *)
Definition browsing : MainScreen.Screen :=
  MainScreen.run_events width (swipes_left 1 2) loaded.



(** The same feed a moment later: issue 26 has just been touched and now
    heads the list, pushing every other issue one place down. *)
Definition feed_shifted : Session := session_of (raw_issue 26 :: raw_issues 1 25) 200.

(** The first page arrives, the user swipes to the seventeenth card, the
    prefetch of page 2 starts, and page 2 arrives from the shifted feed. *)
Definition overlapping_pages : list MainScreen.Event :=
  (MainScreen.FetchSettled 0 feed25 :: swipes_left 1 17
   ++ [MainScreen.FetchSettled 0 feed_shifted])%list.

(** The loaded screen with the detail modal open on the first card. *)
Definition detail_open : MainScreen.Screen := MainScreen.handleOpenDetail loaded.

(** A session whose write endpoint answers 422 to everything, and one
    whose write endpoint answers 200. *)
Definition rejecting : Session := session_of (raw_issues 1 25) 422.
Definition accepting : Session := session_of (raw_issues 1 25) 200.


(** The first card of the loaded screen. *)
Definition first_card : NormalizedIssue := normalizeSearchIssue (raw_issue 1).

(** The loaded screen after sixteen committed swipes and a seventeenth
    release whose start callback has not been invoked yet. *)
Definition near_the_end : MainScreen.Screen :=
  MainScreen.run_events width
    (swipes_left 1 16 ++ [MainScreen.PanRelease fling_left])%list loaded.

(** The screen once both pages of the 25-issue feed have arrived. *)
Definition all_loaded : MainScreen.Screen :=
  MainScreen.run_events width
    (swipes_left 1 17 ++ [MainScreen.FetchSettled 0 feed25])%list loaded.

(** The session of a user who has not signed in. *)
Definition signed_out : Session :=
  {| token := None; upstream := upstream feed25 |}.

(** Two fields of a board: the status column and a field of a kind the
    query does not select. *)
Definition status_column : ProjectField :=
  {| pfield_id := Some "PVTSSF_status"; pfield_name := Some "Status";
     dataType := Some "SINGLE_SELECT";
     options := Some [{| option_id := "opt_todo"; option_name := "Todo" |};
                      {| option_id := "opt_done"; option_name := "Done" |}] |}.

Definition unselected_field : ProjectField :=
  {| pfield_id := None; pfield_name := None; dataType := None; options := None |}.

Definition raw_board (id : string) (owner : option string) : RawProject :=
  {| rp_id := id; rp_number := 7; rp_title := "Deck board";
     rp_url := "https://github.com/orgs/octo/projects/7";
     rp_fields := Some [Some unselected_field; Some status_column];
     rp_owner := owner |}.

(** The viewer's repositories: two of them carry the same board, the
    second also a board of its own. *)
Definition viewer_answer : ViewerResult :=
  {| vr_errors := None;
     vr_repositories :=
       Some [Some {| repo_owner := Some "octo";
                     repo_projects := Some [Some (raw_board "PVT_1" None); None] |};
             Some {| repo_owner := Some "hubot";
                     repo_projects := Some [Some (raw_board "PVT_1" (Some "octo"));
                                            Some (raw_board "PVT_2" None)] |}] |}.

Definition org_answer : ProjectsResult :=
  {| pr_errors := None; pr_login := None;
     pr_nodes := Some [Some (raw_board "PVT_1" None); Some (raw_board "PVT_2" None)] |}.

(** Repositories of the analytics scenarios. *)
Definition a_repo (name : string) (stars : option Z) (language : option string)
  : GitHubRepo :=
  {| repo_name := name; full_name := Some ("octo/" ++ name);
     stargazers_count := stars; forks_count := None; language := language;
     open_issues_count := None; is_private := false |}.

Definition some_repos : list GitHubRepo :=
  [a_repo "deck" (Some 12) (Some "TypeScript");
   a_repo "notes" None None;
   a_repo "cli" (Some 40) (Some "Rust");
   a_repo "site" (Some 12) (Some "TypeScript")].

(** A completion of the summary endpoint, and an answer it refuses. *)
Definition completion (text : string) : HttpResponse GroqService.GroqData :=
  {| status := 200; text := EmptyString;
     json := {| GroqService.choices :=
                  Some [Some {| GroqService.message :=
                                  Some {| GroqService.content := Some text |} |}] |} |}.

Definition rate_limited : HttpResponse GroqService.GroqData :=
  {| status := 429; text := "rate limit"; json := {| GroqService.choices := None |} |}.

(** The token endpoint granting a token. *)
Definition granted : HttpResponse AuthService.TokenData :=
  {| status := 200; text := EmptyString;
     json := {| AuthService.access_token := Some "gho_token" |} |}.

(** The login screen while the browser is open, over an empty token
    module. *)
Definition signing_in : LoginScreen.Login :=
  {| LoginScreen.isLoading := true; LoginScreen.alerts := [];
     LoginScreen.store := AccessToken.empty |}.

(** A graph surface on which the organization query is refused with
    status 502 and [pd] is the project of a user. *)
Definition refusing_organizations (pd : GqlProject) (r : GraphqlRequest)
  : Result (HttpResponse GqlResult) :=
  match query r with
  | AsOrganization =>
      Ok {| status := 502; text := "Bad Gateway";
            json := {| data := None; errors := None |} |}
  | AsUser => user_board pd r
  end.

(** A triage board.  Its ten nodes differ in column, repository and
    assignees; the fifth is a draft without content and the sixth an
    item whose content carries no number. *)
Definition triage_node (n : option Z) (column repo : string) (logins : list string)
  : GqlNode :=
  {| node_id := "PVTI_item";
     fieldValues := Some [Some {| fv_name := Some column;
                                  fv_field := Some status_field |}];
     content := Some {| c_id := Some "I_node"; c_number := n;
                        c_title := "Card"; c_body := None;
                        c_state := Some "OPEN";
                        c_url := "https://github.com/octo/deck/issues";
                        c_createdAt := "2024-01-01T00:00:00Z";
                        c_updatedAt := "2024-01-02T00:00:00Z";
                        c_labels := None;
                        c_assignees :=
                          Some (map (fun l => {| ga_id := None; ga_login := l;
                                                 ga_name := None; ga_avatarUrl := None;
                                                 ga_email := None |}) logins);
                        c_author := None;
                        c_repository := Some {| nameWithOwner := Some repo;
                                                owner_login := Some "octo" |};
                        c_comments := None |} |}.

Definition draft_node : GqlNode :=
  {| node_id := "PVTI_draft"; fieldValues := None; content := None |}.

Definition triage_nodes : list GqlNode :=
  [triage_node (Some 1) "Done" "octo/deck" ["octocat"];
   triage_node (Some 2) "Done" "octo/deck" [];
   triage_node (Some 3) "Todo" "octo/deck" ["octocat"; "hubot"];
   triage_node (Some 4) "Done" "octo/dock" ["octocat"];
   draft_node;
   triage_node None "Done" "octo/deck" ["octocat"];
   triage_node (Some 7) "DONE" "octo/deck" ["hubot"];
   triage_node (Some 8) "Todo" "octo/dock" [];
   triage_node (Some 9) "Done" "octo/deck" ["octocat"];
   triage_node (Some 10) "Todo" "octo/deck" []].

Definition triage : GqlProject :=
  {| project_id := "PVT_triage"; project_title := "Triage";
     project_items := {| items_totalCount := Some 42;
                         pageInfo := Some {| pi_endCursor := Some "cursor-10";
                                             pi_hasNextPage := Some true |};
                         nodes := Some triage_nodes |} |}.

(** The numbers of the issues a call of [fetchProjectIssues] on the
    triage board returns, and the total it reports. *)
Definition triage_page (statusFilter assigneeFilter repoFilter : option string)
  : Result (list Z * Z) :=
  match run (fetchProjectIssues (board_session (organization_board triage))
               Js.asciiToLowerCase "octo" 7 None 10
               statusFilter assigneeFilter repoFilter) with
  | Ok pg => Ok (map number (items (page pg)), totalCount (page pg))
  | Err e => Err e
  end.

(** A feed of closed issues that holds two of them. *)
Definition two_closed : Session := session_of (raw_issues 1 2) 200.

(** On the third card of the first page: a fling to the left is
    released, the state chip of the filter bar is pressed while the card
    is still flying out, the first page of the closed issues arrives,
    and then the start callback of the fling is invoked. *)
Definition chip_pressed_in_flight : list MainScreen.Event :=
  [MainScreen.PanRelease fling_left;
   MainScreen.FiltersChange (FilterBar.update FilterBar.StateChip
                                              (MainScreen.filters browsing));
   MainScreen.FetchSettled 0 two_closed].

Definition stale_completion : list MainScreen.Event :=
  (chip_pressed_in_flight ++ [MainScreen.SpringFinished 3])%list.

(** The same run when the start callback never comes and the safety
    timeout of the fling expires instead. *)
Definition stale_timeout : list MainScreen.Event :=
  (chip_pressed_in_flight
   ++ [MainScreen.TimerFired (MainScreen.nextTimerId browsing)])%list.

End Fixtures.

(* ===================================================================== *)
(** ** Vocabulary of the statements *)
(* ===================================================================== *)

Module Vocabulary.
Import Types.
Import GitHubService.

(** A node of the structured surface is kept when it carries an issue
    number and none of the three client-side tests rejects it. *)
Definition node_kept (toLowerCase : string -> string)
           (statusFilter assigneeFilter repoFilter : option string)
           (node : GqlNode) : bool :=
  match content node with
  | None => false
  | Some c =>
      Js.truthy_num (c_number c)
      && negb (status_skips toLowerCase statusFilter
                            (fst (node_status toLowerCase node)))
      && negb (repo_skips repoFilter c)
      && negb (assignee_skips assigneeFilter c)
  end.

(** The session holds a usable token. *)
Definition signed_in (session : Session) : bool := Js.truthy_str (token session).

(** What a graph request made with a usable token comes back with. *)
Definition graphql_outcome (session : Session) (r : GraphqlRequest) : Result GqlResult :=
  match up_graphql (upstream session) r with
  | Err e => Err e
  | Ok resp => if ok resp then Ok (json resp) else Err (GraphQLFailed (status resp))
  end.

(** *** The release rule in the spec's words *)




(** *** Renders *)

(** What the auto-load effect of a render of [r] may add to the queued
    state [acc]: nothing, or the next page's fetch. *)
Definition may_prefetch (r acc c : MainScreen.Screen) : Prop :=
  c = acc
  \/ (MainScreen.issues r <> []
      /\ c = MainScreen.fetchIssues_begin (MainScreen.filters r)
                                          (MainScreen.page r + 1) false acc).

(** Two screens that differ at most in the two synced refs, in the two
    loading flags and in the fetches in flight. *)
Definition same_deck (a b : MainScreen.Screen) : Prop :=
  MainScreen.issues a = MainScreen.issues b
  /\ MainScreen.currentIndex a = MainScreen.currentIndex b
  /\ MainScreen.filters a = MainScreen.filters b
  /\ MainScreen.selectedIssue a = MainScreen.selectedIssue b
  /\ MainScreen.page a = MainScreen.page b
  /\ MainScreen.hasMore a = MainScreen.hasMore b
  /\ MainScreen.totalCount a = MainScreen.totalCount b
  /\ MainScreen.position a = MainScreen.position b
  /\ MainScreen.isAnimatingRef a = MainScreen.isAnimatingRef b
  /\ MainScreen.safetyTimerRef a = MainScreen.safetyTimerRef b
  /\ MainScreen.timers a = MainScreen.timers b
  /\ MainScreen.nextTimerId a = MainScreen.nextTimerId b
  /\ MainScreen.springs a = MainScreen.springs b
  /\ MainScreen.callbacks a = MainScreen.callbacks b
  /\ MainScreen.alerts a = MainScreen.alerts b.

(** The fetches in flight of [c] are those of [a], followed by fetches
    that are not resets and were started over a non-empty list. *)
Definition fetches_grow (a c : MainScreen.Screen) : Prop :=
  exists extra,
    MainScreen.fetches c = (MainScreen.fetches a ++ extra)%list
    /\ Forall (fun pf => MainScreen.isReset pf = false) extra
    /\ (extra = [] \/ MainScreen.issues a <> []).

(** *** The deck and the animation lock *)

Definition deck_length (s : MainScreen.Screen) : Z :=
  Z.of_nat (List.length (MainScreen.issues s)).

(** The index of the spec's invariant; on an empty deck it rests at 0. *)
Definition index_in_range (s : MainScreen.Screen) : Prop :=
  0 <= MainScreen.currentIndex s < deck_length s
  \/ (MainScreen.issues s = [] /\ MainScreen.currentIndex s = 0).

(** What every handler keeps true while the feed is not being replaced:
    the index ref mirrors the index, the index is in range, every
    completion still to come (start callback or safety timeout) carries
    an index of the loaded list, timer handles are fresh, and a reset
    fetch is in flight only over an empty deck and alone. *)
Definition deck_sound (s : MainScreen.Screen) : Prop :=
  MainScreen.currentIndexRef s = MainScreen.currentIndex s
  /\ index_in_range s
  /\ Forall (fun n => 0 <= n < deck_length s) (MainScreen.callbacks s)
  /\ Forall (fun t => 0 <= MainScreen.timer_newIndex t < deck_length s
                      /\ (MainScreen.timer_id t < MainScreen.nextTimerId s)%nat)
            (MainScreen.timers s)
  /\ (forall pf, In pf (MainScreen.fetches s) -> MainScreen.isReset pf = true ->
                 MainScreen.issues s = [] /\ MainScreen.fetches s = [pf]).

(** The state of a screen between two events: sound, and rendered, so
    that [issuesRef] mirrors the list. *)
Definition deck_ok (s : MainScreen.Screen) : Prop :=
  MainScreen.issuesRef s = MainScreen.issues s /\ deck_sound s.

(** The events that leave the feed's filter specification alone. *)
Definition keeps_feed (e : MainScreen.Event) : bool :=
  match e with
  | MainScreen.SourceChange _ _ | MainScreen.FiltersChange _ => false
  | _ => true
  end.

(** While the lock is held, the safety timeout that will release it is
    scheduled. *)
Definition lock_guarded (s : MainScreen.Screen) : Prop :=
  MainScreen.isAnimatingRef s = true ->
  exists t, In t (MainScreen.timers s)
            /\ MainScreen.safetyTimerRef s = Some (MainScreen.timer_id t)
            /\ MainScreen.delay t = 500.

(** The index a swipe in direction [d] aims at. *)
Definition target (d : MainScreen.Direction) (s : MainScreen.Screen) : Z :=
  match d with
  | MainScreen.Left => MainScreen.currentIndex s + 1
  | MainScreen.Right => MainScreen.currentIndex s - 1
  end.


(** *** Filter changes *)

(** The first-page fetch of the specification [f]. *)
Definition first_page_of (f : IssueFilters) : MainScreen.PendingFetch :=
  {| MainScreen.pf_filters := f; MainScreen.pageNum := 1; MainScreen.isReset := true |}.

(** The change of filters from screen [s] to specification [f], ending
    in screen [s']: the index is 0, the list is empty, the first page of
    [f] has been requested (unless [f] still needs an organization to be
    chosen), and when [fetchIssues] was called for it the list had
    already been cleared and the index reset. *)
Definition deck_reset_for (f : IssueFilters) (s s' : MainScreen.Screen) : Prop :=
  MainScreen.currentIndex s' = 0
  /\ MainScreen.issues s' = []
  /\ MainScreen.fetches s'
     = (MainScreen.fetches s
        ++ if MainScreen.needsSelection f then [] else [first_page_of f])%list
  /\ exists cleared,
      MainScreen.issues cleared = [] /\ MainScreen.currentIndex cleared = 0
      /\ MainScreen.fetches cleared = MainScreen.fetches s
      /\ MainScreen.commit s (MainScreen.handleFiltersChange f s)
         = MainScreen.fetchIssues_begin f 1 true cleared.

(** One of the seven fields the fetch effect depends on differs. *)
Definition fetch_field_differs (a b : IssueFilters) : Prop :=
  source a <> source b \/ f_state a <> f_state b \/ sortOrder a <> sortOrder b
  \/ sortDirection a <> sortDirection b \/ repository a <> repository b
  \/ f_organization a <> f_organization b \/ assignee a <> assignee b.

(** *** Pages appended to the deck *)

(** The items a settled fetch contributes. *)
Definition page_items (r : GitHubService.Result (option PaginatedResponse))
  : list NormalizedIssue :=
  match r with
  | GitHubService.Ok (Some p) => items p
  | _ => []
  end.

(** A run of fetches settling one after the other, each with its answer. *)
Definition settle_all
           (answers : list (MainScreen.PendingFetch
                            * GitHubService.Result (option PaginatedResponse)))
           (s : MainScreen.Screen) : MainScreen.Screen :=
  fold_left (fun st a => MainScreen.fetchIssues_settle (fst a) (snd a) st) answers s.

(** No two of the keys are the same. *)
Fixpoint distinct_keys (l : list (string * Z)) : bool :=
  match l with
  | [] => true
  | k :: r =>
      negb (existsb (fun k' => String.eqb (fst k) (fst k') && (snd k =? snd k')) r)
      && distinct_keys r
  end.

(** *** Edits *)

(** Every write of the session comes back with a non-success status, or
    does not come back at all. *)
Definition rejects_writes (session : Session) : Prop :=
  forall w, match up_write (upstream session) w with
            | Ok resp => ok resp = false
            | Err _ => True
            end.

(** Every write of the session comes back with a success status. *)
Definition accepts_writes (session : Session) : Prop :=
  signed_in session = true
  /\ forall w, exists resp, up_write (upstream session) w = Ok resp /\ ok resp = true.





(** *** Requests in flight *)

(** The events that neither change the filters nor deliver a page. *)
Definition keeps_pages (e : MainScreen.Event) : bool :=
  match e with
  | MainScreen.SourceChange _ _ | MainScreen.FiltersChange _
  | MainScreen.FetchSettled _ _ => false
  | _ => true
  end.

(** Screen [a] has the paging state of screen [b]: the same fetches in
    flight, flags, page, filters, and as many issues. *)
Definition feed_untouched (a b : MainScreen.Screen) : Prop :=
  MainScreen.fetches a = MainScreen.fetches b
  /\ MainScreen.loading a = MainScreen.loading b
  /\ MainScreen.loadingMore a = MainScreen.loadingMore b
  /\ MainScreen.page a = MainScreen.page b
  /\ MainScreen.hasMore a = MainScreen.hasMore b
  /\ MainScreen.filters a = MainScreen.filters b
  /\ List.length (MainScreen.issues a) = List.length (MainScreen.issues b).

(** The next-page fetch the auto-load effect of screen [s] makes. *)
Definition next_page_of (s : MainScreen.Screen) : MainScreen.PendingFetch :=
  {| MainScreen.pf_filters := MainScreen.filters s;
     MainScreen.pageNum := MainScreen.page s + 1;
     MainScreen.isReset := false |}.

(** At most one call of [fetchIssues] is awaiting the service: none; or
    the first page of the active filters, over an empty deck; or the
    page after the last one loaded, with [loadingMore] set. *)
Definition single_flight (s : MainScreen.Screen) : Prop :=
  (MainScreen.fetches s = [] /\ MainScreen.loadingMore s = false)
  \/ (MainScreen.fetches s = [first_page_of (MainScreen.filters s)]
      /\ MainScreen.loadingMore s = false /\ MainScreen.issues s = [])
  \/ (MainScreen.fetches s = [next_page_of s] /\ MainScreen.loadingMore s = true).

(** The test of the auto-load effect. *)
Definition near_end (s : MainScreen.Screen) : bool :=
  (Z.of_nat (List.length (MainScreen.issues s)) >? 0)
  && (MainScreen.currentIndex s >=? Z.of_nat (List.length (MainScreen.issues s)) - 3).

(** The lock and the safety timeout go together: the lock is free and
    nothing is scheduled, or the lock is held and the one timeout
    scheduled is the 500 ms one [safetyTimerRef] names. *)
Definition timers_match_lock (s : MainScreen.Screen) : Prop :=
  (MainScreen.isAnimatingRef s = false /\ MainScreen.timers s = []
   /\ MainScreen.safetyTimerRef s = None)
  \/ (MainScreen.isAnimatingRef s = true
      /\ exists t, MainScreen.timers s = [t]
                   /\ MainScreen.safetyTimerRef s = Some (MainScreen.timer_id t)
                   /\ MainScreen.delay t = 500).

(** *** Answers of the REST surface *)

(** The error [apiRequest] throws for a response that is not [ok]. *)
Definition api_error {T : Type} (resp : HttpResponse T) : Error :=
  if status resp =? 401 then AuthenticationFailed
  else if status resp =? 403 then AccessForbidden
  else if status resp =? 404 then ResourceNotFound
  else ApiError (status resp) (text resp).

(** What a REST request made with a usable token comes back with. *)
Definition api_outcome {T : Type} (answer : Result (HttpResponse T)) : Result T :=
  match answer with
  | Err e => Err e
  | Ok resp => if ok resp then Ok (json resp) else Err (api_error resp)
  end.

(** The scope every search of the organization feed starts with. *)
Definition organization_scope (org : string) (state : IssueState) (repo : option string)
  : string :=
  "is:issue state:" ++ state_str state
  ++ (if Js.truthy_str repo then " repo:" ++ Js.str_or repo EmptyString
      else " org:" ++ org).

(** The node carries an issue number. *)
Definition has_number (node : GqlNode) : bool :=
  match content node with
  | Some c => Js.truthy_num (c_number c)
  | None => false
  end.

(** A character other than the slash. *)
Definition no_slash (s : string) : Prop :=
  forall c, In c (list_ascii_of_string s) -> c <> Js.slash.

(** The field value names a status: it has a name, and the name of its
    field contains "status" in lower case. *)
Definition names_a_status (toLowerCase : string -> string) (fv : option GqlFieldValue)
  : bool :=
  match fv with
  | Some v =>
      match fv_field v with
      | Some f =>
          Js.truthy_str (fv_name v)
          && match field_name f with
             | Some n => Js.includes (toLowerCase n) "status"
             | None => false
             end
      | None => false
      end
  | None => false
  end.

(** *** Project lists *)

(** The listed project [g] is project node [p] of some repository of the
    answer, owned by the node's owner or else by the repository's. *)
Definition comes_from (result : ViewerResult) (g : GitHubProject) : Prop :=
  exists repo p,
    In (Some repo) (Js.arr_or (vr_repositories result))
    /\ In (Some p) (Js.arr_or (repo_projects repo))
    /\ gp_id g = rp_id p /\ gp_number g = rp_number p
    /\ gp_title g = rp_title p /\ gp_url g = rp_url p
    /\ gp_owner g = Js.str_or (rp_owner p) (Js.str_or (repo_owner repo) EmptyString).

(** Every field of the project has a usable [id]. *)
Definition fields_have_ids (g : GitHubProject) : Prop :=
  Forall (fun f => Js.truthy_str (pfield_id f) = true) (gp_fields g).

(** Answers without [null] where the code reads through a node: no
    [null] among the fields of a project node, no [null] repository. *)
Definition clean_project (p : option RawProject) : bool :=
  match p with
  | Some p => forallb is_some (Js.arr_or (rp_fields p))
  | None => true
  end.

Definition clean_repository (r : option RawRepository) : bool :=
  match r with
  | Some r => forallb clean_project (Js.arr_or (repo_projects r))
  | None => false
  end.

Definition clean_viewer (result : ViewerResult) : bool :=
  negb (is_some (vr_errors result))
  && forallb clean_repository (Js.arr_or (vr_repositories result)).

(** *** The client-side tests of the structured surface, in words *)

(** The status filter lets a node of status [statusValue] through: no
    filter, the empty filter, the filter 'all', or a filter equal to the
    status up to case. *)
Definition status_passes (toLowerCase : string -> string)
           (statusFilter : option string) (statusValue : string) : Prop :=
  match statusFilter with
  | None => True
  | Some v =>
      v = EmptyString \/ v = "all" \/ toLowerCase statusValue = toLowerCase v
  end.

(** The repository filter lets a content through: no filter, the empty
    filter, or the content's [nameWithOwner] itself. *)
Definition repository_passes (repoFilter : option string) (c : GqlContent) : Prop :=
  match repoFilter with
  | None => True
  | Some v => v = EmptyString \/ content_repo c = Some v
  end.

(** The assignee filter lets a content through: no filter, the empty
    filter, the filter 'all', the filter 'unassigned' on a content
    without assignees, or the login of one of the content's assignees. *)
Definition assignee_passes (assigneeFilter : option string) (c : GqlContent) : Prop :=
  match assigneeFilter with
  | None => True
  | Some v =>
      v = EmptyString \/ v = "all"
      \/ (v = "unassigned" /\ content_logins c = [])
      \/ (v <> "unassigned" /\ In v (content_logins c))
  end.

(** A filter that is set: present, not empty, and not 'all'. *)
Definition filter_set (f : option string) (v : string) : Prop :=
  f = Some v /\ v <> EmptyString /\ v <> "all".

(** *** What the user can do to the filter specification *)

(** A press on a control of the filter bar, or on a tab of the source
    selector while [orgs] are the organizations loaded. *)
Inductive FilterAction : Type :=
| BarPress (c : FilterBar.Control)
| TabPress (src : IssueSource) (orgs : list string).

(** The event a press delivers to the screen [s]: the bar hands
    [onFiltersChange] the filters it was rendered with, updated; the
    selector hands [onChange] the source. *)
Definition action_event (a : FilterAction) (s : MainScreen.Screen) : MainScreen.Event :=
  match a with
  | BarPress c =>
      MainScreen.FiltersChange (FilterBar.update c (MainScreen.filters s))
  | TabPress src orgs => MainScreen.SourceChange src orgs
  end.

(** The filter specification after the press. *)
Definition specification_after (a : FilterAction) (s : MainScreen.Screen)
  : IssueFilters :=
  match a with
  | BarPress c => FilterBar.update c (MainScreen.filters s)
  | TabPress src orgs => MainScreen.filters (MainScreen.handleSourceChange src orgs s)
  end.

(** The screens the component can be in: the first render, and what any
    event that leaves the filters alone, or any press on the filter bar
    or the source selector, makes of such a screen. *)
Inductive reachable (SCREEN_WIDTH : Q) : MainScreen.Screen -> Prop :=
| reach_mount : reachable SCREEN_WIDTH MainScreen.mount
| reach_event (e : MainScreen.Event) (s : MainScreen.Screen) :
    reachable SCREEN_WIDTH s -> keeps_feed e = true ->
    reachable SCREEN_WIDTH (MainScreen.handle SCREEN_WIDTH e s)
| reach_press (a : FilterAction) (s : MainScreen.Screen) :
    reachable SCREEN_WIDTH s ->
    reachable SCREEN_WIDTH (MainScreen.handle SCREEN_WIDTH (action_event a s) s).

(** *** A release that commits *)

(** The release that turned [s] into [s'] has started a swipe towards
    index [n]: the lock is taken, the card is flying out in direction
    [d], and both completions of the swipe, the start callback and the
    500 ms safety timeout, carry [n]. *)
Definition swipe_started (SCREEN_WIDTH : Q) (d : MainScreen.Direction) (n : Z)
           (s s' : MainScreen.Screen) : Prop :=
  MainScreen.isAnimatingRef s' = true
  /\ MainScreen.springs s'
     = (MainScreen.springs s ++ [MainScreen.swipeOut SCREEN_WIDTH d])%list
  /\ MainScreen.callbacks s' = (MainScreen.callbacks s ++ [n])%list
  /\ MainScreen.timers s'
     = (MainScreen.timers s
        ++ [{| MainScreen.timer_id := MainScreen.nextTimerId s;
               MainScreen.delay := 500;
               MainScreen.timer_newIndex := n |}])%list.

(** The release that turned [s] into [s'] has only sent the card back
    to the centre with the spring [cfg]: no swipe is pending that was
    not pending before, and the lock is as it was. *)
Definition sprung_back (cfg : MainScreen.Spring) (s s' : MainScreen.Screen) : Prop :=
  MainScreen.springs s' = (MainScreen.springs s ++ [cfg])%list
  /\ MainScreen.toValue cfg = 0%Q
  /\ MainScreen.currentIndex s' = MainScreen.currentIndex s
  /\ MainScreen.isAnimatingRef s' = MainScreen.isAnimatingRef s
  /\ MainScreen.callbacks s' = MainScreen.callbacks s
  /\ MainScreen.timers s' = MainScreen.timers s.

(** *** Identity of the issues of a deck *)

(** Within the repository of [issue], the entries of [l] that carry its
    [issueId] are the entries that carry its [number]: the identifier
    and the (repository, number) key name the same issue, as they do for
    the issues the search surface lists. *)
Definition ids_follow_keys (issue : NormalizedIssue) (l : list NormalizedIssue) : bool :=
  forallb (fun i => negb (String.eqb (repo i) (repo issue))
                    || Bool.eqb (issueId i =? issueId issue)
                                (number i =? number issue)) l.

End Vocabulary.

(* ===================================================================== *)
(** * Properties *)
(* ===================================================================== *)

(** ** The search strategy: a full page means more *)

Section SearchStrategy.
Import Types.
Import GitHubService.

Lemma search_page_length (d : SearchData) (perPage : Z) :
  List.length (items (search_page d perPage))
  = List.length (Js.arr_or (data_items d)).
Proof. unfold search_page; simpl. apply length_map. Qed.

Lemma search_page_full (d : SearchData) (perPage : Z) :
  hasNextPage (search_page d perPage) = true
  <-> Z.of_nat (List.length (items (search_page d perPage))) = perPage.
Proof.
  rewrite search_page_length. unfold search_page; simpl.
  apply Z.eqb_eq.
Qed.

Lemma bind_ok_inv {A B : Type} (m : M A) (k : A -> M B) (b : B) (l l' : list Request) :
  bind m k l = (Ok b, l') ->
  exists a l1, m l = (Ok a, l1) /\ k a l1 = (Ok b, l').
Proof.
  unfold bind. destruct (m l) as [[a|e] l1]; intros H.
  - exists a, l1. split; [reflexivity|exact H].
  - discriminate.
Qed.

Lemma ret_ok_inv {A : Type} (a b : A) (l l' : list Request) :
  ret a l = (Ok b, l') -> a = b /\ l = l'.
Proof. unfold ret. intros H; inversion H; auto. Qed.

Lemma fetchAllIssues_page session pg perPage st srt dir rp lbls sq l l' r :
  fetchAllIssues session pg perPage st srt dir rp lbls sq l = (Ok r, l') ->
  exists d, r = search_page d perPage.
Proof.
  unfold fetchAllIssues. intros H.
  apply bind_ok_inv in H. destruct H as (u & l1 & _ & H).
  apply bind_ok_inv in H. destruct H as (d & l2 & _ & H).
  apply ret_ok_inv in H. destruct H as [H _]. exists d. symmetry; exact H.
Qed.

Lemma fetchOrgIssues_page session o pg perPage st srt dir rp asg lbls sq l l' r :
  fetchOrgIssues session o pg perPage st srt dir rp asg lbls sq l = (Ok r, l') ->
  exists d, r = search_page d perPage.
Proof.
  unfold fetchOrgIssues. intros H.
  apply bind_ok_inv in H. destruct H as (q2 & l1 & _ & H).
  apply bind_ok_inv in H. destruct H as (d & l2 & _ & H).
  apply ret_ok_inv in H. destruct H as [H _]. exists d. symmetry; exact H.
Qed.

End SearchStrategy.

Section SearchStrategyClaims.
Import Types.
Import GitHubService.

(** C1.  For every page fetched by the search strategy ([fetchAllIssues]
    or [fetchOrgIssues]) with page size [perPage], the returned
    [hasNextPage] flag is true if and only if the page holds exactly
    [perPage] items.  Against a feed of 25 matching issues, the screen's
    fetch for the personal feed of open issues (page size 20) returns 20
    items and [hasNextPage = true] for page 1, and the remaining 5 items
    and [hasNextPage = false] for page 2. *)
Theorem search_hasMore_iff_full_page :
  (forall session pg perPage st srt dir rp lbls sq o asg r,
      run (fetchAllIssues session pg perPage st srt dir rp lbls sq) = Ok r
      \/ run (fetchOrgIssues session o pg perPage st srt dir rp asg lbls sq) = Ok r ->
      (hasNextPage r = true <-> Z.of_nat (List.length (items r)) = perPage))
  /\ (exists p1 p2,
         MainScreen.fetchIssues_call Fixtures.feed25
           {| MainScreen.pf_filters := MainScreen.filters MainScreen.initial;
              MainScreen.pageNum := 1; MainScreen.isReset := true |} = Ok (Some p1)
         /\ MainScreen.fetchIssues_call Fixtures.feed25
              {| MainScreen.pf_filters := MainScreen.filters MainScreen.initial;
                 MainScreen.pageNum := 2; MainScreen.isReset := false |} = Ok (Some p2)
         /\ List.length (items p1) = 20%nat /\ hasNextPage p1 = true
         /\ List.length (items p2) = 5%nat /\ hasNextPage p2 = false
         /\ map number (items p2) = [21; 22; 23; 24; 25]).
Proof.
  split.
  - intros session pg perPage st srt dir rp lbls sq o asg r [H | H];
      unfold run in H.
    + destruct (fetchAllIssues session pg perPage st srt dir rp lbls sq [])
        as [res l'] eqn:E; simpl in H; subst res.
      apply fetchAllIssues_page in E. destruct E as [d ->].
      apply search_page_full.
    + destruct (fetchOrgIssues session o pg perPage st srt dir rp asg lbls sq [])
        as [res l'] eqn:E; simpl in H; subst res.
      apply fetchOrgIssues_page in E. destruct E as [d ->].
      apply search_page_full.
  - eexists. eexists.
    split; [vm_compute; reflexivity|].
    split; [vm_compute; reflexivity|].
    vm_compute. repeat split; reflexivity.
Qed.

Lemma search_hasMore_iff_full_page_witness :
  run (fetchAllIssues Fixtures.feed25 2 20 open "updated" "desc" None None None)
  = Ok (search_page {| data_items := Some (Fixtures.raw_issues 21 5);
                       total_count := Some 25 |} 20)
  /\ (hasNextPage (search_page {| data_items := Some (Fixtures.raw_issues 21 5);
                                  total_count := Some 25 |} 20) = true
      <-> Z.of_nat (List.length
                      (items (search_page {| data_items := Some (Fixtures.raw_issues 21 5);
                                             total_count := Some 25 |} 20))) = 20).
Proof.
  split.
  - vm_compute. reflexivity.
  - apply (proj1 search_hasMore_iff_full_page Fixtures.feed25 2 20 open
                 "updated" "desc" None None None EmptyString None).
    left. vm_compute. reflexivity.
Defined.

End SearchStrategyClaims.

(** ** The structured strategy: client-side filtering and the owner fallback *)

Section StructuredStrategy.
Import Types.
Import GitHubService.
Import Vocabulary.

Variable toLowerCase : string -> string.
Variables (owner : string) (projectData : GqlProject).
Variables statusFilter assigneeFilter repoFilter : option string.

Local Abbreviation step := (project_step toLowerCase owner projectData
                                     statusFilter assigneeFilter repoFilter).

Lemma project_step_app (acc : list NormalizedIssue) (node : GqlNode) :
  step acc node = (acc ++ step [] node)%list.
Proof.
  unfold step, project_step.
  destruct (content node) as [c|]; [|now rewrite app_nil_r].
  destruct (negb (Js.truthy_num (c_number c))); [now rewrite app_nil_r|].
  destruct (status_skips _ _ _); [now rewrite app_nil_r|].
  destruct (repo_skips _ _); [now rewrite app_nil_r|].
  destruct (assignee_skips _ _); [now rewrite app_nil_r|].
  reflexivity.
Qed.

Lemma project_loop_flat_map (l : list GqlNode) (acc : list NormalizedIssue) :
  fold_left step l acc = (acc ++ flat_map (step []) l)%list.
Proof.
  revert acc. induction l as [|node l IH]; intros acc; simpl.
  - now rewrite app_nil_r.
  - rewrite IH, project_step_app, <- app_assoc. reflexivity.
Qed.

Lemma project_step_kept (node : GqlNode) :
  step [] node
  = if node_kept toLowerCase statusFilter assigneeFilter repoFilter node
    then match content node with
         | Some c => [project_issue toLowerCase owner projectData node c
                                    (fst (node_status toLowerCase node))
                                    (snd (node_status toLowerCase node))]
         | None => []
         end
    else [].
Proof.
  unfold step, project_step, node_kept.
  destruct (content node) as [c|]; [|reflexivity].
  destruct (Js.truthy_num (c_number c)); simpl; [|reflexivity].
  destruct (status_skips _ _ _); simpl; [reflexivity|].
  destruct (repo_skips _ _); simpl; [reflexivity|].
  destruct (assignee_skips _ _); reflexivity.
Qed.

Lemma project_loop_length (l : list GqlNode) :
  List.length (flat_map (step []) l)
  = List.length (filter (node_kept toLowerCase statusFilter assigneeFilter repoFilter) l).
Proof.
  induction l as [|node l IH]; simpl; [reflexivity|].
  rewrite length_app, IH, project_step_kept.
  unfold node_kept at 1 3.
  destruct (content node) as [c|]; [|reflexivity].
  match goal with |- context [if ?b then _ else _] => destruct b end; reflexivity.
Qed.


End StructuredStrategy.

Section OwnerFallback.
Import Types.
Import GitHubService.
Import Vocabulary.

Variable session : Session.

Lemma getAccessToken_signed_in (l : list Request) :
  signed_in session = true ->
  exists t, getAccessToken session l = (Ok t, l).
Proof.
  unfold signed_in, Js.truthy_str, getAccessToken.
  destruct (token session) as [t|]; [|discriminate].
  destruct (String.eqb t EmptyString); [discriminate|].
  intros _. exists t. reflexivity.
Qed.

Lemma getAccessToken_signed_out (l : list Request) :
  signed_in session = false ->
  getAccessToken session l = (Err TokenNotSet, l).
Proof.
  unfold signed_in, Js.truthy_str, getAccessToken.
  destruct (token session) as [t|]; [|reflexivity].
  destruct (String.eqb t EmptyString); [reflexivity|discriminate].
Qed.

Lemma graphqlRequest_eq (r : GraphqlRequest) (l : list Request) :
  graphqlRequest session r l
  = if signed_in session
    then (graphql_outcome session r, (l ++ [PostGraphql r])%list)
    else (Err TokenNotSet, l).
Proof.
  unfold graphqlRequest, bind.
  destruct (signed_in session) eqn:E.
  - destruct (getAccessToken_signed_in l E) as [t ->].
    unfold fetch, graphql_outcome.
    destruct (up_graphql (upstream session) r) as [resp|e]; [|reflexivity].
    destruct (ok resp); reflexivity.
  - rewrite (getAccessToken_signed_out l E). reflexivity.
Qed.

Variables (owner : string) (projectNumber : Z) (cursor : option string) (perPage : Z).

Local Abbreviation orgReq :=
  (project_request AsOrganization owner projectNumber cursor perPage).
Local Abbreviation userReq :=
  (project_request AsUser owner projectNumber cursor perPage).

(** The [try]/[catch] at the head of [fetchProjectIssues], case by case. *)
Lemma project_query_eq (l : list Request) :
  project_query session owner projectNumber cursor perPage l
  = if signed_in session then
      match graphql_outcome session orgReq with
      | Ok r =>
          if negb (is_some (organization_project r)) && negb (has_errors r)
          then (graphql_outcome session userReq,
                (l ++ [PostGraphql orgReq; PostGraphql userReq])%list)
          else (Ok r, (l ++ [PostGraphql orgReq])%list)
      | Err _ => (graphql_outcome session userReq,
                  (l ++ [PostGraphql orgReq; PostGraphql userReq])%list)
      end
    else (Err TokenNotSet, l).
Proof.
  unfold project_query, try_catch, bind. fold orgReq userReq.
  rewrite graphqlRequest_eq.
  destruct (signed_in session) eqn:E.
  - destruct (graphql_outcome session orgReq) as [r|e].
    + destruct (negb (is_some (organization_project r)) && negb (has_errors r)).
      * unfold throw. rewrite graphqlRequest_eq, E, <- app_assoc. reflexivity.
      * reflexivity.
    + rewrite graphqlRequest_eq, E, <- app_assoc. reflexivity.
  - rewrite graphqlRequest_eq, E. reflexivity.
Qed.


End OwnerFallback.

Section StructuredStrategyClaims.
Import Types.
Import GitHubService.
Import Vocabulary.





End StructuredStrategyClaims.

(** ** The screen: renders and effects *)

Section Rendering.
Import Types.
Import MainScreen.
Import Vocabulary.

Lemma opt_eqb_refl (o : option string) : Js.opt_eqb o o = true.
Proof. destruct o as [x|]; simpl; [apply String.eqb_refl|reflexivity]. Qed.

Lemma opt_eqb_eq (a b : option string) : Js.opt_eqb a b = true <-> a = b.
Proof.
  destruct a as [x|], b as [y|]; simpl; split; intros H;
    try discriminate; try reflexivity.
  - apply String.eqb_eq in H. now subst.
  - inversion H. apply String.eqb_refl.
Qed.

Lemma fetch_deps_same_refl (f : IssueFilters) : fetch_deps_same f f = true.
Proof.
  unfold fetch_deps_same. rewrite !opt_eqb_refl.
  destruct (source f), (f_state f), (sortOrder f), (sortDirection f); reflexivity.
Qed.

Lemma autoLoad_deps_same_refl (s : Screen) : autoLoad_deps_same s s = true.
Proof.
  unfold autoLoad_deps_same.
  rewrite !Z.eqb_refl, Nat.eqb_refl, !Bool.eqb_reflx. reflexivity.
Qed.

(** The fetch effect runs exactly when one of its seven dependencies
    changed. *)
Lemma fetch_deps_same_iff (a b : IssueFilters) :
  fetch_deps_same a b = true <->
  source a = source b /\ f_state a = f_state b /\ sortOrder a = sortOrder b
  /\ sortDirection a = sortDirection b /\ repository a = repository b
  /\ f_organization a = f_organization b /\ assignee a = assignee b.
Proof.
  unfold fetch_deps_same. rewrite !andb_true_iff, !opt_eqb_eq.
  assert (H1 : source_eqb (source a) (source b) = true <-> source a = source b)
    by (destruct (source a), (source b); simpl; split; congruence).
  assert (H2 : state_eqb (f_state a) (f_state b) = true <-> f_state a = f_state b)
    by (destruct (f_state a), (f_state b); simpl; split; congruence).
  assert (H3 : sortOrder_eqb (sortOrder a) (sortOrder b) = true
               <-> sortOrder a = sortOrder b)
    by (destruct (sortOrder a), (sortOrder b); simpl; split; congruence).
  assert (H4 : sortDirection_eqb (sortDirection a) (sortDirection b) = true
               <-> sortDirection a = sortDirection b)
    by (destruct (sortDirection a), (sortDirection b); simpl; split; congruence).
  rewrite H1, H2, H3, H4. tauto.
Qed.

Lemma autoLoadEffect_cases (r acc : Screen) :
  may_prefetch r acc (autoLoadEffect r acc).
Proof.
  unfold Vocabulary.may_prefetch, autoLoadEffect.
  destruct (Z.of_nat (List.length (issues r)) >? 0) eqn:E; simpl; [|now left].
  destruct ((currentIndex r >=? Z.of_nat (List.length (issues r)) - 3)
            && hasMore r && negb (loadingMore r)); [|now left].
  right. split; [|reflexivity].
  destruct (issues r); [discriminate|discriminate].
Qed.

(** A render whose fetch dependencies did not change syncs the refs and
    at most starts one prefetch. *)
Lemma commit_same_deps (prev r : Screen) :
  fetch_deps_same (filters prev) (filters r) = true ->
  may_prefetch r
    (set_issuesRef (issues r)
       (if currentIndex prev =? currentIndex r then r
        else set_currentIndexRef (currentIndex r) r))
    (commit prev r).
Proof.
  intros H. unfold commit. rewrite H.
  destruct (autoLoad_deps_same prev r); [now left|].
  apply autoLoadEffect_cases.
Qed.

End Rendering.

Section RenderFrame.
Import Types.
Import MainScreen.
Import Vocabulary.

Lemma same_deck_trans (a b c : Screen) :
  same_deck a b -> same_deck b c -> same_deck a c.
Proof. unfold same_deck. intuition congruence. Qed.

Lemma fetches_grow_refl (a c : Screen) :
  fetches c = fetches a -> fetches_grow a c.
Proof.
  intros H. exists []. rewrite app_nil_r. split; [exact H|]. split; [constructor|now left].
Qed.

Lemma fetches_grow_trans (a b c : Screen) :
  issues b = issues a -> fetches_grow a b -> fetches_grow b c -> fetches_grow a c.
Proof.
  intros Hi (e1 & H1 & F1 & N1) (e2 & H2 & F2 & N2).
  exists (e1 ++ e2)%list. rewrite H2, H1, <- app_assoc. split; [reflexivity|].
  split; [apply Forall_app; auto|].
  destruct N1 as [-> | N1]; [|now right].
  destruct N2 as [-> | N2]; [now left|right; congruence].
Qed.

(** A call of [fetchIssues] touches the loading flags and the fetches in
    flight, and nothing else. *)
Lemma fetchIssues_begin_frame (closure : IssueFilters) (p : Z) (b : bool)
      (acc : Screen) :
  same_deck (fetchIssues_begin closure p b acc) acc
  /\ issuesRef (fetchIssues_begin closure p b acc) = issuesRef acc
  /\ currentIndexRef (fetchIssues_begin closure p b acc) = currentIndexRef acc
  /\ fetches (fetchIssues_begin closure p b acc)
     = (fetches acc
        ++ if needsSelection closure then []
           else [{| pf_filters := closure; pageNum := p; isReset := b |}])%list.
Proof.
  unfold fetchIssues_begin, same_deck.
  destruct (needsSelection closure), b; simpl; rewrite ?app_nil_r; repeat split.
Qed.

(** A render whose fetch dependencies did not change leaves the deck as
    the handler made it, points both refs at it, and at most starts a
    prefetch. *)
Lemma commit_frame (prev r : Screen) :
  fetch_deps_same (filters prev) (filters r) = true ->
  same_deck (commit prev r) r
  /\ issuesRef (commit prev r) = issues r
  /\ currentIndexRef (commit prev r)
     = (if currentIndex prev =? currentIndex r then currentIndexRef r
        else currentIndex r)
  /\ fetches_grow r (commit prev r).
Proof.
  intros H. destruct (commit_same_deps prev r H) as [-> | [Hne ->]].
  - destruct (currentIndex prev =? currentIndex r);
      (split; [unfold same_deck; simpl; repeat split|]);
      (split; [reflexivity|]); (split; [reflexivity|]);
      apply fetches_grow_refl; reflexivity.
  - destruct (currentIndex prev =? currentIndex r);
      match goal with
      | |- context [fetchIssues_begin ?c ?p ?b ?acc] =>
          destruct (fetchIssues_begin_frame c p b acc) as (D & RI & RX & F)
      end;
      (split; [eapply same_deck_trans;
               [exact D|unfold same_deck; simpl; repeat split]|]);
      (split; [rewrite RI; reflexivity|]);
      (split; [rewrite RX; reflexivity|]);
      (eexists; split; [rewrite F; simpl; reflexivity|]);
      (split; [|right; exact Hne]);
      destruct (needsSelection (filters r)); repeat constructor.
Qed.

Lemma render_frame (prev s : Screen) :
  fetch_deps_same (filters prev) (filters s) = true ->
  same_deck (render prev s) s
  /\ issuesRef (render prev s) = issues s
  /\ currentIndexRef (render prev s)
     = (if currentIndex prev =? currentIndex s then currentIndexRef s
        else currentIndex s)
  /\ fetches_grow s (render prev s).
Proof.
  intros H. unfold render.
  destruct (commit_frame prev s H) as (D1 & R1 & X1 & G1).
  assert (H2 : fetch_deps_same (filters s) (filters (commit prev s)) = true).
  { destruct D1 as (_ & _ & -> & _). apply fetch_deps_same_refl. }
  destruct (commit_frame s (commit prev s) H2) as (D2 & R2 & X2 & G2).
  split; [eapply same_deck_trans; eassumption|].
  split; [rewrite R2; apply D1|].
  split.
  - rewrite X2. destruct D1 as (_ & -> & _). rewrite Z.eqb_refl. exact X1.
  - eapply fetches_grow_trans; [apply D1|exact G1|exact G2].
Qed.

End RenderFrame.

(** ** The release rule *)

Section ReleaseRule.
Import Types.
Import MainScreen.
Import Vocabulary.









End ReleaseRule.

(** ** The swipe machine *)

Section SwipeMachine.
Import Types.
Import MainScreen.
Import Vocabulary.

Variable SCREEN_WIDTH : Q.

(** No render touches the lock, the timers or the callbacks. *)
Lemma commit_lock_frame (prev r : Screen) :
  isAnimatingRef (commit prev r) = isAnimatingRef r
  /\ safetyTimerRef (commit prev r) = safetyTimerRef r
  /\ timers (commit prev r) = timers r
  /\ nextTimerId (commit prev r) = nextTimerId r
  /\ callbacks (commit prev r) = callbacks r.
Proof.
  unfold commit, fetchEffect, autoLoadEffect, fetchIssues_begin.
  destruct (currentIndex prev =? currentIndex r),
    (fetch_deps_same (filters prev) (filters r)),
    (autoLoad_deps_same prev r);
    repeat match goal with
           | |- context [if ?b then _ else _] => destruct b
           end; simpl; repeat split.
Qed.

Lemma render_lock_frame (prev s : Screen) :
  isAnimatingRef (render prev s) = isAnimatingRef s
  /\ safetyTimerRef (render prev s) = safetyTimerRef s
  /\ timers (render prev s) = timers s
  /\ nextTimerId (render prev s) = nextTimerId s
  /\ callbacks (render prev s) = callbacks s.
Proof.
  unfold render.
  destruct (commit_lock_frame s (commit prev s)) as (A1 & A2 & A3 & A4 & A5).
  destruct (commit_lock_frame prev s) as (B1 & B2 & B3 & B4 & B5).
  rewrite A1, A2, A3, A4, A5. auto.
Qed.

Lemma resetAnimationLock_unlocked (s : Screen) :
  isAnimatingRef (resetAnimationLock s) = false.
Proof. unfold resetAnimationLock. destruct (safetyTimerRef s); reflexivity. Qed.

Lemma completeSwipe_unlocked (n : Z) (s : Screen) :
  isAnimatingRef (completeSwipe n s) = false.
Proof. unfold completeSwipe. apply resetAnimationLock_unlocked. Qed.

Lemma completeSwipe_index (n : Z) (s : Screen) :
  currentIndex (completeSwipe n s) = n /\ currentIndexRef (completeSwipe n s) = n.
Proof.
  unfold completeSwipe, resetAnimationLock. simpl.
  destruct (safetyTimerRef s); simpl; auto.
Qed.

Lemma lock_guarded_unlocked (s : Screen) :
  isAnimatingRef s = false -> lock_guarded s.
Proof. unfold lock_guarded. congruence. Qed.

Lemma lock_guarded_same (s s' : Screen) :
  isAnimatingRef s' = isAnimatingRef s ->
  safetyTimerRef s' = safetyTimerRef s ->
  timers s' = timers s ->
  lock_guarded s -> lock_guarded s'.
Proof. unfold lock_guarded. intros -> -> ->. auto. Qed.

Lemma forceSwipe_lock_guarded (d : Direction) (s : Screen) :
  lock_guarded s -> lock_guarded (forceSwipe SCREEN_WIDTH d s).
Proof.
  intros H. unfold forceSwipe.
  destruct (isAnimatingRef s) eqn:E; [exact H|].
  match goal with |- context [if ?b then _ else _] => destruct b end.
  - apply lock_guarded_unlocked. exact E.
  - intros _. eexists. simpl. split; [apply in_or_app; right; left; reflexivity|].
    simpl. auto.
Qed.

Lemma dispatch_lock_guarded (e : Event) (s : Screen) :
  lock_guarded s -> lock_guarded (dispatch SCREEN_WIDTH e s).
Proof.
  intros H. destruct e; simpl.
  - eapply lock_guarded_same; [| | |exact H]; reflexivity.
  - eapply lock_guarded_same; [| | |exact H]; reflexivity.
  - unfold fetchSettled. destruct (nth_error (fetches s) k) as [pf|]; [|exact H].
    eapply lock_guarded_same; [| | |exact H];
      unfold fetchIssues_settle;
      destruct (fetchIssues_call session pf) as [[r|]|err];
      try destruct (isReset pf); reflexivity.
  - destruct (onMoveShouldSetPanResponder gs s); [|exact H].
    apply lock_guarded_unlocked, resetAnimationLock_unlocked.
  - eapply lock_guarded_same; [| | |exact H]; reflexivity.
  - unfold onPanResponderRelease.
    destruct (swipedLeft gs); [apply forceSwipe_lock_guarded; exact H|].
    destruct (swipedRight gs); [apply forceSwipe_lock_guarded; exact H|].
    eapply lock_guarded_same; [| | |exact H]; reflexivity.
  - apply lock_guarded_unlocked, resetAnimationLock_unlocked.
  - unfold timerFired. destruct (find _ (timers s)) as [t|]; [|exact H].
    destruct (isAnimatingRef (clearTimeout id s)) eqn:E.
    + apply lock_guarded_unlocked, completeSwipe_unlocked.
    + apply lock_guarded_unlocked. exact E.
  - unfold springFinished. destruct (existsb _ (callbacks s)); [|exact H].
    apply lock_guarded_unlocked, completeSwipe_unlocked.
  - unfold handleOpenDetail. destruct (currentIndex s <? 0); [exact H|].
    destruct (nth_error _ _); [|exact H].
    eapply lock_guarded_same; [| | |exact H]; reflexivity.
  - eapply lock_guarded_same; [| | |exact H]; reflexivity.
Qed.

Lemma handle_lock_guarded (e : Event) (s : Screen) :
  lock_guarded s -> lock_guarded (handle SCREEN_WIDTH e s).
Proof.
  intros H. unfold handle.
  destruct (render_lock_frame s (dispatch SCREEN_WIDTH e s)) as (A1 & A2 & A3 & _).
  eapply lock_guarded_same; [exact A1|exact A2|exact A3|].
  apply dispatch_lock_guarded. exact H.
Qed.

Lemma run_events_lock_guarded (es : list Event) (s : Screen) :
  lock_guarded s -> lock_guarded (run_events SCREEN_WIDTH es s).
Proof.
  revert s. induction es as [|e es IH]; intros s H; simpl; [exact H|].
  apply IH. apply handle_lock_guarded. exact H.
Qed.

(** The safety timeout, once due, releases the lock. *)
Lemma timerFired_unlocks (id : nat) (s : Screen) (t : Timer) :
  In t (timers s) -> timer_id t = id ->
  isAnimatingRef (timerFired id s) = false.
Proof.
  intros Hin Hid. unfold timerFired.
  destruct (find (fun t0 => Nat.eqb (timer_id t0) id) (timers s)) as [t'|] eqn:E.
  - destruct (isAnimatingRef (clearTimeout id s)) eqn:El.
    + apply completeSwipe_unlocked.
    + exact El.
  - exfalso. eapply find_none in E; [|exact Hin].
    simpl in E. rewrite Hid, Nat.eqb_refl in E. discriminate.
Qed.

End SwipeMachine.

(** ** The index stays inside the loaded list *)

Section IndexInRange.
Import Types.
Import MainScreen.
Import Vocabulary.

Variable SCREEN_WIDTH : Q.

Lemma In_remove_nth {A : Type} (k : nat) (l : list A) (x : A) :
  In x (remove_nth k l) -> In x l.
Proof.
  revert k. induction l as [|y l IH]; intros k H; destruct k; simpl in *; auto.
  destruct H as [H | H]; [now left|right; eauto].
Qed.

Lemma In_remove_first (n x : Z) (l : list Z) :
  In x (remove_first n l) -> In x l.
Proof.
  induction l as [|y l IH]; simpl; [auto|].
  destruct (y =? n); [now right|].
  intros [H | H]; [now left|right; auto].
Qed.

Lemma Forall_remove_first (P : Z -> Prop) (n : Z) (l : list Z) :
  Forall P l -> Forall P (remove_first n l).
Proof.
  rewrite !Forall_forall. intros H x Hx. apply H. eapply In_remove_first; eauto.
Qed.

Lemma Forall_filter {A : Type} (P : A -> Prop) (f : A -> bool) (l : list A) :
  Forall P l -> Forall P (filter f l).
Proof.
  rewrite !Forall_forall. intros H x Hx. apply H. apply filter_In in Hx. tauto.
Qed.

Lemma empty_deck_rests (s : Screen) :
  deck_sound s -> issues s = [] ->
  currentIndex s = 0 /\ callbacks s = [] /\ timers s = [].
Proof.
  intros (_ & R & C & T & _) E.
  unfold index_in_range, deck_length in *. rewrite E in *. simpl in *.
  split; [destruct R as [R | [_ R]]; lia|].
  split.
  - destruct (callbacks s) as [|n l]; [reflexivity|]. inversion C; lia.
  - destruct (timers s) as [|t l]; [reflexivity|]. inversion T; lia.
Qed.

(** Closes [deck_sound] of a state whose deck is, after unfolding, the
    deck the hypotheses speak of. *)
Ltac keep_sound X R C T F :=
  unfold deck_sound, index_in_range, deck_length in *; simpl;
  (split; [exact X|]); (split; [exact R|]);
  (split; [first [exact C | apply Forall_remove_first; exact C]|]);
  (split; [first [exact T | apply Forall_filter; exact T]|exact F]).

Lemma resetAnimationLock_sound (s : Screen) :
  deck_sound s -> deck_sound (resetAnimationLock s).
Proof.
  intros (X & R & C & T & F). unfold resetAnimationLock.
  destruct (safetyTimerRef s); keep_sound X R C T F.
Qed.

Lemma completeSwipe_sound (n : Z) (s : Screen) :
  deck_sound s -> 0 <= n < deck_length s -> deck_sound (completeSwipe n s).
Proof.
  intros (X & R & C & T & F) Hn. unfold completeSwipe.
  apply resetAnimationLock_sound.
  unfold deck_sound, index_in_range, deck_length in *; simpl.
  split; [reflexivity|]. split; [left; exact Hn|].
  split; [exact C|]. split; [exact T|exact F].
Qed.

Lemma forceSwipe_sound (d : Direction) (s : Screen) :
  deck_ok s -> deck_sound (forceSwipe SCREEN_WIDTH d s).
Proof.
  intros (RI & X & R & C & T & F). unfold forceSwipe.
  destruct (isAnimatingRef s); [keep_sound X R C T F|].
  match goal with |- context [if ?b then _ else _] => destruct b eqn:E end.
  - keep_sound X R C T F.
  - apply orb_false_iff in E. destruct E as [E1 E2].
    apply Z.ltb_ge in E1. rewrite Z.geb_leb in E2. apply Z.leb_gt in E2.
    rewrite RI in E2.
    unfold deck_sound, index_in_range, deck_length in *; simpl.
    split; [exact X|]. split; [exact R|].
    split; [apply Forall_app; split; [exact C|repeat constructor; lia]|].
    split.
    + apply Forall_app; split.
      * eapply Forall_impl; [|exact T]. simpl. intros t [H1 H2]. split; [exact H1|lia].
      * repeat constructor; simpl; lia.
    + exact F.
Qed.

Lemma map_same_length (u : NormalizedIssue) (l : list NormalizedIssue) :
  List.length (map (fun i => if same_issue u i then u else i) l) = List.length l.
Proof. apply length_map. Qed.

Lemma resetAnimationLock_filters (s : Screen) :
  filters (resetAnimationLock s) = filters s.
Proof. unfold resetAnimationLock. destruct (safetyTimerRef s); reflexivity. Qed.

Lemma completeSwipe_filters (n : Z) (s : Screen) :
  filters (completeSwipe n s) = filters s.
Proof. unfold completeSwipe. rewrite resetAnimationLock_filters. reflexivity. Qed.

(** Every handler other than a change of filters keeps the deck sound and
    the filters as they were. *)
Lemma dispatch_sound (e : Event) (s : Screen) :
  keeps_feed e = true -> deck_ok s ->
  deck_sound (dispatch SCREEN_WIDTH e s)
  /\ filters (dispatch SCREEN_WIDTH e s) = filters s.
Proof.
  intros K OK. pose proof OK as (RI & S). pose proof S as (X & R & C & T & F).
  destruct e; try discriminate K; simpl.
  - (* FetchSettled *)
    unfold fetchSettled. destruct (nth_error (fetches s) k) as [pf|] eqn:Ek;
      [|split; [exact S|reflexivity]].
    assert (Hin : In pf (fetches s)) by (eapply nth_error_In; eauto).
    destruct (isReset pf) eqn:Er.
    + destruct (F pf Hin Er) as [Ei Ef].
      destruct (empty_deck_rests s S Ei) as (I0 & C0 & T0).
      assert (Ek0 : remove_nth k (fetches s) = []).
      { rewrite Ef in *. destruct k as [|[|k]]; simpl in *; try reflexivity; discriminate. }
      unfold fetchIssues_settle. rewrite Er, Ek0.
      destruct (fetchIssues_call session pf) as [[res|]|err];
        unfold deck_sound, index_in_range, deck_length; simpl;
        rewrite ?C0, ?T0; (split; [|reflexivity]).
      * split; [congruence|]. split.
        { destruct (items res); simpl; [right; auto|left; lia]. }
        repeat split; try constructor; contradiction.
      * rewrite Ei. split; [congruence|]. split; [right; auto|].
        repeat split; try constructor; contradiction.
      * rewrite Ei. split; [congruence|]. split; [right; auto|].
        repeat split; try constructor; contradiction.
    + assert (Hno : forall pf', In pf' (remove_nth k (fetches s)) -> isReset pf' = false).
      { intros pf' H'. apply In_remove_nth in H'.
        destruct (isReset pf') eqn:E'; [|reflexivity].
        destruct (F pf' H' E') as [_ Ef]. rewrite Ef in Hin.
        destruct Hin as [<- | []]. congruence. }
      assert (Hvac : forall pf', In pf' (remove_nth k (fetches s)) ->
                                 isReset pf' = true -> False).
      { intros pf' H1 H2. rewrite (Hno pf' H1) in H2. discriminate. }
      unfold fetchIssues_settle. rewrite Er.
      destruct (fetchIssues_call session pf) as [[res|]|err];
        unfold deck_sound, index_in_range, deck_length in *; simpl;
        (split; [|reflexivity]).
      * rewrite length_app, Nat2Z.inj_add.
        split; [exact X|]. split.
        { destruct R as [R | [R1 R2]]; [left; lia|].
          rewrite R1, R2. simpl. destruct (items res); simpl; [right; auto|left; lia]. }
        split; [eapply Forall_impl; [|exact C]; simpl; intros; lia|].
        split; [eapply Forall_impl; [|exact T]; simpl; intros t [H1 H2]; split; lia|].
        intros pf' H1 H2. exfalso; eauto.
      * split; [exact X|]. split; [exact R|]. split; [exact C|]. split; [exact T|].
        intros pf' H1 H2. exfalso; eauto.
      * split; [exact X|]. split; [exact R|]. split; [exact C|]. split; [exact T|].
        intros pf' H1 H2. exfalso; eauto.
  - (* PanGrant *)
    destruct (onMoveShouldSetPanResponder gs s); [|split; [exact S|reflexivity]].
    split.
    + unfold onPanResponderGrant. apply resetAnimationLock_sound.
      keep_sound X R C T F.
    + exact (resetAnimationLock_filters (set_position 0 s)).
  - (* PanMove *)
    split; [|reflexivity].
    keep_sound X R C T F.
  - (* PanRelease *)
    unfold onPanResponderRelease.
    assert (Hf : forall d, filters (forceSwipe SCREEN_WIDTH d s) = filters s).
    { intros d. unfold forceSwipe. destruct (isAnimatingRef s); [reflexivity|].
      match goal with |- context [if ?b then _ else _] => destruct b end; reflexivity. }
    destruct (swipedLeft gs); [split; [apply forceSwipe_sound; exact OK|apply Hf]|].
    destruct (swipedRight gs); [split; [apply forceSwipe_sound; exact OK|apply Hf]|].
    split; [|reflexivity].
    keep_sound X R C T F.
  - (* PanTerminate *)
    split.
    + unfold onPanResponderTerminate. apply resetAnimationLock_sound.
      keep_sound X R C T F.
    + exact (resetAnimationLock_filters (set_position 0 s)).
  - (* TimerFired *)
    unfold timerFired.
    destruct (find (fun t => Nat.eqb (timer_id t) id) (timers s)) as [t|] eqn:Ef;
      [|split; [exact S|reflexivity]].
    apply find_some in Ef. destruct Ef as [Hin _].
    assert (Ht : 0 <= timer_newIndex t < deck_length s).
    { rewrite Forall_forall in T. apply (T t Hin). }
    assert (S1 : deck_sound (clearTimeout id s)).
    { keep_sound X R C T F. }
    destruct (isAnimatingRef (clearTimeout id s)).
    + split; [apply completeSwipe_sound; [exact S1|exact Ht]|].
      rewrite completeSwipe_filters. reflexivity.
    + split; [exact S1|reflexivity].
  - (* SpringFinished *)
    unfold springFinished.
    destruct (existsb (Z.eqb newIndex) (callbacks s)) eqn:Ee;
      [|split; [exact S|reflexivity]].
    apply existsb_exists in Ee. destruct Ee as (x & Hx & Exn).
    apply Z.eqb_eq in Exn. subst x.
    assert (Hn : 0 <= newIndex < deck_length s).
    { rewrite Forall_forall in C. apply (C newIndex Hx). }
    split.
    + apply completeSwipe_sound; [|exact Hn].
      keep_sound X R C T F.
    + rewrite completeSwipe_filters. reflexivity.
  - (* OpenDetail *)
    unfold handleOpenDetail. destruct (currentIndex s <? 0); [split; [exact S|reflexivity]|].
    destruct (nth_error _ _); [|split; [exact S|reflexivity]].
    split; [|reflexivity].
    keep_sound X R C T F.
  - (* IssueUpdated *)
    split; [|reflexivity].
    unfold handleIssueUpdated, deck_sound, index_in_range, deck_length in *; simpl.
    rewrite map_same_length.
    split; [exact X|]. split.
    { destruct R as [R | [R1 R2]]; [left; exact R|right]. rewrite R1. auto. }
    split; [exact C|]. split; [exact T|].
    intros pf H1 H2. destruct (F pf H1 H2) as [E1 E2]. rewrite E1. auto.
Qed.

(** The render that follows brings [issuesRef] back in step. *)
Lemma render_sound (prev s : Screen) :
  fetch_deps_same (filters prev) (filters s) = true ->
  deck_sound s -> deck_ok (render prev s).
Proof.
  intros H (X & R & C & T & F).
  destruct (render_frame prev s H) as (D & RI & RX & G).
  destruct D as (Di & Dx & _ & _ & _ & _ & _ & _ & _ & _ & Dt & Dn & _ & Dc & _).
  unfold deck_ok, deck_sound, index_in_range, deck_length.
  rewrite RI, RX, Di, Dx, Dt, Dn, Dc.
  split; [reflexivity|].
  split; [destruct (currentIndex prev =? currentIndex s); congruence|].
  split; [exact R|]. split; [exact C|]. split; [exact T|].
  destruct G as (extra & Gf & Gn & Ge).
  intros pf Hin Hr. rewrite Gf in Hin. apply in_app_or in Hin.
  destruct Hin as [Hin | Hin].
  - destruct (F pf Hin Hr) as [E1 E2]. split; [exact E1|].
    destruct Ge as [-> | Ge]; [|contradiction].
    rewrite Gf, app_nil_r. exact E2.
  - rewrite Forall_forall in Gn. rewrite (Gn pf Hin) in Hr. discriminate.
Qed.

Lemma handle_ok (e : Event) (s : Screen) :
  keeps_feed e = true -> deck_ok s -> deck_ok (handle SCREEN_WIDTH e s).
Proof.
  intros K OK. destruct (dispatch_sound e s K OK) as [S Hf].
  unfold handle. apply render_sound; [|exact S].
  rewrite Hf. apply fetch_deps_same_refl.
Qed.

Lemma run_events_ok (es : list Event) (s : Screen) :
  forallb keeps_feed es = true -> deck_ok s ->
  deck_ok (run_events SCREEN_WIDTH es s).
Proof.
  revert s. induction es as [|e es IH]; intros s K OK; simpl; [exact OK|].
  simpl in K. apply andb_true_iff in K. destruct K as [K1 K2].
  apply IH; [exact K2|]. apply handle_ok; assumption.
Qed.

Lemma mount_ok : deck_ok mount.
Proof.
  unfold deck_ok, deck_sound, index_in_range, deck_length. simpl.
  split; [reflexivity|]. split; [reflexivity|]. split; [right; auto|].
  split; [constructor|]. split; [constructor|].
  intros pf [<- | []] _. auto.
Qed.

End IndexInRange.

(** ** A committed swipe and its two completions *)

Section CommittedSwipe.
Import Types.
Import MainScreen.
Import Vocabulary.

Variable SCREEN_WIDTH : Q.

Lemma forceSwipe_filters (d : Direction) (s : Screen) :
  filters (forceSwipe SCREEN_WIDTH d s) = filters s.
Proof.
  unfold forceSwipe. destruct (isAnimatingRef s); [reflexivity|].
  match goal with |- context [if ?b then _ else _] => destruct b end; reflexivity.
Qed.

Lemma dispatch_filters (e : Event) (s : Screen) :
  keeps_feed e = true -> filters (dispatch SCREEN_WIDTH e s) = filters s.
Proof.
  intros K. destruct e; try discriminate K; simpl.
  - unfold fetchSettled. destruct (nth_error (fetches s) k) as [pf|]; [|reflexivity].
    unfold fetchIssues_settle.
    destruct (fetchIssues_call session pf) as [[res|]|err];
      try destruct (isReset pf); reflexivity.
  - destruct (onMoveShouldSetPanResponder gs s); [|reflexivity].
    exact (resetAnimationLock_filters (set_position 0 s)).
  - reflexivity.
  - unfold onPanResponderRelease.
    destruct (swipedLeft gs); [apply forceSwipe_filters|].
    destruct (swipedRight gs); [apply forceSwipe_filters|reflexivity].
  - exact (resetAnimationLock_filters (set_position 0 s)).
  - unfold timerFired. destruct (find _ (timers s)); [|reflexivity].
    destruct (isAnimatingRef (clearTimeout id s)); [|reflexivity].
    rewrite completeSwipe_filters. reflexivity.
  - unfold springFinished. destruct (existsb _ (callbacks s)); [|reflexivity].
    rewrite completeSwipe_filters. reflexivity.
  - unfold handleOpenDetail. destruct (currentIndex s <? 0); [reflexivity|].
    destruct (nth_error _ _); reflexivity.
  - reflexivity.
Qed.

(** After the render, the deck is the one the handler left. *)
Lemma handle_same_deck (e : Event) (s : Screen) :
  keeps_feed e = true ->
  same_deck (handle SCREEN_WIDTH e s) (dispatch SCREEN_WIDTH e s).
Proof.
  intros K. unfold handle. apply render_frame.
  rewrite (dispatch_filters e s K). apply fetch_deps_same_refl.
Qed.




(** Inside the list and with the lock free, [forceSwipe] commits. *)
Lemma forceSwipe_commit (d : Direction) (s : Screen) :
  deck_ok s -> isAnimatingRef s = false ->
  0 <= target d s < deck_length s ->
  forceSwipe SCREEN_WIDTH d s
  = startSpring (swipeOut SCREEN_WIDTH d) (Some (target d s))
      (setSafetyTimeout (target d s) 500 (set_isAnimatingRef true s)).
Proof.
  intros (RI & X & _) Hfree Hin. unfold forceSwipe. rewrite Hfree, X, RI.
  unfold target, deck_length in Hin.
  assert (E : (match d with
               | Left => currentIndex s + 1
               | Right => currentIndex s - 1
               end <? 0)
              || (match d with
                  | Left => currentIndex s + 1
                  | Right => currentIndex s - 1
                  end >=? Z.of_nat (List.length (issues s))) = false).
  { apply orb_false_iff. split; [apply Z.ltb_ge; destruct d; lia|].
    rewrite Z.geb_leb. apply Z.leb_gt. destruct d; lia. }
  rewrite E. unfold target. destruct d; reflexivity.
Qed.

Lemma find_fresh_timer (l : list Timer) (t : Timer) :
  Forall (fun t0 => (timer_id t0 < timer_id t)%nat) l ->
  find (fun t0 => Nat.eqb (timer_id t0) (timer_id t)) (l ++ [t])%list = Some t.
Proof.
  induction 1 as [|t0 l H _ IH]; simpl.
  - rewrite Nat.eqb_refl. reflexivity.
  - assert (E : Nat.eqb (timer_id t0) (timer_id t) = false)
      by (apply Nat.eqb_neq; lia).
    rewrite E. exact IH.
Qed.

Lemma existsb_last (n : Z) (l : list Z) :
  existsb (Z.eqb n) (l ++ [n])%list = true.
Proof.
  rewrite existsb_app. simpl. rewrite Z.eqb_refl, orb_true_r. reflexivity.
Qed.

Lemma completeSwipe_timers (n : Z) (s : Screen) :
  timers (completeSwipe n s)
  = match safetyTimerRef s with
    | Some id => filter (fun t => negb (Nat.eqb (timer_id t) id)) (timers s)
    | None => timers s
    end
  /\ callbacks (completeSwipe n s) = callbacks s
  /\ safetyTimerRef (completeSwipe n s) = None.
Proof.
  unfold completeSwipe, resetAnimationLock. simpl.
  destruct (safetyTimerRef s) eqn:E; simpl; rewrite ?E; repeat split; reflexivity.
Qed.

Lemma find_cleared (id : nat) (l : list Timer) :
  find (fun t => Nat.eqb (timer_id t) id)
       (filter (fun t => negb (Nat.eqb (timer_id t) id)) l) = None.
Proof.
  induction l as [|t l IH]; simpl; [reflexivity|].
  destruct (Nat.eqb (timer_id t) id) eqn:E; simpl; [exact IH|].
  rewrite E. exact IH.
Qed.

End CommittedSwipe.

Section SwipeClaims.
Import Types.
Import MainScreen.
Import Vocabulary.



End SwipeClaims.

Section SafetyTimeoutClaims.
Import Types.
Import MainScreen.
Import Vocabulary.

(** C7.  A committed swipe is completed by whichever of its two
    completions comes, and once only.  After [forceSwipe] has committed
    (lock taken, safety timeout of 500 ms scheduled), the timeout alone
    moves [currentIndex] to the target and releases the lock; a start
    callback arriving after it leaves the index at the target and the
    lock released; a start callback arriving first does the same and
    cancels the timeout.  And in every state the screen can reach, a held
    lock has its safety timeout scheduled, and that timeout releases it. *)
Theorem safety_timeout_completes_swipe :
  forall SCREEN_WIDTH : Q,
    (forall d s,
        deck_ok s -> isAnimatingRef s = false ->
        0 <= target d s < deck_length s ->
        let s1 := forceSwipe SCREEN_WIDTH d s in
        let id := nextTimerId s in
        let fired := handle SCREEN_WIDTH (TimerFired id) s1 in
        let late := handle SCREEN_WIDTH (SpringFinished (target d s)) fired in
        let settled := handle SCREEN_WIDTH (SpringFinished (target d s)) s1 in
        isAnimatingRef s1 = true
        /\ currentIndex s1 = currentIndex s
        /\ In {| timer_id := id; delay := 500; timer_newIndex := target d s |}
              (timers s1)
        /\ currentIndex fired = target d s /\ isAnimatingRef fired = false
        /\ currentIndex late = target d s /\ isAnimatingRef late = false
        /\ currentIndex settled = target d s /\ isAnimatingRef settled = false
        /\ dispatch SCREEN_WIDTH (TimerFired id) settled = settled)
    /\ (forall es,
           isAnimatingRef (run_events SCREEN_WIDTH es mount) = true ->
           exists t,
             In t (timers (run_events SCREEN_WIDTH es mount))
             /\ delay t = 500
             /\ isAnimatingRef
                  (handle SCREEN_WIDTH (TimerFired (timer_id t))
                          (run_events SCREEN_WIDTH es mount)) = false).
Proof.
  intros W. split.
  - intros d s OK Hfree Hin s1 id fired late settled.
    pose proof OK as (_ & _ & _ & _ & T & _).
    set (tgt := target d s) in *.
    set (tm := {| timer_id := id; delay := 500; timer_newIndex := tgt |}).
    assert (Hs1 : s1 = startSpring (swipeOut W d) (Some tgt)
                         (setSafetyTimeout tgt 500 (set_isAnimatingRef true s)))
      by (apply forceSwipe_commit; assumption).
    assert (Et : timers s1 = (timers s ++ [tm])%list) by (rewrite Hs1; reflexivity).
    assert (Ec : callbacks s1 = (callbacks s ++ [tgt])%list) by (rewrite Hs1; reflexivity).
    assert (El : isAnimatingRef s1 = true) by (rewrite Hs1; reflexivity).
    assert (Er : safetyTimerRef s1 = Some id) by (rewrite Hs1; reflexivity).
    assert (Ex : currentIndex s1 = currentIndex s) by (rewrite Hs1; reflexivity).
    assert (Hfresh : find (fun t0 => Nat.eqb (timer_id t0) id) (timers s1) = Some tm).
    { rewrite Et. apply (find_fresh_timer (timers s) tm).
      eapply Forall_impl; [|exact T]. simpl. intros t [_ H]. exact H. }
    (* the timeout alone *)
    assert (Hfired : timerFired id s1 = completeSwipe tgt (clearTimeout id s1)).
    { unfold timerFired. rewrite Hfresh.
      change (isAnimatingRef (clearTimeout id s1)) with (isAnimatingRef s1).
      rewrite El. reflexivity. }
    pose proof (handle_same_deck W (TimerFired id) s1 eq_refl) as Df.
    fold fired in Df. simpl in Df. rewrite Hfired in Df.
    destruct Df as (_ & Dfx & _ & _ & _ & _ & _ & _ & Dfl & _ & _ & _ & _ & Dfc & _).
    destruct (completeSwipe_index tgt (clearTimeout id s1)) as [Cx _].
    destruct (completeSwipe_timers tgt (clearTimeout id s1)) as (_ & Cc & _).
    (* the late callback *)
    assert (Hlate : springFinished tgt fired
                    = completeSwipe tgt
                        (set_callbacks (remove_first tgt (callbacks fired)) fired)).
    { unfold springFinished. rewrite Dfc, Cc.
      change (callbacks (clearTimeout id s1)) with (callbacks s1).
      rewrite Ec, existsb_last. reflexivity. }
    pose proof (handle_same_deck W (SpringFinished tgt) fired eq_refl) as Dl.
    fold late in Dl. simpl in Dl. rewrite Hlate in Dl.
    destruct Dl as (_ & Dlx & _ & _ & _ & _ & _ & _ & Dll & _).
    (* the callback first *)
    assert (Hsettled : springFinished tgt s1
                       = completeSwipe tgt
                           (set_callbacks (remove_first tgt (callbacks s1)) s1)).
    { unfold springFinished. rewrite Ec, existsb_last. reflexivity. }
    pose proof (handle_same_deck W (SpringFinished tgt) s1 eq_refl) as Ds.
    fold settled in Ds. simpl in Ds. rewrite Hsettled in Ds.
    destruct Ds as (_ & Dsx & _ & _ & _ & _ & _ & _ & Dsl & _ & Dst & _).
    destruct (completeSwipe_timers tgt
                (set_callbacks (remove_first tgt (callbacks s1)) s1)) as (Ct & _ & _).
    change (safetyTimerRef (set_callbacks (remove_first tgt (callbacks s1)) s1))
      with (safetyTimerRef s1) in Ct.
    rewrite Er in Ct.
    split; [exact El|]. split; [exact Ex|].
    split; [rewrite Et; apply in_or_app; right; left; reflexivity|].
    split; [rewrite Dfx; exact Cx|].
    split; [rewrite Dfl; apply completeSwipe_unlocked|].
    split; [rewrite Dlx; apply completeSwipe_index|].
    split; [rewrite Dll; apply completeSwipe_unlocked|].
    split; [rewrite Dsx; apply completeSwipe_index|].
    split; [rewrite Dsl; apply completeSwipe_unlocked|].
    simpl. unfold timerFired. rewrite Dst, Ct, find_cleared. reflexivity.
  - intros es Hlock.
    assert (G : lock_guarded (run_events W es mount)).
    { apply run_events_lock_guarded. apply lock_guarded_unlocked. reflexivity. }
    destruct (G Hlock) as (t & Hin & _ & Hd).
    exists t. split; [exact Hin|]. split; [exact Hd|].
    unfold handle.
    destruct (render_lock_frame (run_events W es mount)
                (dispatch W (TimerFired (timer_id t)) (run_events W es mount)))
      as (-> & _).
    simpl. eapply timerFired_unlocks; [exact Hin|reflexivity].
Qed.

Lemma safety_timeout_completes_swipe_witness :
  currentIndex (handle Fixtures.width (TimerFired (nextTimerId Fixtures.loaded))
                       (forceSwipe Fixtures.width Left Fixtures.loaded)) = 1
  /\ isAnimatingRef (handle Fixtures.width (TimerFired (nextTimerId Fixtures.loaded))
                            (forceSwipe Fixtures.width Left Fixtures.loaded)) = false.
Proof.
  assert (OK : deck_ok Fixtures.loaded).
  { apply run_events_ok; [reflexivity|].
    unfold deck_ok, deck_sound, index_in_range, deck_length. simpl.
    split; [reflexivity|]. split; [reflexivity|]. split; [right; split; reflexivity|].
    split; [constructor|]. split; [constructor|].
    intros pf [<- | []] _. split; reflexivity. }
  destruct (proj1 (safety_timeout_completes_swipe Fixtures.width)
                  Left Fixtures.loaded OK eq_refl)
    as (_ & _ & _ & Hx & Hl & _).
  - vm_compute. split; [discriminate|reflexivity].
  - split; [exact Hx|exact Hl].
Defined.

End SafetyTimeoutClaims.

(** ** Filter changes *)

Section FilterChange.
Import Types.
Import MainScreen.
Import Vocabulary.

Variable SCREEN_WIDTH : Q.

Lemma fetch_field_differs_deps (a b : IssueFilters) :
  fetch_field_differs a b -> fetch_deps_same a b = false.
Proof.
  intros H. destruct (fetch_deps_same a b) eqn:E; [|reflexivity].
  apply fetch_deps_same_iff in E. unfold fetch_field_differs in H. tauto.
Qed.

(** The render that follows [setFilters]: the fetch effect, and nothing
    else. *)
Lemma commit_filters_changed (f : IssueFilters) (s : Screen) :
  fetch_deps_same (filters s) f = false ->
  commit s (handleFiltersChange f s)
  = fetchIssues_begin f 1 true
      (set_hasMore true
         (set_page 1
            (set_currentIndex 0
               (set_issues [] (set_issuesRef (issues s) (set_filters f s)))))).
Proof.
  intros H. unfold commit, handleFiltersChange. simpl.
  rewrite Z.eqb_refl, H.
  change (autoLoad_deps_same s (set_filters f s)) with (autoLoad_deps_same s s).
  rewrite autoLoad_deps_same_refl. reflexivity.
Qed.

Lemma commit_filters_kept (f : IssueFilters) (s : Screen) :
  fetch_deps_same (filters s) f = true ->
  commit s (handleFiltersChange f s) = set_issuesRef (issues s) (set_filters f s).
Proof.
  intros H. unfold commit, handleFiltersChange. simpl.
  rewrite Z.eqb_refl, H.
  change (autoLoad_deps_same s (set_filters f s)) with (autoLoad_deps_same s s).
  rewrite autoLoad_deps_same_refl. reflexivity.
Qed.

(** A render of an empty list starts no prefetch. *)
Lemma commit_empty (prev r : Screen) :
  issues r = [] -> fetch_deps_same (filters prev) (filters r) = true ->
  commit prev r
  = set_issuesRef []
      (if currentIndex prev =? currentIndex r then r
       else set_currentIndexRef (currentIndex r) r).
Proof.
  intros He H. destruct (commit_same_deps prev r H) as [-> | [Hne _]].
  - rewrite He. reflexivity.
  - contradiction.
Qed.

Lemma handle_filters_changed (f : IssueFilters) (s : Screen) :
  fetch_deps_same (filters s) f = false ->
  deck_reset_for f s (handle SCREEN_WIDTH (FiltersChange f) s)
  /\ issuesRef (handle SCREEN_WIDTH (FiltersChange f) s) = []
  /\ page (handle SCREEN_WIDTH (FiltersChange f) s) = 1
  /\ hasMore (handle SCREEN_WIDTH (FiltersChange f) s) = true
  /\ filters (handle SCREEN_WIDTH (FiltersChange f) s) = f.
Proof.
  intros H. unfold handle, render. simpl.
  rewrite (commit_filters_changed f s H).
  set (cleared := set_hasMore true
                    (set_page 1
                       (set_currentIndex 0
                          (set_issues [] (set_issuesRef (issues s) (set_filters f s)))))).
  destruct (fetchIssues_begin_frame f 1 true cleared) as (D & _ & _ & F).
  destruct D as (Di & Dx & Df & _ & Dp & Dm & _).
  rewrite commit_empty; [|rewrite Di; reflexivity|rewrite Df; apply fetch_deps_same_refl].
  assert (G : forall c : Screen,
             c = fetchIssues_begin f 1 true cleared
             \/ c = set_currentIndexRef (currentIndex (fetchIssues_begin f 1 true cleared))
                                        (fetchIssues_begin f 1 true cleared) ->
             deck_reset_for f s (set_issuesRef [] c)
             /\ issuesRef (set_issuesRef [] c) = []
             /\ page (set_issuesRef [] c) = 1
             /\ hasMore (set_issuesRef [] c) = true
             /\ filters (set_issuesRef [] c) = f).
  { intros c Hc.
    assert (E : issues c = [] /\ currentIndex c = 0 /\ page c = 1 /\ hasMore c = true
                /\ filters c = f
                /\ fetches c = (fetches s ++ if needsSelection f then []
                                             else [first_page_of f])%list).
    { destruct Hc as [-> | ->]; simpl; rewrite Di, Dx, Dp, Dm, Df, F; repeat split. }
    destruct E as (E1 & E2 & E3 & E4 & E5 & E6).
    split; [|simpl; auto].
    unfold deck_reset_for. simpl.
    split; [exact E2|]. split; [exact E1|]. split; [exact E6|].
    exists cleared. split; [reflexivity|]. split; [reflexivity|].
    split; [reflexivity|]. apply commit_filters_changed. exact H. }
  destruct (currentIndex (handleFiltersChange f s) =? _); apply G; auto.
Qed.

End FilterChange.

Section FilterChangeClaims.
Import Types.
Import MainScreen.
Import Vocabulary.


Lemma handle_filters_kept (W : Q) (f : IssueFilters) (s : Screen) :
  fetch_deps_same (filters s) f = true ->
  handle W (FiltersChange f) s = set_issuesRef (issues s) (set_filters f s).
Proof.
  intros H. unfold handle, render. simpl.
  rewrite (commit_filters_kept f s H).
  unfold commit, handleFiltersChange. simpl.
  rewrite Z.eqb_refl, fetch_deps_same_refl.
  change (autoLoad_deps_same (set_filters f s)
                             (set_issuesRef (issues s) (set_filters f s)))
    with (autoLoad_deps_same s s).
  rewrite autoLoad_deps_same_refl. reflexivity.
Qed.




End FilterChangeClaims.

(** ** Pages appended to the deck *)

Section PageAppend.
Import Types.
Import MainScreen.
Import Vocabulary.

Lemma NoDup_distinct_keys (l : list (string * Z)) :
  NoDup l -> distinct_keys l = true.
Proof.
  induction 1 as [|k r Hnin _ IH]; simpl; [reflexivity|].
  rewrite IH, andb_true_r. apply negb_true_iff.
  destruct (existsb _ r) eqn:E; [|reflexivity].
  exfalso. apply Hnin. apply existsb_exists in E.
  destruct E as (k' & Hin & Hk). apply andb_true_iff in Hk.
  destruct Hk as [H1 H2]. apply String.eqb_eq in H1. apply Z.eqb_eq in H2.
  destruct k, k'; simpl in *; subst. exact Hin.
Qed.

(** A page that is not a reset is appended as it is. *)
Lemma settle_appends (pf : PendingFetch)
      (r : GitHubService.Result (option PaginatedResponse)) (s : Screen) :
  isReset pf = false ->
  issues (fetchIssues_settle pf r s) = (issues s ++ page_items r)%list
  /\ currentIndex (fetchIssues_settle pf r s) = currentIndex s.
Proof.
  intros H. unfold fetchIssues_settle. rewrite H.
  destruct r as [[p|]|e]; simpl; rewrite ?app_nil_r; auto.
Qed.

Lemma settle_all_appends
      (answers : list (PendingFetch * GitHubService.Result (option PaginatedResponse)))
      (s : Screen) :
  Forall (fun a => isReset (fst a) = false) answers ->
  issues (settle_all answers s)
  = (issues s ++ flat_map (fun a => page_items (snd a)) answers)%list
  /\ currentIndex (settle_all answers s) = currentIndex s.
Proof.
  intros H. revert s. induction H as [|a l Ha _ IH]; intros s; simpl.
  - rewrite app_nil_r. auto.
  - unfold settle_all in *. simpl.
    destruct (IH (fetchIssues_settle (fst a) (snd a) s)) as [E1 E2].
    destruct (settle_appends (fst a) (snd a) s Ha) as [F1 F2].
    rewrite E1, E2, F1, F2, <- app_assoc. auto.
Qed.

End PageAppend.

Section PageAppendClaims.
Import Types.
Import MainScreen.
Import Vocabulary.

(** C3, as the code has it.  A page that is not a reset is appended to
    the list as it came: when its fetch settles, the list is the old list
    followed by the page's items and [currentIndex] is unchanged.  So
    after any run of such pages the list is the concatenation, in order
    of arrival, of what was there and of the pages, and it is free of
    repeated (repository, number) keys exactly when that concatenation
    is: nothing is dropped or merged on the way. *)
Theorem appended_pages_are_concatenated :
  forall SCREEN_WIDTH : Q,
    (forall k session s pf,
        nth_error (fetches s) k = Some pf -> isReset pf = false ->
        issues (handle SCREEN_WIDTH (FetchSettled k session) s)
        = (issues s ++ page_items (fetchIssues_call session pf))%list
        /\ currentIndex (handle SCREEN_WIDTH (FetchSettled k session) s)
           = currentIndex s)
    /\ (forall answers s,
           Forall (fun a => isReset (fst a) = false) answers ->
           issues (settle_all answers s)
           = (issues s ++ flat_map (fun a => page_items (snd a)) answers)%list
           /\ currentIndex (settle_all answers s) = currentIndex s
           /\ (NoDup (map issue_key (issues (settle_all answers s)))
               <-> NoDup (map issue_key
                              (issues s
                               ++ flat_map (fun a => page_items (snd a)) answers)))).
Proof.
  intros W. split.
  - intros k session s pf Hk Hr.
    destruct (handle_same_deck W (FetchSettled k session) s eq_refl)
      as (Di & Dx & _).
    rewrite Di, Dx. simpl. unfold fetchSettled. rewrite Hk.
    apply (settle_appends pf (fetchIssues_call session pf)
                          (set_fetches (remove_nth k (fetches s)) s) Hr).
  - intros answers s H.
    destruct (settle_all_appends answers s H) as [E1 E2].
    split; [exact E1|]. split; [exact E2|].
    rewrite E1. tauto.
Qed.

Lemma appended_pages_are_concatenated_witness :
  issues (settle_all
            [({| pf_filters := filters mount; pageNum := 2; isReset := false |},
              fetchIssues_call Fixtures.feed25
                {| pf_filters := filters mount; pageNum := 2; isReset := false |})]
            Fixtures.loaded)
  = (issues Fixtures.loaded
     ++ flat_map (fun a => page_items (snd a))
          [({| pf_filters := filters mount; pageNum := 2; isReset := false |},
            fetchIssues_call Fixtures.feed25
              {| pf_filters := filters mount; pageNum := 2; isReset := false |})])%list.
Proof.
  refine (proj1 (proj2 (appended_pages_are_concatenated Fixtures.width) _ _ _)).
  constructor; [reflexivity|constructor].
Defined.

(** C3 as worded fails.  With the filters untouched, page 1 is fetched,
    the user swipes to the seventeenth card, page 2 is prefetched, and in
    between one issue moved to the head of the upstream feed: issue 20,
    the last of page 1, is also the first of page 2, and the list holds
    it twice, at positions 19 and 20. *)
Lemma overlapping_pages_duplicate_an_issue :
  filters (run_events Fixtures.width Fixtures.overlapping_pages mount) = filters mount
  /\ List.length (issues (run_events Fixtures.width Fixtures.overlapping_pages mount))
     = 26%nat
  /\ option_map issue_key
       (nth_error (issues (run_events Fixtures.width Fixtures.overlapping_pages mount)) 19)
     = Some ("octo/deck"%string, 20)
  /\ option_map issue_key
       (nth_error (issues (run_events Fixtures.width Fixtures.overlapping_pages mount)) 20)
     = Some ("octo/deck"%string, 20)
  /\ ~ NoDup (map issue_key
                  (issues (run_events Fixtures.width Fixtures.overlapping_pages mount))).
Proof.
  split; [vm_compute; reflexivity|]. split; [vm_compute; reflexivity|].
  split; [vm_compute; reflexivity|]. split; [vm_compute; reflexivity|].
  intros H. apply NoDup_distinct_keys in H. vm_compute in H. discriminate.
Qed.

End PageAppendClaims.

(** ** Edits: confirm, then commit *)

Section Edits.
Import Types.
Import MainScreen.
Import IssueDetailModal.
Import Vocabulary.

Variable session : GitHubService.Session.

Lemma write_rejected (w : GitHubService.WriteRequest) :
  rejects_writes session ->
  exists e,
    GitHubService.run
      (GitHubService.apiRequest session (GitHubService.SendWrite w)
         (GitHubService.up_write (GitHubService.upstream session) w))
    = GitHubService.Err e.
Proof.
  intros H. specialize (H w).
  unfold GitHubService.run, GitHubService.apiRequest, GitHubService.bind.
  destruct (signed_in session) eqn:Es.
  - destruct (getAccessToken_signed_in session [] Es) as [t ->].
    unfold GitHubService.fetch.
    destruct (GitHubService.up_write (GitHubService.upstream session) w) as [resp|e].
    + rewrite H. simpl.
      repeat match goal with
             | |- context [if ?b then _ else _] => destruct b
             end; eexists; reflexivity.
    + eexists; reflexivity.
  - rewrite (getAccessToken_signed_out session [] Es). eexists; reflexivity.
Qed.

Lemma write_accepted (w : GitHubService.WriteRequest) :
  accepts_writes session ->
  GitHubService.run
    (GitHubService.apiRequest session (GitHubService.SendWrite w)
       (GitHubService.up_write (GitHubService.upstream session) w))
  = GitHubService.Ok tt.
Proof.
  intros [Es H]. destruct (H w) as (resp & Hw & Hok).
  unfold GitHubService.run, GitHubService.apiRequest, GitHubService.bind.
  destruct (getAccessToken_signed_in session [] Es) as [t ->].
  unfold GitHubService.fetch. rewrite Hw, Hok. simpl.
  destruct (GitHubService.json resp). reflexivity.
Qed.

(** A rejected edit adds an alert to the screen and nothing else. *)
Lemma mutate_rejected (m : Mutation) (s : Screen) :
  rejects_writes session ->
  mutate session m s = s \/ exists a, mutate session m s = alert a s.
Proof.
  intros H. destruct m; simpl.
  - unfold handleToggleState. destruct (selectedIssue s) as [issue|]; [|now left].
    unfold GitHubService.updateIssueState.
    destruct (write_rejected
                (GitHubService.PatchIssue (fst (repoParts issue)) (snd (repoParts issue))
                   (number issue)
                   (GitHubService.PatchState
                      match state issue with open => closed | closed => open end)) H)
      as [e ->].
    right. eexists. reflexivity.
  - unfold handleAssign. destruct (selectedIssue s) as [issue|]; [|now left].
    unfold GitHubService.assignIssue.
    destruct (write_rejected
                (GitHubService.PatchIssue (fst (repoParts issue)) (snd (repoParts issue))
                   (number issue)
                   (GitHubService.PatchAssignees
                      (toggle (map login (assignees issue)) who))) H)
      as [e ->].
    right. eexists. reflexivity.
  - unfold handleToggleLabel. destruct (selectedIssue s) as [issue|]; [|now left].
    unfold GitHubService.updateLabels.
    destruct (write_rejected
                (GitHubService.PutLabels (fst (repoParts issue)) (snd (repoParts issue))
                   (number issue) (toggle (map label_name (labels issue)) labelName)) H)
      as [e ->].
    right. eexists. reflexivity.
  - unfold handleAddComment. destruct (selectedIssue s) as [issue|]; [|now left].
    destruct (String.eqb (trim newComment) EmptyString); [now left|].
    unfold GitHubService.addComment.
    destruct (write_rejected
                (GitHubService.PostComment (fst (repoParts issue)) (snd (repoParts issue))
                   (number issue) (trim newComment)) H)
      as [e ->].
    right. eexists. reflexivity.
Qed.


End Edits.

Section IssueReplacement.
Import Types.
Import MainScreen.
Import Vocabulary.


Lemma alert_frame (a : Alert) (s : Screen) :
  issues (alert a s) = issues s /\ currentIndex (alert a s) = currentIndex s
  /\ selectedIssue (alert a s) = selectedIssue s
  /\ filters (alert a s) = filters s.
Proof. repeat split. Qed.

End IssueReplacement.

Section EditClaims.
Import Types.
Import MainScreen.
Import IssueDetailModal.
Import Vocabulary.

(** C8.  An edit whose call comes back with a non-success status (or not
    at all) changes nothing of the deck: the list, the selected issue and
    the index are what they were, before and after the render that
    follows; only an alert is raised.  Closing the open issue of the
    first card against an endpoint that answers 422 leaves its [state]
    at [open], in the list and in the modal; against an endpoint that
    answers 200 the same edit closes it. *)
Theorem failed_mutation_leaves_deck :
  (forall session m s,
      rejects_writes session ->
      issues (mutate session m s) = issues s
      /\ selectedIssue (mutate session m s) = selectedIssue s
      /\ currentIndex (mutate session m s) = currentIndex s
      /\ issues (render s (mutate session m s)) = issues s
      /\ selectedIssue (render s (mutate session m s)) = selectedIssue s
      /\ currentIndex (render s (mutate session m s)) = currentIndex s)
  /\ (option_map state (selectedIssue Fixtures.detail_open) = Some open
      /\ option_map state
           (nth_error (issues (mutate Fixtures.rejecting ToggleState Fixtures.detail_open))
                      0) = Some open
      /\ option_map state
           (selectedIssue (mutate Fixtures.rejecting ToggleState Fixtures.detail_open))
         = Some open
      /\ alerts (mutate Fixtures.rejecting ToggleState Fixtures.detail_open)
         = [AlertError "Error" (GitHubService.ApiError 422 "response body")
                       "Failed to update issue state"]
      /\ option_map state
           (nth_error (issues (mutate Fixtures.accepting ToggleState Fixtures.detail_open))
                      0) = Some closed).
Proof.
  split.
  - intros session m s H.
    assert (A : issues (mutate session m s) = issues s
                /\ currentIndex (mutate session m s) = currentIndex s
                /\ selectedIssue (mutate session m s) = selectedIssue s
                /\ filters (mutate session m s) = filters s).
    { destruct (mutate_rejected session m s H) as [-> | [a ->]];
        [repeat split|apply alert_frame]. }
    destruct A as (Ai & Ax & As & Af).
    destruct (render_frame s (mutate session m s)) as (D & _).
    { rewrite Af. apply fetch_deps_same_refl. }
    destruct D as (Di & Dx & _ & Ds & _).
    rewrite Di, Dx, Ds. repeat split; assumption.
  - vm_compute. repeat split; reflexivity.
Qed.

Lemma failed_mutation_leaves_deck_witness :
  issues (mutate Fixtures.rejecting (ToggleLabel "bug") Fixtures.detail_open)
  = issues Fixtures.detail_open.
Proof.
  refine (proj1 (proj1 failed_mutation_leaves_deck Fixtures.rejecting
                       (ToggleLabel "bug") Fixtures.detail_open _)).
  intros w. vm_compute. reflexivity.
Defined.




End EditClaims.

(* ===================================================================== *)
(** * Further properties *)
(* ===================================================================== *)

(** ** Paging: what is in flight, and when the next page is asked for *)

Section FeedFrame.
Import Types.
Import MainScreen.
Import Vocabulary.

Variable SCREEN_WIDTH : Q.

Lemma feed_untouched_refl (s : Screen) : feed_untouched s s.
Proof. unfold feed_untouched. repeat split. Qed.

Lemma feed_untouched_trans (a b c : Screen) :
  feed_untouched a b -> feed_untouched b c -> feed_untouched a c.
Proof. unfold feed_untouched. intuition congruence. Qed.

(** Swipes, timers, callbacks and edits leave the paging state alone. *)
Lemma dispatch_feed_untouched (e : Event) (s : Screen) :
  keeps_pages e = true -> feed_untouched (dispatch SCREEN_WIDTH e s) s.
Proof.
  intros K. unfold feed_untouched.
  destruct e; try discriminate K; simpl;
    unfold onPanResponderGrant, onPanResponderRelease, onPanResponderTerminate,
      onPanResponderMove, forceSwipe, timerFired, springFinished, completeSwipe,
      resetAnimationLock, handleOpenDetail, handleIssueUpdated, startSpring,
      setSafetyTimeout, clearTimeout;
    repeat match goal with
           | |- context [if ?b then _ else _] => destruct b
           | |- context [match ?x with _ => _ end] => destruct x
           end; simpl; repeat split; try reflexivity.
  all: apply length_map.
Qed.

Lemma single_flight_untouched (s s' : Screen) :
  feed_untouched s' s -> single_flight s -> single_flight s'.
Proof.
  intros (F & _ & LM & P & _ & Fi & Len) [[A B] | [(A & B & C) | (A & B)]].
  - left. split; congruence.
  - right; left. rewrite Fi. split; [congruence|]. split; [congruence|].
    rewrite C in Len. destruct (issues s'); [reflexivity|discriminate].
  - right; right. unfold next_page_of in *. rewrite Fi, P. split; congruence.
Qed.

Lemma nth_error_singleton {A : Type} (x y : A) (k : nat) :
  nth_error [x] k = Some y -> k = 0%nat /\ y = x.
Proof.
  destruct k as [|k]; simpl; [intros E; inversion E; auto|].
  destruct k; discriminate.
Qed.

(** Whatever a settling fetch brings, nothing is in flight after it. *)
Lemma single_flight_settled (k : nat) (session : GitHubService.Session) (s : Screen) :
  single_flight s -> single_flight (fetchSettled k session s).
Proof.
  intros H. unfold fetchSettled.
  destruct (nth_error (fetches s) k) as [pf|] eqn:E; [|exact H].
  assert (R : remove_nth k (fetches s) = []).
  { destruct H as [[A _] | [(A & _) | (A & _)]]; rewrite A in E |- *.
    - destruct k; discriminate.
    - apply nth_error_singleton in E. destruct E as [-> _]. reflexivity.
    - apply nth_error_singleton in E. destruct E as [-> _]. reflexivity. }
  left. rewrite R. unfold fetchIssues_settle.
  destruct (fetchIssues_call session pf) as [[res|]|err];
    try destruct (isReset pf); split; reflexivity.
Qed.

Lemma commit_refs_untouched (prev r : Screen) :
  feed_untouched
    (set_issuesRef (issues r)
       (if currentIndex prev =? currentIndex r then r
        else set_currentIndexRef (currentIndex r) r)) r.
Proof.
  unfold feed_untouched.
  destruct (currentIndex prev =? currentIndex r); simpl; repeat split.
Qed.

(** A render under unchanged filters that does not prefetch leaves the
    paging state alone. *)
Lemma commit_feed_untouched (prev r : Screen) :
  fetch_deps_same (filters prev) (filters r) = true ->
  near_end r && hasMore r && negb (loadingMore r) = false ->
  feed_untouched (commit prev r) r.
Proof.
  intros D G. unfold commit. rewrite D.
  destruct (autoLoad_deps_same prev r); [apply commit_refs_untouched|].
  unfold autoLoadEffect. unfold near_end in G. rewrite G.
  apply commit_refs_untouched.
Qed.

(** A render under unchanged filters that prefetches asks for the page
    after the last one loaded. *)
Lemma commit_prefetches (prev r : Screen) :
  fetch_deps_same (filters prev) (filters r) = true ->
  autoLoad_deps_same prev r = false ->
  near_end r && hasMore r && negb (loadingMore r) = true ->
  needsSelection (filters r) = false ->
  fetches (commit prev r) = (fetches r ++ [next_page_of r])%list
  /\ loadingMore (commit prev r) = true
  /\ currentIndex (commit prev r) = currentIndex r
  /\ issues (commit prev r) = issues r
  /\ page (commit prev r) = page r
  /\ hasMore (commit prev r) = hasMore r
  /\ filters (commit prev r) = filters r.
Proof.
  intros D A G N. unfold commit. rewrite D, A.
  unfold autoLoadEffect. unfold near_end in G. rewrite G.
  unfold fetchIssues_begin. rewrite N.
  destruct (currentIndex prev =? currentIndex r); simpl; repeat split.
Qed.

Lemma single_flight_commit (prev r : Screen) :
  fetch_deps_same (filters prev) (filters r) = true ->
  single_flight r -> single_flight (commit prev r).
Proof.
  intros D H.
  destruct (near_end r && hasMore r && negb (loadingMore r)) eqn:G;
    [|apply (single_flight_untouched r); [apply commit_feed_untouched; assumption|exact H]].
  apply andb_true_iff in G. destruct G as [G G3].
  apply andb_true_iff in G. destruct G as [G1 G2].
  apply negb_true_iff in G3.
  assert (Hne : issues r <> []).
  { unfold near_end in G1. apply andb_true_iff in G1. destruct G1 as [G1 _].
    intros E. rewrite E in G1. discriminate. }
  destruct H as [[F _] | [(_ & _ & C) | (_ & B)]];
    [|contradiction|congruence].
  unfold commit. rewrite D.
  destruct (autoLoad_deps_same prev r).
  { apply (single_flight_untouched r); [apply commit_refs_untouched|].
    left. split; assumption. }
  unfold autoLoadEffect.
  replace ((Z.of_nat (List.length (issues r)) >? 0)
           && (currentIndex r >=? Z.of_nat (List.length (issues r)) - 3)
           && hasMore r && negb (loadingMore r)) with true
    by (unfold near_end in G1; rewrite G1, G2, G3; reflexivity).
  unfold fetchIssues_begin.
  destruct (needsSelection (filters r)).
  - left. destruct (currentIndex prev =? currentIndex r); simpl; split;
      solve [exact F | reflexivity].
  - right; right. unfold next_page_of.
    destruct (currentIndex prev =? currentIndex r); simpl; rewrite F; split; reflexivity.
Qed.

Lemma commit_filters (prev r : Screen) :
  fetch_deps_same (filters prev) (filters r) = true ->
  filters (commit prev r) = filters r.
Proof.
  intros D. destruct (commit_frame prev r D) as ((_ & _ & Fi & _) & _). exact Fi.
Qed.

Lemma single_flight_handle (e : Event) (s : Screen) :
  keeps_feed e = true -> single_flight s -> single_flight (handle SCREEN_WIDTH e s).
Proof.
  intros K H. unfold handle, render.
  assert (Fi : filters (dispatch SCREEN_WIDTH e s) = filters s)
    by (apply dispatch_filters; exact K).
  assert (D1 : fetch_deps_same (filters s) (filters (dispatch SCREEN_WIDTH e s)) = true)
    by (rewrite Fi; apply fetch_deps_same_refl).
  assert (Hd : single_flight (dispatch SCREEN_WIDTH e s)).
  { destruct (keeps_pages e) eqn:P.
    - apply (single_flight_untouched s); [apply dispatch_feed_untouched; exact P|exact H].
    - destruct e; try discriminate. simpl. apply single_flight_settled. exact H. }
  apply single_flight_commit.
  - rewrite (commit_filters _ _ D1). apply fetch_deps_same_refl.
  - apply single_flight_commit; assumption.
Qed.

Lemma single_flight_run (es : list Event) (s : Screen) :
  forallb keeps_feed es = true -> single_flight s ->
  single_flight (run_events SCREEN_WIDTH es s).
Proof.
  revert s. induction es as [|e es IH]; intros s K H; [exact H|].
  simpl in K. apply andb_true_iff in K. destruct K as [K1 K2].
  simpl. apply IH; [exact K2|]. apply single_flight_handle; assumption.
Qed.

Lemma single_flight_mount : single_flight mount.
Proof. right; left. repeat split. Qed.

End FeedFrame.

Section Paging.
Import Types.
Import MainScreen.
Import Vocabulary.

(** X1.  From the first render on, and for as long as the filters are
    not changed, at most one call of [fetchIssues] is awaiting the
    service whatever the order of swipes, timers, callbacks, page
    arrivals and edits: nothing, or the first page over an empty deck,
    or the page after the last one loaded.  [loadingMore] is set exactly
    while that next page is awaited. *)
Theorem at_most_one_fetch_in_flight :
  forall (W : Q) (es : list Event),
    forallb keeps_feed es = true ->
    single_flight (run_events W es mount)
    /\ (List.length (fetches (run_events W es mount)) <= 1)%nat
    /\ (loadingMore (run_events W es mount) = true <->
        fetches (run_events W es mount) = [next_page_of (run_events W es mount)]).
Proof.
  intros W es K.
  pose proof (single_flight_run W es mount K single_flight_mount) as H.
  split; [exact H|]. split.
  - destruct H as [[A _] | [(A & _) | (A & _)]]; rewrite A; simpl; lia.
  - destruct H as [[A B] | [(A & B & _) | (A & B)]].
    + split; [congruence|]. rewrite A. discriminate.
    + split; [congruence|]. rewrite A. intros E. inversion E.
    + split; auto.
Qed.

Lemma at_most_one_fetch_in_flight_witness :
  (List.length (fetches (run_events Fixtures.width Fixtures.overlapping_pages mount))
   <= 1)%nat.
Proof.
  apply (at_most_one_fetch_in_flight Fixtures.width Fixtures.overlapping_pages).
  reflexivity.
Defined.

End Paging.

Section LastPage.
Import Types.
Import MainScreen.
Import Vocabulary.

Variable SCREEN_WIDTH : Q.

Lemma exhausted_handle (e : Event) (s : Screen) :
  keeps_feed e = true -> hasMore s = false -> fetches s = [] ->
  feed_untouched (handle SCREEN_WIDTH e s) s.
Proof.
  intros K Hm Hf. unfold handle, render.
  assert (Hd : feed_untouched (dispatch SCREEN_WIDTH e s) s).
  { destruct (keeps_pages e) eqn:P; [apply dispatch_feed_untouched; exact P|].
    destruct e; try discriminate. simpl. unfold fetchSettled. rewrite Hf.
    destruct k; apply feed_untouched_refl. }
  assert (D1 : fetch_deps_same (filters s) (filters (dispatch SCREEN_WIDTH e s)) = true).
  { destruct Hd as (_ & _ & _ & _ & _ & Fi & _). rewrite Fi. apply fetch_deps_same_refl. }
  assert (H1 : feed_untouched (commit s (dispatch SCREEN_WIDTH e s)) s).
  { apply (feed_untouched_trans _ (dispatch SCREEN_WIDTH e s)); [|exact Hd].
    apply commit_feed_untouched; [exact D1|].
    destruct Hd as (_ & _ & _ & _ & Hh & _). rewrite Hh, Hm.
    rewrite andb_false_r. reflexivity. }
  apply (feed_untouched_trans _ (commit s (dispatch SCREEN_WIDTH e s))); [|exact H1].
  apply commit_feed_untouched.
  - rewrite (commit_filters _ _ D1). apply fetch_deps_same_refl.
  - destruct H1 as (_ & _ & _ & _ & Hh & _). rewrite Hh, Hm.
    rewrite andb_false_r. reflexivity.
Qed.

Lemma exhausted_run (es : list Event) (s : Screen) :
  forallb keeps_feed es = true -> hasMore s = false -> fetches s = [] ->
  feed_untouched (run_events SCREEN_WIDTH es s) s.
Proof.
  revert s. induction es as [|e es IH]; intros s K Hm Hf; [apply feed_untouched_refl|].
  simpl in K. apply andb_true_iff in K. destruct K as [K1 K2]. simpl.
  pose proof (exhausted_handle e s K1 Hm Hf) as H.
  apply (feed_untouched_trans _ (handle SCREEN_WIDTH e s)); [|exact H].
  destruct H as (F & _ & _ & _ & Hh & _).
  apply IH; [exact K2|congruence|congruence].
Qed.

End LastPage.

Section LastPageProperty.
Import Types.
Import MainScreen.
Import Vocabulary.

(** X2.  Once a page has come back with [hasNextPage] false and nothing
    is in flight, no swipe, timer, callback or edit makes the screen ask
    for another page: until the filters change, no call of [fetchIssues]
    is started, [hasMore] stays false and the deck keeps its length. *)
Theorem no_request_after_the_last_page :
  forall (W : Q) (es : list Event) (s : Screen),
    hasMore s = false -> fetches s = [] -> forallb keeps_feed es = true ->
    fetches (run_events W es s) = []
    /\ hasMore (run_events W es s) = false
    /\ loadingMore (run_events W es s) = loadingMore s
    /\ page (run_events W es s) = page s
    /\ List.length (issues (run_events W es s)) = List.length (issues s).
Proof.
  intros W es s Hm Hf K.
  destruct (exhausted_run W es s K Hm Hf) as (F & _ & LM & P & Hh & _ & Len).
  repeat split; congruence.
Qed.

Lemma no_request_after_the_last_page_witness :
  hasMore Fixtures.all_loaded = false
  /\ List.length (issues Fixtures.all_loaded) = 25%nat
  /\ fetches (run_events Fixtures.width (Fixtures.swipes_left 18 7) Fixtures.all_loaded)
     = [].
Proof.
  split; [vm_compute; reflexivity|]. split; [vm_compute; reflexivity|].
  apply (no_request_after_the_last_page
           Fixtures.width (Fixtures.swipes_left 18 7) Fixtures.all_loaded);
    vm_compute; reflexivity.
Defined.

End LastPageProperty.

Section PrefetchTrigger.
Import Types.
Import MainScreen.
Import Vocabulary.

Variable SCREEN_WIDTH : Q.

Lemma existsb_In_Z (n : Z) (l : list Z) : In n l -> existsb (Z.eqb n) l = true.
Proof.
  intros H. apply existsb_exists. exists n. split; [exact H|apply Z.eqb_refl].
Qed.

(** The completion of a swipe, as far as paging is concerned. *)
Lemma springFinished_completes (n : Z) (s : Screen) :
  In n (callbacks s) ->
  currentIndex (springFinished n s) = n
  /\ issues (springFinished n s) = issues s
  /\ feed_untouched (springFinished n s) s.
Proof.
  intros H. unfold springFinished. rewrite (existsb_In_Z _ _ H).
  unfold completeSwipe, resetAnimationLock, clearTimeout, feed_untouched.
  simpl. destruct (safetyTimerRef s); simpl; repeat split.
Qed.

Lemma near_end_same (a b : Screen) :
  currentIndex a = currentIndex b ->
  List.length (issues a) = List.length (issues b) ->
  near_end a = near_end b.
Proof. intros E L. unfold near_end. rewrite E, L. reflexivity. Qed.

Lemma commit_index (prev r : Screen) :
  fetch_deps_same (filters prev) (filters r) = true ->
  currentIndex (commit prev r) = currentIndex r.
Proof.
  intros D. destruct (commit_frame prev r D) as ((_ & X & _) & _). exact X.
Qed.

End PrefetchTrigger.

Section PrefetchTriggerProperty.
Import Types.
Import MainScreen.
Import Vocabulary.

(** X3.  The next page is asked for when a swipe lands on one of the
    last three cards.  On a sound deck with more pages to come and
    nothing in flight, the completion of a swipe onto a card other than
    the current one starts the fetch of page [page + 1] (not a reset)
    exactly when the card is among the last three, and starts nothing
    otherwise. *)
Theorem swipe_into_last_three_prefetches :
  forall (W : Q) (s : Screen) (n : Z),
    deck_ok s -> fetches s = [] -> loadingMore s = false -> hasMore s = true ->
    needsSelection (filters s) = false ->
    In n (callbacks s) -> n <> currentIndex s ->
    currentIndex (handle W (SpringFinished n) s) = n
    /\ (deck_length s - 3 <= n ->
        fetches (handle W (SpringFinished n) s) = [next_page_of s]
        /\ loadingMore (handle W (SpringFinished n) s) = true)
    /\ (n < deck_length s - 3 ->
        fetches (handle W (SpringFinished n) s) = []
        /\ loadingMore (handle W (SpringFinished n) s) = false).
Proof.
  intros W s n OK Hf Hl Hm Hn Hin Hne.
  destruct OK as (_ & _ & _ & Hcb & _).
  assert (Hr : 0 <= n < deck_length s)
    by (exact (proj1 (Forall_forall _ _) Hcb n Hin)).
  unfold deck_length in Hr.
  unfold handle, render. simpl dispatch.
  destruct (springFinished_completes n s Hin) as (Dx & Di & Du).
  set (d := springFinished n s) in *.
  pose proof Du as (DF & _ & DLM & DP & DH & DFi & DLen).
  assert (D1 : fetch_deps_same (filters s) (filters d) = true)
    by (rewrite DFi; apply fetch_deps_same_refl).
  assert (D2 : fetch_deps_same (filters d) (filters (commit s d)) = true)
    by (rewrite (commit_filters _ _ D1); apply fetch_deps_same_refl).
  assert (A : autoLoad_deps_same s d = false).
  { unfold autoLoad_deps_same. rewrite Dx.
    destruct (currentIndex s =? n) eqn:E; [|reflexivity].
    apply Z.eqb_eq in E. congruence. }
  split.
  { rewrite (commit_index _ _ D2), (commit_index _ _ D1). exact Dx. }
  split.
  - intros Hnear.
    assert (G : near_end d && hasMore d && negb (loadingMore d) = true).
    { rewrite DH, DLM, Hm, Hl. unfold near_end. rewrite Dx, Di.
      replace (Z.of_nat (List.length (issues s)) >? 0) with true
        by (symmetry; apply Z.gtb_lt; lia).
      replace (n >=? Z.of_nat (List.length (issues s)) - 3) with true
        by (symmetry; apply Z.geb_le; unfold deck_length in Hnear; lia).
      reflexivity. }
    assert (N : needsSelection (filters d) = false) by (rewrite DFi; exact Hn).
    destruct (commit_prefetches s d D1 A G N) as (C1 & C2 & C3 & C4 & C5 & C6 & C7).
    assert (U : feed_untouched (commit d (commit s d)) (commit s d)).
    { apply commit_feed_untouched; [exact D2|].
      rewrite C2. rewrite andb_false_r. reflexivity. }
    destruct U as (UF & _ & ULM & _).
    rewrite UF, ULM, C1, C2, DF, Hf. unfold next_page_of. rewrite DFi, DP.
    split; reflexivity.
  - intros Hfar.
    assert (G : near_end d = false).
    { unfold near_end. rewrite Dx, Di.
      replace (n >=? Z.of_nat (List.length (issues s)) - 3) with false
        by (symmetry; rewrite Z.geb_leb; apply Z.leb_gt; unfold deck_length in Hfar; lia).
      apply andb_false_r. }
    assert (U1 : feed_untouched (commit s d) d).
    { apply commit_feed_untouched; [exact D1|]. rewrite G. reflexivity. }
    assert (G' : near_end (commit s d) = false).
    { rewrite (near_end_same _ d); [exact G|apply commit_index; exact D1|].
      destruct U1 as (_ & _ & _ & _ & _ & _ & L). exact L. }
    assert (U2 : feed_untouched (commit d (commit s d)) (commit s d)).
    { apply commit_feed_untouched; [exact D2|]. rewrite G'. reflexivity. }
    destruct U1 as (F1 & _ & L1 & _). destruct U2 as (F2 & _ & L2 & _).
    rewrite F2, L2, F1, L1, DF, DLM. split; assumption.
Qed.

Lemma swipe_into_last_three_prefetches_witness :
  currentIndex Fixtures.near_the_end = 16
  /\ deck_length Fixtures.near_the_end = 20
  /\ fetches (handle Fixtures.width (SpringFinished 17) Fixtures.near_the_end)
     = [next_page_of Fixtures.near_the_end].
Proof.
  split; [vm_compute; reflexivity|]. split; [vm_compute; reflexivity|].
  refine (proj1 (proj1 (proj2 (swipe_into_last_three_prefetches
                                 Fixtures.width Fixtures.near_the_end 17
                                 _ _ _ _ _ _ _)) _)).
  - unfold deck_ok, deck_sound, index_in_range, deck_length.
    split; [vm_compute; reflexivity|].
    split; [vm_compute; reflexivity|].
    split; [left; vm_compute; split; [discriminate|reflexivity]|].
    split; [vm_compute; repeat constructor; discriminate|].
    split; [vm_compute; repeat constructor; discriminate|].
    vm_compute. intros pf [].
  - vm_compute; reflexivity.
  - vm_compute; reflexivity.
  - vm_compute; reflexivity.
  - vm_compute; reflexivity.
  - vm_compute. left. reflexivity.
  - vm_compute. discriminate.
  - vm_compute. discriminate.
Defined.

End PrefetchTriggerProperty.

(** ** The lock and its safety timeout *)

Section TimerHygiene.
Import Types.
Import MainScreen.
Import Vocabulary.

Variable SCREEN_WIDTH : Q.

(** Two screens with the same lock, timeouts and timer ref. *)
Lemma timers_match_lock_same (s s' : Screen) :
  isAnimatingRef s' = isAnimatingRef s -> timers s' = timers s ->
  safetyTimerRef s' = safetyTimerRef s ->
  timers_match_lock s -> timers_match_lock s'.
Proof.
  intros A T R [(H1 & H2 & H3) | (H1 & t & H2 & H3 & H4)].
  - left. repeat split; congruence.
  - right. split; [congruence|]. exists t. repeat split; congruence.
Qed.

Lemma resetAnimationLock_releases (s : Screen) :
  timers_match_lock s ->
  isAnimatingRef (resetAnimationLock s) = false
  /\ timers (resetAnimationLock s) = []
  /\ safetyTimerRef (resetAnimationLock s) = None.
Proof.
  intros [(H1 & H2 & H3) | (H1 & t & H2 & H3 & H4)]; unfold resetAnimationLock.
  - rewrite H3. simpl. auto.
  - rewrite H3. unfold clearTimeout. simpl. rewrite H2. simpl.
    rewrite Nat.eqb_refl. simpl. auto.
Qed.

Lemma completeSwipe_releases (n : Z) (s : Screen) :
  timers_match_lock s -> timers_match_lock (completeSwipe n s).
Proof.
  intros H. left. unfold completeSwipe. apply resetAnimationLock_releases.
  apply (timers_match_lock_same s); [reflexivity|reflexivity|reflexivity|exact H].
Qed.

Lemma forceSwipe_timers_match_lock (d : Direction) (s : Screen) :
  timers_match_lock s -> timers_match_lock (forceSwipe SCREEN_WIDTH d s).
Proof.
  intros H. unfold forceSwipe.
  destruct (isAnimatingRef s) eqn:L; [exact H|].
  match goal with |- context [if ?b then _ else _] => destruct b end.
  - apply (timers_match_lock_same s); [reflexivity|reflexivity|reflexivity|exact H].
  - destruct H as [(_ & H2 & _) | (H1 & _)]; [|congruence].
    right. split; [reflexivity|].
    eexists. simpl. rewrite H2. simpl. repeat split.
Qed.

Lemma dispatch_timers_match_lock (e : Event) (s : Screen) :
  timers_match_lock s -> timers_match_lock (dispatch SCREEN_WIDTH e s).
Proof.
  intros H. destruct e; simpl.
  - apply (timers_match_lock_same s); [reflexivity|reflexivity|reflexivity|exact H].
  - apply (timers_match_lock_same s); [reflexivity|reflexivity|reflexivity|exact H].
  - unfold fetchSettled. destruct (nth_error (fetches s) k) as [pf|]; [|exact H].
    unfold fetchIssues_settle.
    apply (timers_match_lock_same s); [| | |exact H];
      destruct (fetchIssues_call session pf) as [[res|]|err];
      try destruct (isReset pf); reflexivity.
  - destruct (onMoveShouldSetPanResponder gs s); [|exact H].
    left. unfold onPanResponderGrant. apply resetAnimationLock_releases.
    apply (timers_match_lock_same s); [reflexivity|reflexivity|reflexivity|exact H].
  - apply (timers_match_lock_same s); [reflexivity|reflexivity|reflexivity|exact H].
  - unfold onPanResponderRelease.
    destruct (swipedLeft gs); [apply forceSwipe_timers_match_lock; exact H|].
    destruct (swipedRight gs); [apply forceSwipe_timers_match_lock; exact H|].
    apply (timers_match_lock_same s); [reflexivity|reflexivity|reflexivity|exact H].
  - left. unfold onPanResponderTerminate. apply resetAnimationLock_releases.
    apply (timers_match_lock_same s); [reflexivity|reflexivity|reflexivity|exact H].
  - unfold timerFired.
    destruct (find (fun t => Nat.eqb (timer_id t) id) (timers s)) as [t0|] eqn:E;
      [|exact H].
    destruct H as [(_ & H2 & _) | (H1 & t & H2 & H3 & H4)].
    { rewrite H2 in E. discriminate. }
    rewrite H2 in E. simpl in E.
    destruct (Nat.eqb (timer_id t) id) eqn:Eid; [|discriminate].
    apply Nat.eqb_eq in Eid.
    assert (L : isAnimatingRef (clearTimeout id s) = true) by exact H1.
    rewrite L. left. unfold completeSwipe, resetAnimationLock, clearTimeout. simpl.
    rewrite H3, H2. simpl. rewrite Eid, Nat.eqb_refl. simpl. auto.
  - unfold springFinished. destruct (existsb _ (callbacks s)); [|exact H].
    apply completeSwipe_releases.
    apply (timers_match_lock_same s); [reflexivity|reflexivity|reflexivity|exact H].
  - unfold handleOpenDetail. destruct (currentIndex s <? 0); [exact H|].
    destruct (nth_error _ _); [|exact H].
    apply (timers_match_lock_same s); [reflexivity|reflexivity|reflexivity|exact H].
  - apply (timers_match_lock_same s); [reflexivity|reflexivity|reflexivity|exact H].
Qed.

Lemma handle_timers_match_lock (e : Event) (s : Screen) :
  timers_match_lock s -> timers_match_lock (handle SCREEN_WIDTH e s).
Proof.
  intros H. unfold handle.
  destruct (render_lock_frame s (dispatch SCREEN_WIDTH e s)) as (A & R & T & _).
  apply (timers_match_lock_same (dispatch SCREEN_WIDTH e s)); try assumption.
  apply dispatch_timers_match_lock. exact H.
Qed.

End TimerHygiene.

Section TimerHygieneProperty.
Import Types.
Import MainScreen.
Import Vocabulary.

(** X4.  The animation lock and the safety timeout go together, whatever
    happens to the screen (filter changes included): from the first
    render on, either the lock is free and no timeout is scheduled, or
    the lock is held and exactly one timeout is scheduled, the 500 ms one
    that [safetyTimerRef] names.  A timeout never outlives the swipe it
    guards and two timeouts never coexist. *)
Theorem lock_and_timeout_go_together :
  forall (W : Q) (es : list Event),
    timers_match_lock (run_events W es mount)
    /\ (List.length (timers (run_events W es mount)) <= 1)%nat
    /\ (isAnimatingRef (run_events W es mount) = false <->
        timers (run_events W es mount) = []).
Proof.
  intros W es.
  assert (H : timers_match_lock (run_events W es mount)).
  { assert (G : forall s, timers_match_lock s -> timers_match_lock (run_events W es s)).
    { induction es as [|e es IH]; intros s Hs; [exact Hs|].
      simpl. apply IH. apply handle_timers_match_lock. exact Hs. }
    apply G. left. repeat split. }
  split; [exact H|].
  destruct H as [(H1 & H2 & _) | (H1 & t & H2 & _)]; rewrite H1, H2; simpl.
  - split; [lia|]. split; reflexivity.
  - split; [lia|]. split; discriminate.
Qed.

End TimerHygieneProperty.

(** ** What the screen shows *)

Section CardAreaProperty.
Import Types.
Import MainScreen.
Import Vocabulary.

Lemma share_in_unit (a b : Z) :
  0 < a <= b -> (0 < inject_Z a / inject_Z b /\ inject_Z a / inject_Z b <= 1)%Q.
Proof.
  intros [Ha Hb].
  assert (Hb0 : (0 < inject_Z b)%Q).
  { change (inject_Z 0 < inject_Z b)%Q. rewrite <- Zlt_Qlt. lia. }
  split.
  - apply Qlt_shift_div_l; [exact Hb0|].
    rewrite Qmult_0_l. change (inject_Z 0 < inject_Z a)%Q.
    rewrite <- Zlt_Qlt. exact Ha.
  - apply Qle_shift_div_r; [exact Hb0|].
    rewrite Qmult_1_l. rewrite <- Zle_Qle. exact Hb.
Qed.

(** X5.  From the first render on and under unchanged filters the card
    area is never blank: it shows the spinner, the prompt to select an
    organization, the empty-feed message, or the card at [currentIndex].
    On a non-empty deck that card exists, tapping it opens the detail
    view on that very card, and the progress bar is filled to a share
    that is positive and at most 1. *)
Theorem card_area_is_never_blank :
  forall (W : Q) (es : list Event),
    forallb keeps_feed es = true ->
    cardArea (run_events W es mount) <> Blank
    /\ (issues (run_events W es mount) <> [] ->
        (exists i,
            issue_at (issues (run_events W es mount))
                     (currentIndex (run_events W es mount)) = Some i
            /\ selectedIssue (handle W OpenDetail (run_events W es mount)) = Some i)
        /\ (0 < progress (run_events W es mount))%Q
        /\ (progress (run_events W es mount) <= 1)%Q).
Proof.
  intros W es K.
  pose proof (run_events_ok W es mount K mount_ok) as OK.
  set (s := run_events W es mount) in *.
  destruct OK as (_ & _ & R & _).
  assert (Hcur : issues s <> [] ->
                 0 <= currentIndex s < Z.of_nat (List.length (issues s))
                 /\ exists i, issue_at (issues s) (currentIndex s) = Some i
                              /\ nth_error (issues s) (Z.to_nat (currentIndex s)) = Some i
                              /\ (currentIndex s <? 0) = false).
  { intros Hne. destruct R as [R | [R _]]; [|contradiction].
    unfold deck_length in R. split; [exact R|].
    assert (N : (currentIndex s <? 0) = false) by (apply Z.ltb_ge; lia).
    destruct (nth_error (issues s) (Z.to_nat (currentIndex s))) as [i|] eqn:E.
    - exists i. unfold issue_at. rewrite N, E. auto.
    - apply nth_error_None in E. lia. }
  split.
  - unfold cardArea.
    destruct (loading s); [discriminate|].
    destruct (needsSelection (filters s)); [discriminate|].
    destruct (Nat.eqb (List.length (issues s)) 0) eqn:E; [discriminate|].
    assert (Hne : issues s <> []).
    { intros E0. rewrite E0 in E. discriminate. }
    destruct (Hcur Hne) as (_ & i & Hi & _). rewrite Hi. discriminate.
  - intros Hne. destruct (Hcur Hne) as (Hr & i & Hi & Hn & Hz).
    split.
    + exists i. split; [exact Hi|].
      destruct (handle_same_deck W OpenDetail s eq_refl) as (_ & _ & _ & Sel & _).
      rewrite Sel. simpl. unfold handleOpenDetail. rewrite Hz, Hn. reflexivity.
    + unfold progress.
      replace (Z.of_nat (List.length (issues s)) >? 0) with true
        by (symmetry; apply Z.gtb_lt; lia).
      apply share_in_unit. lia.
Qed.

Lemma card_area_is_never_blank_witness :
  cardArea (run_events Fixtures.width Fixtures.overlapping_pages mount) <> Blank.
Proof.
  apply (card_area_is_never_blank Fixtures.width Fixtures.overlapping_pages).
  reflexivity.
Defined.

End CardAreaProperty.

(** ** The filter bar and the source tabs *)

Section FilterBarFrame.
Import Types.
Import MainScreen.
Import Vocabulary.

(** A control of the bar that changes the filters at all changes one of
    the fields the fetch effect depends on. *)
Lemma update_changes_deps (c : FilterBar.Control) (f : IssueFilters) :
  FilterBar.update c f <> f -> fetch_deps_same f (FilterBar.update c f) = false.
Proof.
  intros H. destruct (fetch_deps_same f (FilterBar.update c f)) eqn:E; [|reflexivity].
  exfalso. apply H. apply fetch_deps_same_iff in E.
  destruct E as (E1 & E2 & E3 & E4 & E5 & E6 & E7).
  destruct f, c; simpl in *; congruence.
Qed.

Lemma set_filters_same (s : Screen) : set_filters (filters s) s = s.
Proof. destruct s; reflexivity. Qed.

End FilterBarFrame.

Section FilterBarProperty.
Import Types.
Import MainScreen.
Import Vocabulary.

(** X6.  No control of the filter bar touches [source], [repository] or
    [labels], and every press that changes the filters at all changes a
    field the fetch effect watches.  So a press of the bar that changes
    the filters always resets the deck (index 0, empty list, first page
    of the new filters requested after the clearing), and a press that
    changes nothing (the sort order already selected, say) leaves list,
    index and requests in flight as they were. *)
Theorem filter_bar_press_resets_deck :
  forall (W : Q) (c : FilterBar.Control) (s : Screen),
    (source (FilterBar.update c (filters s)) = source (filters s)
     /\ repository (FilterBar.update c (filters s)) = repository (filters s)
     /\ f_labels (FilterBar.update c (filters s)) = f_labels (filters s))
    /\ (FilterBar.update c (filters s) <> filters s ->
        deck_reset_for (FilterBar.update c (filters s)) s
          (handle W (FiltersChange (FilterBar.update c (filters s))) s)
        /\ page (handle W (FiltersChange (FilterBar.update c (filters s))) s) = 1
        /\ hasMore (handle W (FiltersChange (FilterBar.update c (filters s))) s) = true)
    /\ (FilterBar.update c (filters s) = filters s ->
        issues (handle W (FiltersChange (FilterBar.update c (filters s))) s) = issues s
        /\ currentIndex (handle W (FiltersChange (FilterBar.update c (filters s))) s)
           = currentIndex s
        /\ fetches (handle W (FiltersChange (FilterBar.update c (filters s))) s)
           = fetches s).
Proof.
  intros W c s. split; [|split].
  - destruct c; repeat split.
  - intros Hne. apply update_changes_deps in Hne.
    destruct (handle_filters_changed W _ s Hne) as (R & _ & P & M & _). auto.
  - intros He. rewrite He.
    rewrite (handle_filters_kept W (filters s) s (fetch_deps_same_refl _)).
    repeat split.
Qed.

Lemma filter_bar_press_resets_deck_witness :
  currentIndex Fixtures.browsing = 2
  /\ deck_reset_for (FilterBar.update FilterBar.StateChip (filters Fixtures.browsing))
       Fixtures.browsing
       (handle Fixtures.width
          (FiltersChange (FilterBar.update FilterBar.StateChip
                                           (filters Fixtures.browsing)))
          Fixtures.browsing).
Proof.
  split; [vm_compute; reflexivity|].
  refine (proj1 (proj1 (proj2 (filter_bar_press_resets_deck
                                 Fixtures.width FilterBar.StateChip Fixtures.browsing))
                       _)).
  vm_compute. discriminate.
Defined.

(** X7.  The Organization tab.  Leaving the personal feed for the
    organization source always empties the deck and puts the index at 0.
    With no organization known, nothing is requested and the card area
    asks to select an organization; with organizations known, the first
    page of the first one is requested, with every other filter at its
    default. *)
Theorem organization_tab_waits_for_a_selection :
  forall (W : Q) (s : Screen) (orgs : list string),
    source (filters s) = all ->
    issues (handle W (SourceChange organization orgs) s) = []
    /\ currentIndex (handle W (SourceChange organization orgs) s) = 0
    /\ (orgs = [] ->
        fetches (handle W (SourceChange organization orgs) s) = fetches s
        /\ cardArea (handle W (SourceChange organization orgs) s) = SelectAnOrganization)
    /\ (forall o rest,
           orgs = o :: rest -> o <> EmptyString ->
           fetches (handle W (SourceChange organization orgs) s)
           = (fetches s
              ++ [first_page_of
                    {| source := organization; f_state := open; repository := None;
                       f_labels := None; sortOrder := updated; sortDirection := desc;
                       f_organization := Some o; assignee := None |}])%list).
Proof.
  intros W s orgs Hs.
  set (f := filters (handleSourceChange organization orgs s)).
  assert (E : handle W (SourceChange organization orgs) s
              = handle W (FiltersChange f) s) by reflexivity.
  assert (D : fetch_deps_same (filters s) f = false).
  { apply fetch_field_differs_deps. left. rewrite Hs. discriminate. }
  rewrite E.
  destruct (handle_filters_changed W f s D) as ((R1 & R2 & R3 & _) & _ & _ & _ & R5).
  split; [exact R2|]. split; [exact R1|]. split.
  - intros Ho. subst orgs.
    split; [rewrite R3; simpl; apply app_nil_r|].
    unfold handle, render. simpl dispatch.
    rewrite (commit_filters_changed f s D).
    unfold fetchIssues_begin. simpl needsSelection. cbv iota.
    rewrite commit_empty; [|reflexivity|apply fetch_deps_same_refl].
    unfold cardArea. simpl.
    destruct (currentIndex s =? 0); reflexivity.
  - intros o rest Ho Hne. subst orgs. rewrite R3.
    assert (N : needsSelection f = false).
    { unfold f. simpl. unfold needsSelection. simpl.
      destruct (String.eqb o EmptyString) eqn:Eo; [|reflexivity].
      apply String.eqb_eq in Eo. contradiction. }
    rewrite N. reflexivity.
Qed.

Lemma organization_tab_waits_for_a_selection_witness :
  cardArea (handle Fixtures.width (SourceChange organization []) Fixtures.browsing)
  = SelectAnOrganization.
Proof.
  refine (proj2 (proj1 (proj2 (proj2 (organization_tab_waits_for_a_selection
                                        Fixtures.width Fixtures.browsing [] _)))
                       eq_refl)).
  vm_compute. reflexivity.
Defined.

End FilterBarProperty.

(** ** The detail view: toggling assignees, labels and state *)

Section Toggles.
Import Types.
Import MainScreen.
Import IssueDetailModal.
Import Vocabulary.

Lemma toggle_flips (cur : list string) (x : string) :
  Js.arr_includes (toggle cur x) x = negb (Js.arr_includes cur x).
Proof.
  unfold toggle. destruct (Js.arr_includes cur x) eqn:E; simpl.
  - unfold Js.arr_includes. clear E. induction cur as [|a cur IH]; [reflexivity|].
    simpl. destruct (String.eqb a x) eqn:Ea; simpl; [exact IH|].
    rewrite String.eqb_sym, Ea. exact IH.
  - unfold Js.arr_includes. rewrite existsb_app. simpl.
    rewrite String.eqb_refl. apply orb_true_r.
Qed.

Lemma toggle_others (cur : list string) (x y : string) :
  y <> x -> Js.arr_includes (toggle cur x) y = Js.arr_includes cur y.
Proof.
  intros Hne. apply String.eqb_neq in Hne.
  unfold toggle, Js.arr_includes. destruct (existsb (String.eqb x) cur).
  - induction cur as [|a cur IH]; [reflexivity|]. simpl.
    destruct (String.eqb a x) eqn:Ea; simpl.
    + apply String.eqb_eq in Ea. subst a. rewrite Hne. exact IH.
    + rewrite IH. reflexivity.
  - rewrite existsb_app. simpl. rewrite Hne. rewrite !orb_false_r. reflexivity.
Qed.

(** [keys.map(k => xs.find(a => key(a) === k) || mk(k))] has the keys
    it was made from. *)
Lemma lookup_keys {A : Type} (key : A -> string) (mk : string -> A)
      (xs : list A) (keys : list string) :
  (forall k, key (mk k) = k) ->
  map key (map (fun k => match find (fun a => String.eqb (key a) k) xs with
                         | Some existing => existing
                         | None => mk k
                         end) keys) = keys.
Proof.
  intros Hmk. induction keys as [|k keys IH]; [reflexivity|]. simpl.
  rewrite IH. f_equal.
  destruct (find (fun a => String.eqb (key a) k) xs) as [e|] eqn:E; [|apply Hmk].
  apply find_some in E. destruct E as [_ E]. apply String.eqb_eq in E. exact E.
Qed.

Lemma find_own_key {A : Type} (key : A -> string) (xs : list A) (a : A) :
  NoDup (map key xs) -> In a xs ->
  find (fun b => String.eqb (key b) (key a)) xs = Some a.
Proof.
  induction xs as [|b xs IH]; intros N Hin; [contradiction|].
  simpl in N. inversion N as [|? ? Hnot N']; subst. simpl.
  destruct Hin as [-> | Hin]; [rewrite String.eqb_refl; reflexivity|].
  destruct (String.eqb (key b) (key a)) eqn:E; [|apply IH; assumption].
  apply String.eqb_eq in E. exfalso. apply Hnot. rewrite E.
  apply in_map. exact Hin.
Qed.

Lemma find_absent_key {A : Type} (key : A -> string) (xs : list A) (k : string) :
  existsb (String.eqb k) (map key xs) = false ->
  find (fun b => String.eqb (key b) k) xs = None.
Proof.
  induction xs as [|b xs IH]; [reflexivity|]. simpl. intros H.
  apply orb_false_iff in H. destruct H as [H1 H2].
  rewrite String.eqb_sym, H1. apply IH. exact H2.
Qed.

Lemma lookup_own {A : Type} (key : A -> string) (mk : string -> A)
      (xs sub : list A) :
  NoDup (map key xs) -> incl sub xs ->
  map (fun k => match find (fun a => String.eqb (key a) k) xs with
                | Some existing => existing
                | None => mk k
                end) (map key sub) = sub.
Proof.
  intros N. induction sub as [|a sub IH]; intros Hi; [reflexivity|]. simpl.
  rewrite (find_own_key key xs a N (Hi a (or_introl eq_refl))).
  rewrite IH; [reflexivity|]. intros b Hb. apply Hi. right. exact Hb.
Qed.

Lemma filter_keys {A : Type} (key : A -> string) (xs : list A) (x : string) :
  filter (fun k => negb (String.eqb k x)) (map key xs)
  = map key (filter (fun a => negb (String.eqb (key a) x)) xs).
Proof.
  induction xs as [|a xs IH]; [reflexivity|]. simpl.
  destruct (String.eqb (key a) x); simpl; rewrite IH; reflexivity.
Qed.

(** The records shown after a toggle, when no two of them share a key. *)
Lemma toggle_records {A : Type} (key : A -> string) (mk : string -> A)
      (xs : list A) (x : string) :
  NoDup (map key xs) ->
  map (fun k => match find (fun a => String.eqb (key a) k) xs with
                | Some existing => existing
                | None => mk k
                end) (toggle (map key xs) x)
  = if Js.arr_includes (map key xs) x
    then filter (fun a => negb (String.eqb (key a) x)) xs
    else (xs ++ [mk x])%list.
Proof.
  intros N. unfold toggle. destruct (Js.arr_includes (map key xs) x) eqn:E.
  - rewrite filter_keys. apply lookup_own; [exact N|].
    intros a Ha. apply filter_In in Ha. apply Ha.
  - rewrite map_app. rewrite (lookup_own key mk xs xs N (incl_refl _)).
    simpl. rewrite (find_absent_key key xs x E). reflexivity.
Qed.

End Toggles.

Section ToggleProperties.
Import Types.
Import MainScreen.
Import IssueDetailModal.
Import Vocabulary.

(** X8.  A successful tap on an assignee or on a label toggles exactly
    that entry.  The logins (label names) shown afterwards are the list
    sent to the server: the tapped one is in the list exactly when it was
    not before, every other one keeps its membership; and when no two
    entries share a login (name), every other entry keeps its record and
    its place, a new entry being appended with the defaults. *)
Theorem toggle_edits_flip_one_entry :
  forall (session : GitHubService.Session) (s : Screen) (issue : NormalizedIssue),
    accepts_writes session -> selectedIssue s = Some issue ->
    (forall who,
        exists u,
          selectedIssue (handleAssign session who s) = Some u
          /\ map login (assignees u) = toggle (map login (assignees issue)) who
          /\ Js.arr_includes (map login (assignees u)) who
             = negb (Js.arr_includes (map login (assignees issue)) who)
          /\ (forall other, other <> who ->
                 Js.arr_includes (map login (assignees u)) other
                 = Js.arr_includes (map login (assignees issue)) other)
          /\ (NoDup (map login (assignees issue)) ->
              assignees u
              = if Js.arr_includes (map login (assignees issue)) who
                then filter (fun a => negb (String.eqb (login a) who)) (assignees issue)
                else (assignees issue
                      ++ [{| user_id := IdNum 0; login := who; user_name := who;
                             avatar_url := EmptyString; email := EmptyString |}])%list))
    /\ (forall labelName,
           exists u,
             selectedIssue (handleToggleLabel session labelName s) = Some u
             /\ map label_name (labels u)
                = toggle (map label_name (labels issue)) labelName
             /\ Js.arr_includes (map label_name (labels u)) labelName
                = negb (Js.arr_includes (map label_name (labels issue)) labelName)
             /\ (forall other, other <> labelName ->
                    Js.arr_includes (map label_name (labels u)) other
                    = Js.arr_includes (map label_name (labels issue)) other)
             /\ (NoDup (map label_name (labels issue)) ->
                 labels u
                 = if Js.arr_includes (map label_name (labels issue)) labelName
                   then filter (fun l => negb (String.eqb (label_name l) labelName))
                               (labels issue)
                   else (labels issue
                         ++ [{| label_name := labelName; color := "666666" |}])%list)).
Proof.
  intros session s issue Hacc Hsel. split.
  - intros who. unfold handleAssign. rewrite Hsel.
    unfold GitHubService.assignIssue. rewrite (write_accepted session _ Hacc).
    eexists. split; [reflexivity|]. simpl assignees.
    assert (L : map login
                  (map (fun l => match find (fun a => String.eqb (login a) l)
                                            (assignees issue) with
                                 | Some existing => existing
                                 | None => {| user_id := IdNum 0; login := l;
                                              user_name := l; avatar_url := EmptyString;
                                              email := EmptyString |}
                                 end)
                       (toggle (map login (assignees issue)) who))
                = toggle (map login (assignees issue)) who).
    { apply (lookup_keys login
               (fun l => {| user_id := IdNum 0; login := l; user_name := l;
                            avatar_url := EmptyString; email := EmptyString |})).
      reflexivity. }
    split; [exact L|]. rewrite L.
    split; [apply toggle_flips|]. split; [intros other Ho; apply toggle_others; exact Ho|].
    intros N.
    apply (toggle_records login
             (fun l => {| user_id := IdNum 0; login := l; user_name := l;
                          avatar_url := EmptyString; email := EmptyString |})
             (assignees issue) who N).
  - intros labelName. unfold handleToggleLabel. rewrite Hsel.
    unfold GitHubService.updateLabels. rewrite (write_accepted session _ Hacc).
    eexists. split; [reflexivity|]. simpl labels.
    assert (L : map label_name
                  (map (fun name => match find (fun l => String.eqb (label_name l) name)
                                               (labels issue) with
                                    | Some existing => existing
                                    | None => {| label_name := name; color := "666666" |}
                                    end)
                       (toggle (map label_name (labels issue)) labelName))
                = toggle (map label_name (labels issue)) labelName).
    { apply (lookup_keys label_name
               (fun name => {| label_name := name; color := "666666" |})).
      reflexivity. }
    split; [exact L|]. rewrite L.
    split; [apply toggle_flips|]. split; [intros other Ho; apply toggle_others; exact Ho|].
    intros N.
    apply (toggle_records label_name
             (fun name => {| label_name := name; color := "666666" |})
             (labels issue) labelName N).
Qed.

Lemma toggle_edits_flip_one_entry_witness :
  exists u,
    selectedIssue (handleAssign Fixtures.accepting "octocat" Fixtures.detail_open)
    = Some u
    /\ map login (assignees u) = ["octocat"].
Proof.
  destruct (proj1 (toggle_edits_flip_one_entry
                     Fixtures.accepting Fixtures.detail_open Fixtures.first_card
                     (conj eq_refl
                           (fun w => ex_intro _
                                       {| GitHubService.status := 200;
                                          GitHubService.text := "response body";
                                          GitHubService.json := tt |}
                                       (conj eq_refl eq_refl)))
                     eq_refl) "octocat") as (u & Hu & Hl & _).
  exists u. split; [exact Hu|exact Hl].
Defined.

(** X9.  Closing and reopening is a round trip.  When the issue on
    display is the only entry of the deck with its [issueId] and [repo],
    two successful taps on the state button leave the deck, the index
    and the issue on display exactly as they were; between the two taps
    the issue is shown, and held in the deck, in the other state. *)
Theorem toggling_state_twice_restores_the_deck :
  forall (session : GitHubService.Session) (s : Screen) (issue : NormalizedIssue),
    accepts_writes session -> selectedIssue s = Some issue ->
    (forall i, In i (issues s) -> same_issue issue i = true -> i = issue) ->
    selectedIssue (handleToggleState session s)
    = Some (with_state issue (match state issue with open => closed | closed => open end))
    /\ (In issue (issues s) ->
        In (with_state issue (match state issue with open => closed | closed => open end))
           (issues (handleToggleState session s)))
    /\ issues (handleToggleState session (handleToggleState session s)) = issues s
    /\ selectedIssue (handleToggleState session (handleToggleState session s))
       = Some issue
    /\ currentIndex (handleToggleState session (handleToggleState session s))
       = currentIndex s.
Proof.
  intros session s issue Hacc Hsel Honly.
  set (other := match state issue with open => closed | closed => open end).
  assert (Step : forall s0 i0,
             selectedIssue s0 = Some i0 ->
             handleToggleState session s0
             = alert (AlertText "Updated"
                        (match match state i0 with open => closed | closed => open end
                         with
                         | closed => "Issue closed"
                         | open => "Issue reopened"
                         end))
                     (handleIssueUpdated
                        (with_state i0 (match state i0 with
                                        | open => closed | closed => open end)) s0)).
  { intros s0 i0 H0. unfold handleToggleState. rewrite H0.
    unfold GitHubService.updateIssueState. rewrite (write_accepted session _ Hacc).
    reflexivity. }
  assert (Back : with_state (with_state issue other)
                            (match state (with_state issue other) with
                             | open => closed | closed => open end) = issue).
  { unfold other. destruct issue as [? ? ? ? ? ? ? st ? ? ? ? ? ? ? ?].
    destruct st; reflexivity. }
  pose proof (Step s issue Hsel) as S1. fold other in S1.
  assert (Sel1 : selectedIssue (handleToggleState session s)
                 = Some (with_state issue other)) by (rewrite S1; reflexivity).
  pose proof (Step _ _ Sel1) as S2. rewrite Back in S2.
  split; [exact Sel1|]. split.
  { intros Hin. rewrite S1. simpl. apply in_map_iff. exists issue.
    split; [|exact Hin]. unfold same_issue. simpl.
    rewrite Z.eqb_refl, String.eqb_refl. reflexivity. }
  rewrite S2. simpl. split; [|split; [reflexivity|rewrite S1; reflexivity]].
  rewrite S1. simpl.
  rewrite map_map. rewrite <- (map_id (issues s)) at 2.
  apply map_ext_in. intros i Hi.
  assert (Same : same_issue (with_state issue other) i = same_issue issue i)
    by reflexivity.
  rewrite Same. destruct (same_issue issue i) eqn:E.
  - assert (Self : same_issue issue (with_state issue other) = true).
    { unfold same_issue. simpl. rewrite Z.eqb_refl, String.eqb_refl. reflexivity. }
    rewrite Self. symmetry. apply Honly; assumption.
  - rewrite E. reflexivity.
Qed.

Lemma toggling_state_twice_restores_the_deck_witness :
  issues (handleToggleState Fixtures.accepting
            (handleToggleState Fixtures.accepting Fixtures.detail_open))
  = issues Fixtures.detail_open.
Proof.
  refine (proj1 (proj2 (proj2 (toggling_state_twice_restores_the_deck
                                 Fixtures.accepting Fixtures.detail_open
                                 Fixtures.first_card _ _ _)))).
  - split; [vm_compute; reflexivity|].
    intros w. eexists. split; vm_compute; reflexivity.
  - vm_compute. reflexivity.
  - intros i Hin Hs. vm_compute in Hin.
    repeat (destruct Hin as [<- | Hin];
            [first [reflexivity | vm_compute in Hs; discriminate Hs]|]).
    contradiction.
Defined.

End ToggleProperties.

(** ** The service: tokens, requests and scopes *)

Section ServiceRequests.
Import Types.
Import GitHubService.
Import Vocabulary.

Variable session : Session.

Lemma apiRequest_eq {T : Type} (req : Request) (answer : Result (HttpResponse T))
      (l : list Request) :
  apiRequest session req answer l
  = if signed_in session then (api_outcome answer, (l ++ [req])%list)
    else (Err TokenNotSet, l).
Proof.
  unfold apiRequest, bind, fetch, getAccessToken, signed_in, Js.truthy_str, api_outcome,
    api_error.
  destruct (token session) as [t|]; [|reflexivity].
  destruct (String.eqb t EmptyString); simpl; [reflexivity|].
  destruct answer as [resp|e]; [|reflexivity].
  destruct (ok resp); simpl; [reflexivity|].
  destruct (status resp =? 401); [reflexivity|].
  destruct (status resp =? 403); [reflexivity|].
  destruct (status resp =? 404); reflexivity.
Qed.

Lemma append_assoc (a b c : string) : ((a ++ b) ++ c = a ++ (b ++ c))%string.
Proof. induction a as [|x a IH]; simpl; [reflexivity|]. rewrite IH. reflexivity. Qed.

Lemma append_empty (a : string) : (a ++ EmptyString = a)%string.
Proof. induction a as [|x a IH]; simpl; [reflexivity|]. rewrite IH. reflexivity. Qed.

Lemma with_labels_extends (q0 : string) (labels : option (list string)) :
  exists rest, with_labels q0 labels = (q0 ++ rest)%string.
Proof.
  unfold with_labels. destruct labels as [[|x l]|].
  - exists EmptyString. symmetry. apply append_empty.
  - eexists. reflexivity.
  - exists EmptyString. symmetry. apply append_empty.
Qed.

Lemma with_search_extends (q0 : string) (searchQuery : option string) :
  exists rest, with_search q0 searchQuery = (q0 ++ rest)%string.
Proof.
  unfold with_search. destruct (Js.truthy_str searchQuery).
  - eexists. reflexivity.
  - exists EmptyString. symmetry. apply append_empty.
Qed.

Lemma qualifiers_extend (q0 : string) (labels : option (list string))
      (searchQuery : option string) :
  exists rest, with_search (with_labels q0 labels) searchQuery = (q0 ++ rest)%string.
Proof.
  destruct (with_labels_extends q0 labels) as (r1 & E1).
  destruct (with_search_extends (with_labels q0 labels) searchQuery) as (r2 & E2).
  exists (r1 ++ r2)%string. rewrite E2, E1. apply append_assoc.
Qed.

End ServiceRequests.

Section ServiceProperties.
Import Types.
Import GitHubService.
Import Vocabulary.

(** X10.  Without a usable token nothing leaves the device: every feed
    fetch and every write fails with the re-authentication error and
    sends no request at all; the owner fallback of [fetchProjectIssues]
    does not retry either. *)
Theorem signed_out_sends_nothing :
  forall (session : Session),
    signed_in session = false ->
    (forall pg perPage st srt dir rp lbls sq,
        run (fetchAllIssues session pg perPage st srt dir rp lbls sq) = Err TokenNotSet
        /\ requests (fetchAllIssues session pg perPage st srt dir rp lbls sq) = [])
    /\ (forall org pg perPage st srt dir rp asg lbls sq,
           run (fetchOrgIssues session org pg perPage st srt dir rp asg lbls sq)
           = Err TokenNotSet
           /\ requests (fetchOrgIssues session org pg perPage st srt dir rp asg lbls sq)
              = [])
    /\ (forall toLowerCase owner n cursor perPage sf af rf,
           run (fetchProjectIssues session toLowerCase owner n cursor perPage sf af rf)
           = Err TokenNotSet
           /\ requests (fetchProjectIssues session toLowerCase owner n cursor perPage
                                           sf af rf) = [])
    /\ (forall owner repo n st assignees labels body,
           (run (updateIssueState session owner repo n st) = Err TokenNotSet
            /\ requests (updateIssueState session owner repo n st) = [])
           /\ (run (assignIssue session owner repo n assignees) = Err TokenNotSet
               /\ requests (assignIssue session owner repo n assignees) = [])
           /\ (run (updateLabels session owner repo n labels) = Err TokenNotSet
               /\ requests (updateLabels session owner repo n labels) = [])
           /\ (run (addComment session owner repo n body) = Err TokenNotSet
               /\ requests (addComment session owner repo n body) = [])).
Proof.
  intros session Hout.
  split; [|split; [|split]].
  - intros. unfold run, requests, fetchAllIssues, getCurrentUser, bind.
    rewrite apiRequest_eq, Hout. split; reflexivity.
  - intros. unfold run, requests, fetchOrgIssues, getCurrentUser, bind.
    destruct (Js.opt_str_eqb asg "me").
    { rewrite apiRequest_eq, Hout. split; reflexivity. }
    destruct (Js.opt_str_eqb asg "unassigned");
      [|destruct (Js.truthy_str asg && negb (Js.opt_str_eqb asg "all"))];
      unfold ret; rewrite apiRequest_eq, Hout; split; reflexivity.
  - intros. unfold run, requests, fetchProjectIssues, bind.
    rewrite project_query_eq, Hout. split; reflexivity.
  - intros. unfold run, requests, updateIssueState, assignIssue, updateLabels, addComment.
    rewrite !apiRequest_eq, Hout. repeat split.
Qed.

Lemma signed_out_sends_nothing_witness :
  requests (fetchAllIssues Fixtures.signed_out 1 20 open "updated" "desc" None None None)
  = [].
Proof.
  apply (signed_out_sends_nothing Fixtures.signed_out). reflexivity.
Defined.

(** X11.  The personal feed is the signed-in user's.  With a usable
    token, [fetchAllIssues] first asks who the user is; when that fails,
    it fails with the same error and the search is never sent.
    Otherwise it sends exactly one search, for the page, page size, sort
    and direction it was given, whose query begins with the issue
    qualifier, the state, and the assignee qualifier of that user's
    login, whatever repository, labels or search text follow. *)
Theorem personal_feed_is_the_signed_in_users :
  forall (session : Session) pg perPage st srt dir rp lbls sq,
    signed_in session = true ->
    (forall e,
        api_outcome (up_user (upstream session)) = Err e ->
        run (fetchAllIssues session pg perPage st srt dir rp lbls sq) = Err e
        /\ requests (fetchAllIssues session pg perPage st srt dir rp lbls sq) = [GetUser])
    /\ (forall user,
           api_outcome (up_user (upstream session)) = Ok user ->
           exists req rest,
             requests (fetchAllIssues session pg perPage st srt dir rp lbls sq)
             = [GetUser; GetSearchIssues req]
             /\ req_page req = pg /\ per_page req = perPage
             /\ sort req = srt /\ order req = dir
             /\ q req = ("is:issue state:" ++ state_str st ++ " assignee:" ++ login user
                         ++ rest)%string
             /\ run (fetchAllIssues session pg perPage st srt dir rp lbls sq)
                = match api_outcome (up_search (upstream session) req) with
                  | Ok d => Ok (search_page d perPage)
                  | Err e => Err e
                  end).
Proof.
  intros session pg perPage st srt dir rp lbls sq Hin. split.
  - intros e He. unfold run, requests, fetchAllIssues, getCurrentUser, bind.
    rewrite apiRequest_eq, Hin, He. split; reflexivity.
  - intros user Hu.
    set (q1 := (if Js.truthy_str rp
                then ("is:issue state:" ++ state_str st ++ " assignee:" ++ login user)
                     ++ " repo:" ++ Js.str_or rp EmptyString
                else "is:issue state:" ++ state_str st ++ " assignee:" ++ login user)%string).
    destruct (qualifiers_extend q1 lbls sq) as (r1 & E1).
    assert (E0 : exists r0, q1 = (("is:issue state:" ++ state_str st ++ " assignee:"
                                   ++ login user) ++ r0)%string).
    { unfold q1. destruct (Js.truthy_str rp).
      - eexists. reflexivity.
      - exists EmptyString. symmetry. apply append_empty. }
    destruct E0 as (r0 & E0).
    exists {| q := with_search (with_labels q1 lbls) sq; sort := srt; order := dir;
              req_page := pg; per_page := perPage |}.
    exists (r0 ++ r1)%string.
    unfold run, requests, fetchAllIssues, getCurrentUser, bind.
    rewrite apiRequest_eq, Hin, Hu. fold q1.
    rewrite apiRequest_eq, Hin. simpl.
    split; [destruct (api_outcome (up_search _ _)); reflexivity|].
    repeat (split; [reflexivity|]).
    split.
    + rewrite E1, E0. rewrite !append_assoc. reflexivity.
    + destruct (api_outcome (up_search _ _)); reflexivity.
Qed.

Lemma personal_feed_is_the_signed_in_users_witness :
  exists req rest,
    requests (fetchAllIssues Fixtures.feed25 2 20 open "updated" "desc" None
                             (Some ["bug"]) None)
    = [GetUser; GetSearchIssues req]
    /\ q req = ("is:issue state:open assignee:octocat" ++ rest)%string.
Proof.
  destruct (proj2 (personal_feed_is_the_signed_in_users
                     Fixtures.feed25 2 20 open "updated" "desc" None (Some ["bug"]) None
                     eq_refl) Fixtures.octocat eq_refl)
    as (req & rest & H1 & _ & _ & _ & _ & H2 & _).
  exists req, rest. split; [exact H1|exact H2].
Defined.

(** X12.  The organization feed stays inside its scope.  Every search of
    [fetchOrgIssues] begins with the issue qualifier, the state, and
    then the repository when one is given, the organization otherwise: a
    repository filter replaces the organization qualifier.  The assignee
    values 'all', the empty string and none at all send one and the same
    single request; only 'me' costs a user lookup first, whose login
    then follows the scope. *)
Theorem organization_feed_is_scoped :
  forall (session : Session) org pg perPage st srt dir rp asg lbls sq,
    signed_in session = true ->
    (Js.opt_str_eqb asg "me" = false ->
     exists req rest,
       requests (fetchOrgIssues session org pg perPage st srt dir rp asg lbls sq)
       = [GetSearchIssues req]
       /\ req_page req = pg /\ per_page req = perPage
       /\ sort req = srt /\ order req = dir
       /\ q req = (organization_scope org st rp ++ rest)%string)
    /\ (forall user,
           asg = Some "me" ->
           api_outcome (up_user (upstream session)) = Ok user ->
           exists req rest,
             requests (fetchOrgIssues session org pg perPage st srt dir rp asg lbls sq)
             = [GetUser; GetSearchIssues req]
             /\ q req = (organization_scope org st rp ++ " assignee:" ++ login user
                         ++ rest)%string)
    /\ fetchOrgIssues session org pg perPage st srt dir rp (Some "all") lbls sq
       = fetchOrgIssues session org pg perPage st srt dir rp None lbls sq
    /\ fetchOrgIssues session org pg perPage st srt dir rp (Some EmptyString) lbls sq
       = fetchOrgIssues session org pg perPage st srt dir rp None lbls sq.
Proof.
  intros session org pg perPage st srt dir rp asg lbls sq Hin.
  assert (Scope : (if Js.truthy_str rp
                   then ("is:issue state:" ++ state_str st)
                        ++ " repo:" ++ Js.str_or rp EmptyString
                   else ("is:issue state:" ++ state_str st) ++ " org:" ++ org)%string
                  = organization_scope org st rp).
  { unfold organization_scope. destruct (Js.truthy_str rp); apply append_assoc. }
  split; [|split; [|split; reflexivity]].
  - intros Hme.
    assert (Q : exists q2 r0,
               (if Js.opt_str_eqb asg "me"
                then bind (getCurrentUser session)
                          (fun user => ret (organization_scope org st rp
                                            ++ " assignee:" ++ login user)%string)
                else if Js.opt_str_eqb asg "unassigned"
                     then ret (organization_scope org st rp ++ " no:assignee")%string
                     else if Js.truthy_str asg && negb (Js.opt_str_eqb asg "all")
                          then ret (organization_scope org st rp ++ " assignee:"
                                    ++ Js.str_or asg EmptyString)%string
                          else ret (organization_scope org st rp))
               = ret q2
               /\ q2 = (organization_scope org st rp ++ r0)%string).
    { rewrite Hme. destruct (Js.opt_str_eqb asg "unassigned");
        [|destruct (Js.truthy_str asg && negb (Js.opt_str_eqb asg "all"))].
      - eexists. eexists. split; reflexivity.
      - eexists. eexists. split; reflexivity.
      - eexists. exists EmptyString. split; [reflexivity|].
        symmetry. apply append_empty. }
    destruct Q as (q2 & r0 & Q1 & Q2).
    destruct (qualifiers_extend q2 lbls sq) as (r1 & E1).
    exists {| q := with_search (with_labels q2 lbls) sq; sort := srt; order := dir;
              req_page := pg; per_page := perPage |}.
    exists (r0 ++ r1)%string.
    unfold requests, fetchOrgIssues. rewrite Scope, Q1.
    unfold bind, ret. rewrite apiRequest_eq, Hin. simpl.
    split; [destruct (api_outcome (up_search _ _)); reflexivity|].
    repeat (split; [reflexivity|]).
    rewrite E1, Q2. apply append_assoc.
  - intros user -> Hu.
    destruct (qualifiers_extend
                (organization_scope org st rp ++ " assignee:" ++ login user)%string
                lbls sq) as (r1 & E1).
    exists {| q := with_search
                     (with_labels (organization_scope org st rp ++ " assignee:"
                                   ++ login user)%string lbls) sq;
              sort := srt; order := dir; req_page := pg; per_page := perPage |}.
    exists r1.
    unfold requests, fetchOrgIssues. rewrite Scope. simpl Js.opt_str_eqb. cbv iota.
    unfold getCurrentUser, bind, ret.
    rewrite apiRequest_eq, Hin, Hu. rewrite apiRequest_eq, Hin.
    cbn [q].
    split; [destruct (api_outcome (up_search _ _)); reflexivity|].
    rewrite E1. rewrite !append_assoc. reflexivity.
Qed.

Lemma organization_feed_is_scoped_witness :
  exists req rest,
    requests (fetchOrgIssues Fixtures.feed25 "octo" 1 20 open "updated" "desc"
                             (Some "other/repo") (Some "hubot") None None)
    = [GetSearchIssues req]
    /\ q req = ("is:issue state:open repo:other/repo" ++ rest)%string.
Proof.
  destruct (proj1 (organization_feed_is_scoped
                     Fixtures.feed25 "octo" 1 20 open "updated" "desc"
                     (Some "other/repo") (Some "hubot") None None eq_refl) eq_refl)
    as (req & rest & H1 & _ & _ & _ & _ & H2).
  exists req, rest. split; [exact H1|exact H2].
Defined.

End ServiceProperties.

(** ** From the search surface to a write *)

Section RepositoryParts.
Import Types.
Import GitHubService.
Import Vocabulary.

Lemma split_go_plain (sep : ascii) (s cur : string) :
  (forall c, In c (list_ascii_of_string s) -> c <> sep) ->
  Js.split_go sep cur s = [(cur ++ s)%string].
Proof.
  revert cur. induction s as [|c s IH]; intros cur H; simpl.
  - rewrite append_empty. reflexivity.
  - destruct (Ascii.eqb c sep) eqn:E.
    + apply Ascii.eqb_eq in E. exfalso. apply (H c); [left; reflexivity|exact E].
    + rewrite IH; [|intros c' Hc'; apply H; right; exact Hc'].
      rewrite append_assoc. reflexivity.
Qed.

Lemma split_go_at (sep : ascii) (o rest cur : string) :
  (forall c, In c (list_ascii_of_string o) -> c <> sep) ->
  Js.split_go sep cur (o ++ String sep rest)
  = (cur ++ o)%string :: Js.split_go sep EmptyString rest.
Proof.
  revert cur. induction o as [|c o IH]; intros cur H; simpl.
  - rewrite Ascii.eqb_refl, append_empty. reflexivity.
  - destruct (Ascii.eqb c sep) eqn:E.
    + apply Ascii.eqb_eq in E. exfalso. apply (H c); [left; reflexivity|exact E].
    + rewrite IH; [|intros c' Hc'; apply H; right; exact Hc'].
      rewrite append_assoc. reflexivity.
Qed.

Lemma split_pair (o r : string) :
  no_slash o -> no_slash r ->
  Js.split (o ++ "/" ++ r) Js.slash = [o; r].
Proof.
  intros Ho Hr. unfold Js.split.
  change (o ++ "/" ++ r)%string with (o ++ String Js.slash r)%string.
  rewrite (split_go_at Js.slash o r EmptyString Ho).
  rewrite (split_go_plain Js.slash r EmptyString Hr). reflexivity.
Qed.

Lemma str_or_self (s : string) : Js.str_or (Some s) EmptyString = s.
Proof.
  unfold Js.str_or. destruct (String.eqb s EmptyString) eqn:E; [|reflexivity].
  apply String.eqb_eq in E. symmetry. exact E.
Qed.

Lemma prefix_append (a b : string) : String.prefix a (a ++ b) = true.
Proof.
  induction a as [|x a IH]; simpl; [destruct b; reflexivity|].
  destruct (ascii_dec x x) as [_|N]; [exact IH|congruence].
Qed.

Lemma replace_eq (s pat rep : string) :
  Js.replace s pat rep
  = if String.prefix pat s then (rep ++ Js.drop (String.length pat) s)%string
    else match s with
         | EmptyString => EmptyString
         | String c rest => String c (Js.replace rest pat rep)
         end.
Proof. destruct s; reflexivity. Qed.

Lemma replace_api_prefix (rest : string) :
  Js.replace ("https://api.github.com/repos/" ++ rest)
             "https://api.github.com/repos/" EmptyString = rest.
Proof. rewrite replace_eq, prefix_append. reflexivity. Qed.

End RepositoryParts.

Section RepositoryPartsProperty.
Import Types.
Import GitHubService.
Import Vocabulary.

(** X13.  An issue of the search surface is edited in the repository it
    came from.  When [repository_url] is the API address of repository
    [r] of owner [o], the normalized issue carries [o/r] as [repo] and
    [o] as [org], the detail view splits that back into exactly [o] and
    [r], and the state change it sends is the one for issue [number] of
    that repository.  Without a [repository_url] the issue has [repo]
    "/" and both parts are empty. *)
Theorem search_issue_is_edited_where_it_lives :
  forall (raw : RawSearchIssue),
    (forall o r,
        no_slash o -> no_slash r ->
        raw_repository_url raw
        = Some ("https://api.github.com/repos/" ++ o ++ "/" ++ r)%string ->
        repo (normalizeSearchIssue raw) = (o ++ "/" ++ r)%string
        /\ org (normalizeSearchIssue raw) = o
        /\ IssueDetailModal.repoParts (normalizeSearchIssue raw) = (o, r)
        /\ forall session st,
            signed_in session = true ->
            requests (updateIssueState session
                        (fst (IssueDetailModal.repoParts (normalizeSearchIssue raw)))
                        (snd (IssueDetailModal.repoParts (normalizeSearchIssue raw)))
                        (number (normalizeSearchIssue raw)) st)
            = [SendWrite (PatchIssue o r (raw_number raw) (PatchState st))])
    /\ (raw_repository_url raw = None ->
        repo (normalizeSearchIssue raw) = "/"
        /\ org (normalizeSearchIssue raw) = EmptyString
        /\ IssueDetailModal.repoParts (normalizeSearchIssue raw)
           = (EmptyString, EmptyString)).
Proof.
  intros raw. split.
  - intros o r Ho Hr Hurl.
    assert (Parts : Js.split
                      (Js.replace (Js.str_or (raw_repository_url raw) EmptyString)
                                  "https://api.github.com/repos/" EmptyString)
                      Js.slash = [o; r]).
    { rewrite Hurl.
      change (Js.str_or (Some ("https://api.github.com/repos/" ++ o ++ "/" ++ r)%string)
                        EmptyString)
        with ("https://api.github.com/repos/" ++ o ++ "/" ++ r)%string.
      rewrite replace_api_prefix. apply split_pair; assumption. }
    assert (R : repo (normalizeSearchIssue raw) = (o ++ "/" ++ r)%string).
    { unfold normalizeSearchIssue. cbn [repo]. rewrite Parts.
      unfold Js.nth_or_empty. cbn [nth_error]. rewrite !str_or_self. reflexivity. }
    assert (P : IssueDetailModal.repoParts (normalizeSearchIssue raw) = (o, r)).
    { unfold IssueDetailModal.repoParts. rewrite R. rewrite (split_pair o r Ho Hr).
      unfold Js.nth_or_empty. cbn [nth_error]. rewrite !str_or_self. reflexivity. }
    split; [exact R|]. split.
    { unfold normalizeSearchIssue. cbn [org]. rewrite Parts.
      unfold Js.nth_or_empty. cbn [nth_error]. apply str_or_self. }
    split; [exact P|].
    intros session st Hin. rewrite P. unfold requests, updateIssueState.
    rewrite apiRequest_eq, Hin. reflexivity.
  - intros Hnone. unfold IssueDetailModal.repoParts, normalizeSearchIssue.
    cbn [repo org]. rewrite Hnone. repeat split.
Qed.

Lemma search_issue_is_edited_where_it_lives_witness :
  IssueDetailModal.repoParts (normalizeSearchIssue (Fixtures.raw_issue 7))
  = ("octo", "deck").
Proof.
  refine (proj1 (proj2 (proj2 (proj1 (search_issue_is_edited_where_it_lives
                                        (Fixtures.raw_issue 7))
                                     "octo" "deck" _ _ eq_refl)))).
  - intros c Hc. vm_compute in Hc.
    repeat (destruct Hc as [<- | Hc]; [vm_compute; discriminate|]). contradiction.
  - intros c Hc. vm_compute in Hc.
    repeat (destruct Hc as [<- | Hc]; [vm_compute; discriminate|]). contradiction.
Defined.

End RepositoryPartsProperty.

(** ** The structured surface: filters and status *)

Section StructuredFilters.
Import Types.
Import GitHubService.
Import Vocabulary.

Variable toLowerCase : string -> string.

Lemma status_step_plain (acc : string * string) (fv : option GqlFieldValue) :
  names_a_status toLowerCase fv = false -> status_step toLowerCase acc fv = acc.
Proof.
  unfold names_a_status, status_step.
  destruct fv as [v|]; [|reflexivity].
  destruct (fv_field v) as [f|]; [|reflexivity].
  intros H. rewrite H. reflexivity.
Qed.

Lemma status_loop_plain (l : list (option GqlFieldValue)) (acc : string * string) :
  forallb (fun fv => negb (names_a_status toLowerCase fv)) l = true ->
  fold_left (status_step toLowerCase) l acc = acc.
Proof.
  revert acc. induction l as [|fv l IH]; intros acc H; [reflexivity|].
  simpl in H. apply andb_true_iff in H. destruct H as [H1 H2].
  apply negb_true_iff in H1. simpl.
  rewrite (status_step_plain acc fv H1). apply IH. exact H2.
Qed.

Lemma unfiltered_kept (node : GqlNode) :
  node_kept toLowerCase None None None node = has_number node.
Proof.
  unfold node_kept, has_number. destruct (content node) as [c|]; [|reflexivity].
  unfold status_skips, repo_skips, assignee_skips. simpl.
  rewrite !andb_true_r. reflexivity.
Qed.

End StructuredFilters.

Section StructuredFiltersProperty.
Import Types.
Import GitHubService.
Import Vocabulary.

(** X14.  On the structured surface the filter values 'all' and the
    empty string are no filter at all: the page is the one obtained with
    the status and assignee filters absent.  With no filter the page
    holds one issue for each node that carries an issue number, in the
    order of the nodes; only the nodes without a number are left out. *)
Theorem structured_all_means_no_filter :
  forall (toLowerCase : string -> string) (owner : string) (pd : GqlProject)
         (rf : option string),
    project_page toLowerCase owner pd (Some "all") (Some "all") rf
    = project_page toLowerCase owner pd None None rf
    /\ project_page toLowerCase owner pd (Some EmptyString) (Some EmptyString) rf
       = project_page toLowerCase owner pd None None rf
    /\ List.length (items (page (project_page toLowerCase owner pd None None None)))
       = List.length (filter has_number (Js.arr_or (nodes (project_items pd))))
    /\ map number (items (page (project_page toLowerCase owner pd None None None)))
       = map (fun node => match content node with
                          | Some c => Js.num_or (c_number c) 0
                          | None => 0
                          end)
             (filter has_number (Js.arr_or (nodes (project_items pd)))).
Proof.
  intros tl owner pd rf.
  split; [reflexivity|]. split; [reflexivity|].
  unfold project_page. cbn [page items].
  rewrite project_loop_flat_map. cbn [app].
  split.
  - rewrite project_loop_length. f_equal. apply filter_ext.
    intros node. apply unfiltered_kept.
  - induction (Js.arr_or (nodes (project_items pd))) as [|node l IH]; [reflexivity|].
    cbn [flat_map filter]. rewrite map_app, IH.
    rewrite project_step_kept, unfiltered_kept.
    destruct (has_number node) eqn:Hn; [|reflexivity].
    unfold has_number in Hn.
    destruct (content node) as [c|] eqn:Ec; [|discriminate].
    cbn [map app number project_issue]. rewrite Ec. reflexivity.
Qed.

(** X15.  The status of a project item is decided by the last of its
    field values that names a status (a value with a name whose field's
    name contains "status" in lower case): whatever precedes it, and
    whatever values that name no status follow it, the item's status is
    that value's name and the status field is that value's field.  An
    item none of whose values names a status has the empty status. *)
Theorem last_status_value_wins :
  forall (toLowerCase : string -> string) (node : GqlNode)
         (before after : list (option GqlFieldValue)) (v : GqlFieldValue) (f : GqlField),
    (fieldValues node = Some (before ++ Some v :: after)%list ->
     fv_field v = Some f ->
     names_a_status toLowerCase (Some v) = true ->
     forallb (fun fv => negb (names_a_status toLowerCase fv)) after = true ->
     node_status toLowerCase node = (Js.str_or (fv_name v) EmptyString, field_id f)
     /\ fst (node_status toLowerCase node) <> EmptyString)
    /\ (forallb (fun fv => negb (names_a_status toLowerCase fv))
                (Js.arr_or (fieldValues node)) = true ->
        node_status toLowerCase node = (EmptyString, EmptyString)).
Proof.
  intros tl node before after v f. split.
  - intros Hfv Hf Hs Hafter.
    unfold names_a_status in Hs. rewrite Hf in Hs.
    assert (E0 : node_status tl node = (Js.str_or (fv_name v) EmptyString, field_id f)).
    { unfold node_status. rewrite Hfv. cbn [Js.arr_or].
      rewrite fold_left_app. cbn [fold_left].
      rewrite (status_loop_plain tl after _ Hafter).
      unfold status_step at 1. rewrite Hf, Hs. reflexivity. }
    split; [exact E0|]. rewrite E0. cbn [fst].
    apply andb_true_iff in Hs. destruct Hs as [Hs _].
    unfold Js.truthy_str in Hs. unfold Js.str_or.
    destruct (fv_name v) as [n|]; [|discriminate].
    destruct (String.eqb n EmptyString) eqn:E; [discriminate|].
    apply String.eqb_neq. exact E.
  - intros H. unfold node_status. apply status_loop_plain. exact H.
Qed.

Lemma last_status_value_wins_witness :
  node_status Js.asciiToLowerCase (Fixtures.board_node 3 "Done")
  = ("Done", "PVTSSF_status").
Proof.
  refine (proj1 (proj1 (last_status_value_wins
                          Js.asciiToLowerCase (Fixtures.board_node 3 "Done")
                          [None; Some {| fv_name := None; fv_field := None |}] []
                          {| fv_name := Some "Done";
                             fv_field := Some Fixtures.status_field |}
                          Fixtures.status_field)
                       eq_refl eq_refl _ eq_refl)).
  vm_compute. reflexivity.
Defined.

End StructuredFiltersProperty.

(** ** The access token *)

Section AccessTokenProperties.
Import GitHubService.
Import AccessToken.

(** X16.  A token that has been set is served from memory.  After
    [setGitHubAccessToken] with a non-empty token, [getAccessToken] and
    [getStoredAccessToken] give that token whatever the storage holds or
    does, and without reading it; the only storage call made is the one
    that persists the token.  After [clearGitHubAccessToken] the memory
    is empty and the next [getAccessToken] is decided by the storage
    alone: it fails with the re-authentication error when the storage
    holds nothing or cannot be read, and gives the stored token when one
    is still there. *)
Theorem token_set_is_served_from_memory :
  forall (t : string) (st : Store),
    t <> EmptyString ->
    (forall stored,
        getAccessToken stored (setGitHubAccessToken t st)
        = (Ok (Some t), setGitHubAccessToken t st)
        /\ getStoredAccessToken stored (setGitHubAccessToken t st)
           = (Some t, setGitHubAccessToken t st))
    /\ storageCalls (setGitHubAccessToken t st) = (storageCalls st ++ [SetItem t])%list
    /\ githubAccessToken (clearGitHubAccessToken (setGitHubAccessToken t st)) = None
    /\ storageCalls (clearGitHubAccessToken (setGitHubAccessToken t st))
       = (storageCalls st ++ [SetItem t; RemoveItem])%list
    /\ fst (getAccessToken (Ok None)
                           (clearGitHubAccessToken (setGitHubAccessToken t st)))
       = Err TokenNotSet
    /\ (forall e,
           fst (getAccessToken (Err e)
                               (clearGitHubAccessToken (setGitHubAccessToken t st)))
           = Err TokenNotSet)
    /\ (forall t',
           t' <> EmptyString ->
           fst (getAccessToken (Ok (Some t'))
                               (clearGitHubAccessToken (setGitHubAccessToken t st)))
           = Ok (Some t')).
Proof.
  intros t st Ht.
  assert (T : forall x, x <> EmptyString -> String.eqb x EmptyString = false)
    by (intros x Hx; apply String.eqb_neq; exact Hx).
  split.
  { intros stored. unfold getAccessToken, getStoredAccessToken, setGitHubAccessToken,
      called, Js.truthy_str. simpl. rewrite (T t Ht). simpl. split; reflexivity. }
  split; [reflexivity|]. split; [reflexivity|].
  split; [unfold clearGitHubAccessToken, setGitHubAccessToken, called; simpl;
          rewrite <- app_assoc; reflexivity|].
  split; [reflexivity|]. split; [reflexivity|].
  intros t' Ht'. unfold getAccessToken, getStoredAccessToken, clearGitHubAccessToken,
    setGitHubAccessToken, called, Js.truthy_str. simpl.
  repeat (rewrite (T t' Ht'); simpl). reflexivity.
Qed.

Lemma token_set_is_served_from_memory_witness :
  getAccessToken (Err (NetworkFailure "storage unavailable"))
                 (setGitHubAccessToken "gho_token" empty)
  = (Ok (Some "gho_token"), setGitHubAccessToken "gho_token" empty).
Proof.
  refine (proj1 (proj1 (token_set_is_served_from_memory "gho_token" empty _) _)).
  discriminate.
Defined.

(** X17.  [getAccessToken] never hands out an empty token.  It either
    fails with the re-authentication error, having read the storage
    once and found no usable token there, or gives a non-empty token
    that is in memory from then on, so that every later call gives the
    same token without a storage call.  It reads the storage at most
    once, and only when the memory holds no usable token.  The token the
    service then checks before each request is this one. *)
Theorem access_token_is_never_empty :
  forall (stored : Result (option string)) (st : Store),
    (exists t,
        t <> EmptyString
        /\ fst (getAccessToken stored st) = Ok (Some t)
        /\ githubAccessToken (snd (getAccessToken stored st)) = Some t
        /\ (forall stored',
               getAccessToken stored' (snd (getAccessToken stored st))
               = (Ok (Some t), snd (getAccessToken stored st)))
        /\ (forall u,
               run (GitHubService.getAccessToken
                      {| token := githubAccessToken (snd (getAccessToken stored st));
                         upstream := u |}) = Ok t)
        /\ (storageCalls (snd (getAccessToken stored st)) = storageCalls st
            \/ (Js.truthy_str (githubAccessToken st) = false
                /\ stored = Ok (Some t)
                /\ storageCalls (snd (getAccessToken stored st))
                   = (storageCalls st ++ [GetItem])%list)))
    \/ (fst (getAccessToken stored st) = Err TokenNotSet
        /\ Js.truthy_str (githubAccessToken st) = false
        /\ Js.truthy_str (githubAccessToken (snd (getAccessToken stored st))) = false
        /\ match stored with
           | Ok o => Js.truthy_str o = false
           | Err _ => True
           end
        /\ storageCalls (snd (getAccessToken stored st))
           = (storageCalls st ++ [GetItem])%list
        /\ (forall u,
               run (GitHubService.getAccessToken
                      {| token := githubAccessToken (snd (getAccessToken stored st));
                         upstream := u |}) = Err TokenNotSet)).
Proof.
  intros stored st.
  destruct st as [[m|] calls]; [destruct (String.eqb m EmptyString) eqn:Em|];
    destruct stored as [[s|]|e]; try destruct (String.eqb s EmptyString) eqn:Es.
  all: unfold getAccessToken, getStoredAccessToken, called, run,
         GitHubService.getAccessToken, Js.truthy_str.
  all: repeat (simpl; repeat match goal with
                             | H : String.eqb _ _ = _ |- _ => rewrite H
                             end).
  all: try solve [right; repeat split; reflexivity].
  all: left;
    first [exists m; split; [apply String.eqb_neq; assumption|]
          |exists s; split; [apply String.eqb_neq; assumption|]];
    repeat split; try reflexivity;
    first [left; reflexivity | right; repeat split; reflexivity].
Qed.

End AccessTokenProperties.

(** ** Project lists *)

Section ProjectLists.
Import Types.
Import GitHubService.
Import Vocabulary.

Lemma filter_fields_ids (l : list (option ProjectField)) (fs : list ProjectField) :
  filter_fields l = Some fs ->
  Forall (fun f => Js.truthy_str (pfield_id f) = true) fs.
Proof.
  revert fs. induction l as [|[f|] l IH]; intros fs H; simpl in H.
  - inversion H. constructor.
  - destruct (filter_fields l) as [r'|]; [|discriminate].
    inversion H; subst. destruct (Js.truthy_str (pfield_id f)) eqn:E.
    + constructor; [exact E|apply IH; reflexivity].
    + apply IH. reflexivity.
  - discriminate.
Qed.

Lemma filter_fields_clean (l : list (option ProjectField)) :
  forallb is_some l = true -> exists fs, filter_fields l = Some fs.
Proof.
  induction l as [|[f|] l IH]; simpl; intros H.
  - eexists. reflexivity.
  - destruct (IH H) as (fs & E). rewrite E. eexists. reflexivity.
  - discriminate.
Qed.

Lemma project_of_spec (owner : string) (p : RawProject) (g : GitHubProject) :
  project_of owner p = Some g ->
  gp_id g = rp_id p /\ gp_number g = rp_number p /\ gp_title g = rp_title p
  /\ gp_url g = rp_url p /\ gp_owner g = owner /\ fields_have_ids g.
Proof.
  unfold project_of, fields_have_ids.
  destruct (filter_fields (Js.arr_or (rp_fields p))) as [fs|] eqn:E; [|discriminate].
  intros H. inversion H; subst. simpl. repeat split.
  apply (filter_fields_ids _ _ E).
Qed.

Lemma project_of_clean (owner : string) (p : RawProject) :
  clean_project (Some p) = true -> exists g, project_of owner p = Some g.
Proof.
  simpl. intros H. unfold project_of.
  destruct (filter_fields_clean _ H) as (fs & E). rewrite E. eexists. reflexivity.
Qed.

Lemma map_projects_spec (owner : string) (l : list (option RawProject))
      (gs : list GitHubProject) :
  map_projects owner l = Some gs ->
  Forall (fun g => gp_owner g = owner /\ fields_have_ids g) gs
  /\ map (fun g => Some (gp_id g)) gs = map (option_map rp_id) l.
Proof.
  revert gs. induction l as [|[p|] l IH]; intros gs H; simpl in H.
  - inversion H. split; [constructor|reflexivity].
  - destruct (project_of owner p) as [g|] eqn:E; [|discriminate].
    destruct (map_projects owner l) as [r'|]; [|discriminate].
    inversion H; subst. destruct (IH r' eq_refl) as (F & M).
    destruct (project_of_spec _ _ _ E) as (I & _ & _ & _ & O & Fi).
    split; [constructor; auto|]. simpl. rewrite M, I. reflexivity.
  - discriminate.
Qed.

Lemma some_ids (gs : list GitHubProject) (ps : list RawProject) :
  map (fun g => Some (gp_id g)) gs = map (fun p => Some (rp_id p)) ps ->
  map gp_id gs = map rp_id ps.
Proof.
  revert ps. induction gs as [|g gs IH]; intros [|p ps] M; simpl in M;
    try discriminate; [reflexivity|].
  inversion M. simpl. rewrite (IH ps); [|assumption]. f_equal. assumption.
Qed.

Lemma map_projects_clean (owner : string) (ps : list RawProject) :
  forallb (fun p => clean_project (Some p)) ps = true ->
  exists gs, map_projects owner (map Some ps) = Some gs.
Proof.
  induction ps as [|p ps IH]; intros H; [eexists; reflexivity|].
  simpl in H. apply andb_true_iff in H. destruct H as [H1 H2].
  destruct (project_of_clean owner p H1) as (g & Eg).
  destruct (IH H2) as (gs & Egs).
  cbn [map map_projects]. rewrite Eg, Egs. eexists. reflexivity.
Qed.

(** What the loops of [getViewerAccessibleProjects] keep true. *)
Local Abbreviation listing_sound result acc :=
  (match acc with
   | None => True
   | Some (allProjects, seenIds) =>
       seenIds = map gp_id allProjects
       /\ NoDup seenIds
       /\ Forall (comes_from result) allProjects
       /\ Forall fields_have_ids allProjects
   end).

Lemma NoDup_snoc (l : list string) (x : string) :
  NoDup l -> existsb (String.eqb x) l = false -> NoDup (l ++ [x])%list.
Proof.
  intros N H. induction l as [|a l IH]; simpl.
  - constructor; [intros []|constructor].
  - simpl in H. apply orb_false_iff in H. destruct H as [H1 H2].
    inversion N as [|? ? Hnot N']; subst.
    constructor; [|apply IH; assumption].
    intros Hin. apply in_app_or in Hin. destruct Hin as [Hin | [Hin | []]].
    + contradiction.
    + subst a. rewrite String.eqb_refl in H1. discriminate.
Qed.

Lemma viewer_inner_sound (result : ViewerResult) (repo : RawRepository)
      (ps : list (option RawProject))
      (acc : option (list GitHubProject * list string)) :
  In (Some repo) (Js.arr_or (vr_repositories result)) ->
  incl ps (Js.arr_or (repo_projects repo)) ->
  listing_sound result acc ->
  listing_sound result (fold_left (viewer_project_step repo) ps acc).
Proof.
  intros Hrepo. revert acc. induction ps as [|p ps IH]; intros acc Hi H; [exact H|].
  simpl. apply IH; [intros x Hx; apply Hi; right; exact Hx|].
  destruct acc as [[allProjects seenIds]|]; [|exact I].
  destruct H as (S & N & C & F).
  unfold viewer_project_step.
  destruct p as [p|]; [|auto].
  destruct (Js.arr_includes seenIds (rp_id p)) eqn:E; [auto|].
  destruct (project_of _ p) as [g|] eqn:Eg; [|exact I].
  destruct (project_of_spec _ _ _ Eg) as (I1 & I2 & I3 & I4 & I5 & I6).
  split; [rewrite map_app, <- S; simpl; rewrite I1; reflexivity|].
  split; [apply NoDup_snoc; assumption|].
  split.
  - apply Forall_app. split; [exact C|]. constructor; [|constructor].
    exists repo, p. split; [exact Hrepo|].
    split; [apply Hi; left; reflexivity|]. auto.
  - apply Forall_app. split; [exact F|]. constructor; [exact I6|constructor].
Qed.

Lemma viewer_outer_sound (result : ViewerResult) (rs : list (option RawRepository))
      (acc : option (list GitHubProject * list string)) :
  incl rs (Js.arr_or (vr_repositories result)) ->
  listing_sound result acc ->
  listing_sound result (fold_left viewer_repo_step rs acc).
Proof.
  revert acc. induction rs as [|r rs IH]; intros acc Hi H; [exact H|].
  simpl. apply IH; [intros x Hx; apply Hi; right; exact Hx|].
  unfold viewer_repo_step. destruct r as [repo|]; [|exact I].
  apply viewer_inner_sound; [apply Hi; left; reflexivity|apply incl_refl|exact H].
Qed.

Lemma existsb_eqb_In (x : string) (l : list string) :
  existsb (String.eqb x) l = true -> In x l.
Proof.
  intros H. apply existsb_exists in H. destruct H as (y & Hy & E).
  apply String.eqb_eq in E. subst y. exact Hy.
Qed.

Lemma viewer_inner_complete (repo : RawRepository) (ps : list (option RawProject))
      (allProjects : list GitHubProject) (seenIds : list string) :
  forallb clean_project ps = true ->
  exists allProjects' seenIds',
    fold_left (viewer_project_step repo) ps (Some (allProjects, seenIds))
    = Some (allProjects', seenIds')
    /\ incl seenIds seenIds'
    /\ forall p, In (Some p) ps -> In (rp_id p) seenIds'.
Proof.
  revert allProjects seenIds.
  induction ps as [|p ps IH]; intros allProjects seenIds H.
  - exists allProjects, seenIds. split; [reflexivity|].
    split; [apply incl_refl|intros p []].
  - simpl in H. apply andb_true_iff in H. destruct H as [H1 H2].
    cbn [fold_left]. unfold viewer_project_step at 2.
    destruct p as [p|].
    + destruct (Js.arr_includes seenIds (rp_id p)) eqn:E.
      * destruct (IH allProjects seenIds H2) as (a' & s' & E' & I' & C').
        exists a', s'. split; [exact E'|]. split; [exact I'|].
        intros p0 [Hp | Hp]; [|apply C'; exact Hp].
        inversion Hp; subst p0. apply I'. apply existsb_eqb_In. exact E.
      * destruct (project_of_clean
                    (Js.str_or (rp_owner p) (Js.str_or (repo_owner repo) EmptyString))
                    p H1) as (g & Eg).
        rewrite Eg.
        destruct (IH (allProjects ++ [g])%list (seenIds ++ [rp_id p])%list H2)
          as (a' & s' & E' & I' & C').
        exists a', s'. split; [exact E'|].
        split; [intros x Hx; apply I'; apply in_or_app; left; exact Hx|].
        intros p0 [Hp | Hp]; [|apply C'; exact Hp].
        inversion Hp; subst p0. apply I'. apply in_or_app. right. left. reflexivity.
    + destruct (IH allProjects seenIds H2) as (a' & s' & E' & I' & C').
      exists a', s'. split; [exact E'|]. split; [exact I'|].
      intros p0 [Hp | Hp]; [discriminate Hp|apply C'; exact Hp].
Qed.

Lemma viewer_outer_complete (rs : list (option RawRepository))
      (allProjects : list GitHubProject) (seenIds : list string) :
  forallb clean_repository rs = true ->
  exists allProjects' seenIds',
    fold_left viewer_repo_step rs (Some (allProjects, seenIds))
    = Some (allProjects', seenIds')
    /\ incl seenIds seenIds'
    /\ forall repo p,
        In (Some repo) rs -> In (Some p) (Js.arr_or (repo_projects repo)) ->
        In (rp_id p) seenIds'.
Proof.
  revert allProjects seenIds.
  induction rs as [|r rs IH]; intros allProjects seenIds H.
  - exists allProjects, seenIds. split; [reflexivity|].
    split; [apply incl_refl|intros repo p []].
  - simpl in H. apply andb_true_iff in H. destruct H as [H1 H2].
    destruct r as [repo|]; [|discriminate H1]. simpl in H1.
    cbn [fold_left]. unfold viewer_repo_step at 2.
    destruct (viewer_inner_complete repo _ allProjects seenIds H1)
      as (a1 & s1 & E1 & I1 & C1).
    rewrite E1.
    destruct (IH a1 s1 H2) as (a' & s' & E' & I' & C').
    exists a', s'. split; [exact E'|].
    split; [intros x Hx; apply I'; apply I1; exact Hx|].
    intros repo0 p [Hr | Hr] Hp.
    + inversion Hr; subst repo0. apply I'. apply C1. exact Hp.
    + apply (C' repo0 p Hr Hp).
Qed.

End ProjectLists.

Section ProjectListProperties.
Import Types.
Import GitHubService.
Import Vocabulary.

(** X18.  [getViewerAccessibleProjects] lists every project once.  No
    two projects of its result share an [id], however many repositories
    carry the same project; every project listed is a project node of a
    repository of the answer, owned by the node's owner or else by that
    repository's owner; and when the answer has no errors and no [null]
    where the code reads through it, every project node of every
    repository is in the list.  A failed request, an answer with errors
    or an exception ends in the empty list. *)
Theorem accessible_projects_are_listed_once :
  forall (outcome : Result ViewerResult),
    NoDup (map gp_id (getViewerAccessibleProjects outcome))
    /\ (forall g,
           In g (getViewerAccessibleProjects outcome) ->
           exists result,
             outcome = Ok result /\ vr_errors result = None /\ comes_from result g)
    /\ (forall result repo p,
           outcome = Ok result -> clean_viewer result = true ->
           In (Some repo) (Js.arr_or (vr_repositories result)) ->
           In (Some p) (Js.arr_or (repo_projects repo)) ->
           In (rp_id p) (map gp_id (getViewerAccessibleProjects outcome))).
Proof.
  intros outcome. unfold getViewerAccessibleProjects.
  destruct outcome as [result|e].
  2:{ split; [constructor|]. split; [intros g []|]. intros; discriminate. }
  destruct (is_some (vr_errors result)) eqn:Eerr.
  { split; [constructor|]. split; [intros g []|].
    intros r repo p Hr Hc. inversion Hr; subst r.
    unfold clean_viewer in Hc. rewrite Eerr in Hc. discriminate. }
  assert (Hnone : vr_errors result = None).
  { destruct (vr_errors result); [discriminate|reflexivity]. }
  pose proof (viewer_outer_sound result (Js.arr_or (vr_repositories result))
                (Some ([], [])) (incl_refl _)
                (conj eq_refl (conj (NoDup_nil _) (conj (Forall_nil _) (Forall_nil _)))))
    as Sound.
  destruct (fold_left viewer_repo_step (Js.arr_or (vr_repositories result))
                      (Some ([], []))) as [[allProjects seenIds]|] eqn:Efold.
  - destruct Sound as (S & N & C & _).
    split; [rewrite <- S; exact N|]. split.
    + intros g Hg. exists result. split; [reflexivity|]. split; [exact Hnone|].
      exact (proj1 (Forall_forall _ _) C g Hg).
    + intros r repo p Hr Hc Hrepo Hp. inversion Hr; subst r.
      unfold clean_viewer in Hc. rewrite Eerr in Hc. simpl in Hc.
      destruct (viewer_outer_complete _ [] [] Hc) as (a' & s' & E' & _ & C').
      rewrite Efold in E'. inversion E'; subst a' s'.
      rewrite <- S. apply (C' repo p Hrepo Hp).
  - split; [constructor|]. split; [intros g []|].
    intros r repo p Hr Hc. inversion Hr; subst r.
    unfold clean_viewer in Hc. rewrite Eerr in Hc. simpl in Hc.
    destruct (viewer_outer_complete _ [] [] Hc) as (a' & s' & E' & _).
    rewrite Efold in E'. discriminate.
Qed.

Lemma accessible_projects_are_listed_once_witness :
  map gp_id (getViewerAccessibleProjects (Ok Fixtures.viewer_answer))
  = ["PVT_1"; "PVT_2"]
  /\ map gp_owner (getViewerAccessibleProjects (Ok Fixtures.viewer_answer))
     = ["octo"; "hubot"]
  /\ In "PVT_2" (map gp_id (getViewerAccessibleProjects (Ok Fixtures.viewer_answer))).
Proof.
  split; [vm_compute; reflexivity|]. split; [vm_compute; reflexivity|].
  refine (proj2 (proj2 (accessible_projects_are_listed_once (Ok Fixtures.viewer_answer)))
                Fixtures.viewer_answer
                {| repo_owner := Some "hubot";
                   repo_projects := Some [Some (Fixtures.raw_board "PVT_1" (Some "octo"));
                                          Some (Fixtures.raw_board "PVT_2" None)] |}
                (Fixtures.raw_board "PVT_2" None) eq_refl _ _ _).
  - vm_compute. reflexivity.
  - right. left. reflexivity.
  - right. left. reflexivity.
Defined.

(** X19.  The two project lists never fail and what they list is
    usable.  [getOrgProjects] and [getUserProjects] give the empty list
    for a failed request and for an answer with errors; otherwise, for
    an answer without [null] nodes, one project per node and in the
    order of the nodes, owned by the organization asked for (by the
    viewer's login, or by nobody when the answer has none).  Every
    project any of the three lists holds has only fields with an [id],
    so a project that offers status options always has a non-empty
    status field id to update. *)
Theorem listed_projects_are_usable :
  forall (toLowerCase : string -> string),
    (forall org e, getOrgProjects org (Err e) = [])
    /\ (forall e, getUserProjects (Err e) = [])
    /\ (forall org result,
           pr_errors result <> None ->
           getOrgProjects org (Ok result) = [] /\ getUserProjects (Ok result) = [])
    /\ (forall org result ps,
           pr_errors result = None -> pr_nodes result = Some (map Some ps) ->
           forallb (fun p => clean_project (Some p)) ps = true ->
           map gp_id (getOrgProjects org (Ok result)) = map rp_id ps
           /\ map gp_id (getUserProjects (Ok result)) = map rp_id ps
           /\ (forall g, In g (getOrgProjects org (Ok result)) -> gp_owner g = org)
           /\ (forall g, In g (getUserProjects (Ok result)) ->
                         gp_owner g = Js.str_or (pr_login result) EmptyString))
    /\ (forall g,
           (exists org outcome, In g (getOrgProjects org outcome))
           \/ (exists outcome, In g (getUserProjects outcome))
           \/ (exists outcome, In g (getViewerAccessibleProjects outcome)) ->
           fields_have_ids g
           /\ (getProjectStatusOptions toLowerCase g <> [] ->
               exists id,
                 getProjectStatusFieldId toLowerCase g = Some id
                 /\ id <> EmptyString)).
Proof.
  intros tl.
  split; [reflexivity|]. split; [reflexivity|]. split.
  { intros org result He. unfold getOrgProjects, getUserProjects.
    destruct (pr_errors result); [split; reflexivity|contradiction]. }
  split.
  { intros org result ps He Hn Hc. unfold getOrgProjects, getUserProjects.
    rewrite He, Hn. cbn [is_some Js.arr_or].
    assert (G : forall owner,
               exists gs,
                 map_projects owner (map Some ps) = Some gs
                 /\ map gp_id gs = map rp_id ps
                 /\ forall g, In g gs -> gp_owner g = owner).
    { intros owner. destruct (map_projects_clean owner ps Hc) as (gs & E).
      exists gs. split; [exact E|].
      destruct (map_projects_spec _ _ _ E) as (F & M).
      split.
      - rewrite map_map in M. exact (some_ids _ _ M).
      - intros g Hg. exact (proj1 (proj1 (Forall_forall _ _) F g Hg)). }
    destruct (G org) as (g1 & E1 & M1 & O1).
    destruct (G (Js.str_or (pr_login result) EmptyString)) as (g2 & E2 & M2 & O2).
    rewrite E1, E2. auto. }
  intros g Hg.
  assert (F : fields_have_ids g).
  { destruct Hg as [(org & outcome & H) | [(outcome & H) | (outcome & H)]].
    - unfold getOrgProjects in H. destruct outcome as [result|]; [|contradiction].
      destruct (is_some (pr_errors result)); [contradiction|].
      destruct (map_projects org _) as [gs|] eqn:E; [|contradiction].
      destruct (map_projects_spec _ _ _ E) as (Fa & _).
      exact (proj2 (proj1 (Forall_forall _ _) Fa g H)).
    - unfold getUserProjects in H. destruct outcome as [result|]; [|contradiction].
      destruct (is_some (pr_errors result)); [contradiction|].
      destruct (map_projects _ _) as [gs|] eqn:E; [|contradiction].
      destruct (map_projects_spec _ _ _ E) as (Fa & _).
      exact (proj2 (proj1 (Forall_forall _ _) Fa g H)).
    - unfold getViewerAccessibleProjects in H.
      destruct outcome as [result|]; [|contradiction].
      destruct (is_some (vr_errors result)); [contradiction|].
      pose proof (viewer_outer_sound result (Js.arr_or (vr_repositories result))
                    (Some ([], [])) (incl_refl _)
                    (conj eq_refl
                          (conj (NoDup_nil _) (conj (Forall_nil _) (Forall_nil _)))))
        as Sound.
      destruct (fold_left viewer_repo_step _ _) as [[allProjects seenIds]|];
        [|contradiction].
      destruct Sound as (_ & _ & _ & Fa).
      exact (proj1 (Forall_forall _ _) Fa g H). }
  split; [exact F|].
  unfold getProjectStatusOptions, getProjectStatusFieldId.
  destruct (find (names_status tl) (gp_fields g)) as [f|] eqn:E;
    [|intros H; contradiction].
  intros _. apply find_some in E. destruct E as [Hin _].
  pose proof (proj1 (Forall_forall _ _) F f Hin) as Hid. simpl in Hid.
  unfold Js.truthy_str in Hid. destruct (pfield_id f) as [id|]; [|discriminate].
  exists id. split; [reflexivity|].
  destruct (String.eqb id EmptyString) eqn:Eid; [discriminate|].
  apply String.eqb_neq. exact Eid.
Qed.

Lemma listed_projects_are_usable_witness :
  map gp_id (getOrgProjects "octo" (Ok Fixtures.org_answer)) = ["PVT_1"; "PVT_2"].
Proof.
  refine (proj1 (proj1 (proj2 (proj2 (proj2
            (listed_projects_are_usable Js.asciiToLowerCase))))
            "octo" Fixtures.org_answer
            [Fixtures.raw_board "PVT_1" None; Fixtures.raw_board "PVT_2" None]
            eq_refl eq_refl _)).
  vm_compute. reflexivity.
Defined.

End ProjectListProperties.

(** ** Analytics: top repositories and the language chart *)

Section StableSort.
Variable A : Type.
Variable key : A -> Z.
Variable cmp : A -> A -> Z.
Hypothesis cmp_key : forall a b, cmp a b = key b - key a.

Lemma insert_by_perm (x : A) (l : list A) : Permutation (Js.insert_by cmp x l) (x :: l).
Proof.
  induction l as [|y l IH]; simpl; [apply Permutation_refl|].
  destruct (cmp x y <=? 0); [apply Permutation_refl|].
  apply (Permutation_trans (l' := y :: x :: l)); [|apply perm_swap].
  apply perm_skip. exact IH.
Qed.

Lemma sort_perm (l : list A) : Permutation (Js.sort cmp l) l.
Proof.
  induction l as [|x l IH]; simpl; [apply Permutation_refl|].
  apply (Permutation_trans (insert_by_perm x (Js.sort cmp l))).
  apply perm_skip. exact IH.
Qed.

Lemma insert_by_sorted (x : A) (l : list A) :
  StronglySorted (fun a b => key b <= key a) l ->
  StronglySorted (fun a b => key b <= key a) (Js.insert_by cmp x l).
Proof.
  induction l as [|y l IH]; intros S; simpl.
  - constructor; [constructor|constructor].
  - inversion S as [|? ? S' F]; subst.
    destruct (cmp x y <=? 0) eqn:E.
    + apply Z.leb_le in E. rewrite cmp_key in E.
      constructor; [exact S|]. constructor; [lia|].
      apply (Forall_impl (P := fun b => key b <= key y)); [intros b Hb; lia|exact F].
    + apply Z.leb_gt in E. rewrite cmp_key in E.
      constructor; [apply IH; exact S'|].
      refine (@Permutation_Forall _ _ (x :: l) _
                (Permutation_sym (insert_by_perm x l)) _).
      constructor; [lia|exact F].
Qed.

Lemma sort_sorted (l : list A) :
  StronglySorted (fun a b => key b <= key a) (Js.sort cmp l).
Proof.
  induction l as [|x l IH]; simpl; [constructor|].
  apply insert_by_sorted. exact IH.
Qed.

Lemma sorted_app (R : A -> A -> Prop) (l1 l2 : list A) :
  StronglySorted R (l1 ++ l2) ->
  StronglySorted R l1 /\ forall a b, In a l1 -> In b l2 -> R a b.
Proof.
  induction l1 as [|x l1 IH]; intros S; simpl in *.
  - split; [constructor|intros a b []].
  - inversion S as [|? ? S' F]; subst. destruct (IH S') as (S1 & C).
    split.
    + constructor; [exact S1|].
      apply Forall_forall. intros b Hb.
      apply (proj1 (Forall_forall _ _) F). apply in_or_app. left. exact Hb.
    + intros a b [<- | Ha] Hb; [|apply C; assumption].
      apply (proj1 (Forall_forall _ _) F). apply in_or_app. right. exact Hb.
Qed.

Lemma sorted_map (l : list A) :
  StronglySorted (fun a b => key b <= key a) l ->
  StronglySorted (fun a b : Z => b <= a) (map key l).
Proof.
  induction 1 as [|a l S IH F]; simpl; [constructor|].
  constructor; [exact IH|].
  apply Forall_forall. intros z Hz. apply in_map_iff in Hz.
  destruct Hz as (b & <- & Hb). exact (proj1 (Forall_forall _ _) F b Hb).
Qed.

(** The first [n] of the sorted list are the [n] with the largest keys. *)
Lemma sort_top (n : nat) (l : list A) :
  List.length (firstn n (Js.sort cmp l)) = Nat.min n (List.length l)
  /\ StronglySorted (fun a b => key b <= key a) (firstn n (Js.sort cmp l))
  /\ Permutation l (firstn n (Js.sort cmp l) ++ skipn n (Js.sort cmp l))
  /\ forall t r,
      In t (firstn n (Js.sort cmp l)) -> In r (skipn n (Js.sort cmp l)) ->
      key r <= key t.
Proof.
  pose proof (sort_sorted l) as S. pose proof (sort_perm l) as P.
  rewrite <- (firstn_skipn n (Js.sort cmp l)) in S.
  destruct (sorted_app _ _ _ S) as (S1 & C).
  split; [rewrite length_firstn, (Permutation_length P); reflexivity|].
  split; [exact S1|]. split; [|exact C].
  rewrite firstn_skipn. apply Permutation_sym. exact P.
Qed.

End StableSort.

Section LanguageCounts.
Import GitHubService.

(** The count recorded for language [k]. *)
Local Abbreviation count_of k m :=
  (match find (fun e : string * Z => String.eqb (fst e) k) m with
   | Some e => snd e
   | None => 0
   end).

Lemma num_or_zero (n : Z) : Js.num_or (Some n) 0 = n.
Proof.
  unfold Js.num_or. destruct (n =? 0) eqn:E; [|reflexivity].
  apply Z.eqb_eq in E. symmetry. exact E.
Qed.

Lemma if_zero (n : Z) : (if n =? 0 then 0 else n) = n.
Proof. exact (num_or_zero n). Qed.

Lemma count_language_count (k k' : string) (m : list (string * Z)) :
  count_of k (count_language k' m)
  = count_of k m + (if String.eqb k' k then 1 else 0).
Proof.
  induction m as [|[k0 n] m IH]; simpl.
  - destruct (String.eqb k' k); reflexivity.
  - destruct (String.eqb k0 k') eqn:E0; simpl.
    + apply String.eqb_eq in E0. subst k0. rewrite ?num_or_zero, ?if_zero.
      destruct (String.eqb k' k); simpl; lia.
    + destruct (String.eqb k0 k) eqn:E1; simpl.
      * apply String.eqb_eq in E1. subst k0. rewrite String.eqb_sym, E0. lia.
      * exact IH.
Qed.

Lemma count_language_keys (k : string) (m : list (string * Z)) :
  map fst (count_language k m)
  = if existsb (String.eqb k) (map fst m) then map fst m
    else (map fst m ++ [k])%list.
Proof.
  induction m as [|[k0 n] m IH]; simpl; [reflexivity|].
  destruct (String.eqb k0 k) eqn:E; simpl.
  - rewrite String.eqb_sym, E. reflexivity.
  - rewrite String.eqb_sym, E. simpl. rewrite IH.
    destruct (existsb (String.eqb k) (map fst m)); reflexivity.
Qed.

Lemma count_language_sum (k : string) (m : list (string * Z)) :
  fold_right Z.add 0 (map snd (count_language k m))
  = fold_right Z.add 0 (map snd m) + 1.
Proof.
  induction m as [|[k0 n] m IH]; simpl; [reflexivity|].
  destruct (String.eqb k0 k); simpl; [rewrite ?num_or_zero, ?if_zero; lia|].
  rewrite IH. lia.
Qed.

Lemma count_language_positive (k : string) (m : list (string * Z)) :
  k <> EmptyString ->
  Forall (fun e => 1 <= snd e /\ fst e <> EmptyString) m ->
  Forall (fun e => 1 <= snd e /\ fst e <> EmptyString) (count_language k m).
Proof.
  intros Hk. induction m as [|[k0 n] m IH]; intros F; simpl.
  - constructor; [simpl; split; [lia|exact Hk]|constructor].
  - inversion F as [|? ? [H1 H2] F']; subst. simpl in H1, H2.
    destruct (String.eqb k0 k).
    + constructor; [simpl; rewrite ?num_or_zero, ?if_zero; split; [lia|exact H2]|exact F'].
    + constructor; [simpl; split; assumption|apply IH; exact F'].
Qed.

Lemma In_firstn {A : Type} (n : nat) (l : list A) (x : A) :
  In x (firstn n l) -> In x l.
Proof.
  intros H. rewrite <- (firstn_skipn n l). apply in_or_app. left. exact H.
Qed.

Lemma fold_left_sum (l : list (string * Z)) (a : Z) :
  fold_left (fun sum entry => sum + snd entry) l a
  = a + fold_right Z.add 0 (map snd l).
Proof.
  revert a. induction l as [|e l IH]; intros a; simpl; [lia|]. rewrite IH. lia.
Qed.

Lemma sum_perm (l l' : list (string * Z)) :
  Permutation l l' ->
  fold_right Z.add 0 (map snd l) = fold_right Z.add 0 (map snd l').
Proof. intros P. induction P; simpl; lia. Qed.

Lemma sum_bounds (l : list (string * Z)) :
  Forall (fun e => 1 <= snd e) l ->
  forall e, In e l -> snd e <= fold_right Z.add 0 (map snd l).
Proof.
  induction l as [|x l IH]; intros F e Hin; [contradiction|].
  inversion F as [|? ? Hx F']; subst. simpl.
  assert (0 <= fold_right Z.add 0 (map snd l)).
  { clear IH Hin. induction l as [|y l IHl]; simpl; [lia|].
    inversion F' as [|? ? Hy F'']; subst.
    assert (Forall (fun e0 => 1 <= snd e0) (x :: l)) by (constructor; assumption).
    specialize (IHl H F''). lia. }
  destruct Hin as [<- | Hin]; [lia|]. specialize (IH F' e Hin). lia.
Qed.

Lemma sum_firstn (n : nat) (l : list (string * Z)) :
  Forall (fun e => 1 <= snd e) l ->
  fold_right Z.add 0 (map snd (firstn n l)) <= fold_right Z.add 0 (map snd l).
Proof.
  revert n. induction l as [|x l IH]; intros n F; destruct n; simpl; try lia.
  - inversion F as [|? ? Hx F']; subst.
    assert (0 <= fold_right Z.add 0 (map snd l)).
    { clear IH. induction l as [|y l IHl]; simpl; [lia|].
      inversion F' as [|? ? Hy F'']; subst.
      assert (Forall (fun e0 => 1 <= snd e0) (x :: l)) by (constructor; assumption).
      specialize (IHl H F''). lia. }
    lia.
  - inversion F as [|? ? Hx F']; subst. specialize (IH n F'). lia.
Qed.

(** What the loop over the repositories keeps true. *)
Lemma languageBreakdown_inv (repos : list GitHubRepo) (m : list (string * Z)) :
  NoDup (map fst m) ->
  Forall (fun e => 1 <= snd e /\ fst e <> EmptyString) m ->
  let m' := fold_left (fun m repo =>
                         if Js.truthy_str (language repo)
                         then count_language (Js.str_or (language repo) EmptyString) m
                         else m) repos m in
  NoDup (map fst m')
  /\ Forall (fun e => 1 <= snd e /\ fst e <> EmptyString) m'
  /\ fold_right Z.add 0 (map snd m')
     = fold_right Z.add 0 (map snd m)
       + Z.of_nat (List.length (filter (fun r => Js.truthy_str (language r)) repos))
  /\ forall k,
      k <> EmptyString ->
      count_of k m'
      = count_of k m
        + Z.of_nat (List.length (filter (fun r => Js.opt_str_eqb (language r) k) repos)).
Proof.
  revert m. induction repos as [|r repos IH]; intros m N F; cbn zeta.
  - simpl. repeat split; try assumption; try (intros; lia).
  - cbn [fold_left filter].
    destruct (Js.truthy_str (language r)) eqn:T.
    + assert (Hk : Js.str_or (language r) EmptyString <> EmptyString).
      { unfold Js.truthy_str in T. unfold Js.str_or.
        destruct (language r) as [s|]; [|discriminate].
        destruct (String.eqb s EmptyString) eqn:E; [discriminate|].
        apply String.eqb_neq. exact E. }
      assert (Hl : language r = Some (Js.str_or (language r) EmptyString)).
      { unfold Js.truthy_str in T. unfold Js.str_or.
        destruct (language r) as [s|]; [|discriminate].
        destruct (String.eqb s EmptyString); [discriminate|reflexivity]. }
      set (k0 := Js.str_or (language r) EmptyString) in *.
      assert (N' : NoDup (map fst (count_language k0 m))).
      { rewrite count_language_keys.
        destruct (existsb (String.eqb k0) (map fst m)) eqn:E; [exact N|].
        apply NoDup_snoc; assumption. }
      destruct (IH (count_language k0 m) N' (count_language_positive k0 m Hk F))
        as (A & B & C & D).
      split; [exact A|]. split; [exact B|]. split.
      * cbn zeta in C. rewrite C, count_language_sum. cbn [List.length]. lia.
      * intros k Hne. cbn zeta in D. rewrite (D k Hne), count_language_count.
        rewrite Hl. cbn [Js.opt_str_eqb].
        destruct (String.eqb k0 k); cbn [List.length]; lia.
    + destruct (IH m N F) as (A & B & C & D).
      split; [exact A|]. split; [exact B|]. split; [exact C|].
      intros k Hne. rewrite (D k Hne).
      assert (E : Js.opt_str_eqb (language r) k = false).
      { unfold Js.truthy_str in T. unfold Js.opt_str_eqb.
        destruct (language r) as [s|]; [|reflexivity].
        destruct (String.eqb s EmptyString) eqn:Es; [|discriminate].
        apply String.eqb_eq in Es. subst s.
        apply String.eqb_neq. intros E'. apply Hne. symmetry. exact E'. }
      rewrite E. reflexivity.
Qed.

Lemma count_of_entry (m : list (string * Z)) (k : string) (n : Z) :
  NoDup (map fst m) -> In (k, n) m -> count_of k m = n.
Proof.
  induction m as [|[k0 n0] m IH]; intros N Hin; [contradiction|].
  simpl in N. inversion N as [|? ? Hnot N']; subst. simpl.
  destruct Hin as [E | Hin].
  - inversion E; subst. rewrite String.eqb_refl. reflexivity.
  - destruct (String.eqb k0 k) eqn:E; [|apply IH; assumption].
    apply String.eqb_eq in E. subst k0. exfalso. apply Hnot.
    apply (in_map fst) in Hin. exact Hin.
Qed.

End LanguageCounts.

Section AnalyticsProperties.
Import GitHubService.

(** X20.  The top repositories are the most starred ones.  [topRepos]
    lists at most eight repositories, all of them when there are fewer,
    in order of decreasing stars (a repository without a star count
    counting as 0); every repository it leaves out has at most as many
    stars as every one it lists. *)
Theorem top_repos_are_the_most_starred :
  forall (repos : list GitHubRepo),
    List.length (topRepos repos) = Nat.min 8 (List.length repos)
    /\ StronglySorted (fun a b => b <= a) (map stars (topRepos repos))
    /\ exists chosen rest,
        Permutation repos (chosen ++ rest)
        /\ map stars (topRepos repos)
           = map (fun r => Js.num_or (stargazers_count r) 0) chosen
        /\ map top_name (topRepos repos)
           = map (fun r => Js.str_or (full_name r) (repo_name r)) chosen
        /\ forall t r,
            In t chosen -> In r rest ->
            Js.num_or (stargazers_count r) 0 <= Js.num_or (stargazers_count t) 0.
Proof.
  intros repos.
  destruct (sort_top GitHubRepo (fun r => Js.num_or (stargazers_count r) 0) by_stars
                     (fun a b => eq_refl) 8 repos) as (L & S & P & C).
  unfold topRepos. split; [rewrite length_map; exact L|]. split.
  - rewrite map_map. cbn [stars]. apply sorted_map. exact S.
  - exists (firstn 8 (Js.sort by_stars repos)), (skipn 8 (Js.sort by_stars repos)).
    split; [exact P|]. rewrite !map_map. cbn [stars top_name].
    split; [reflexivity|]. split; [reflexivity|exact C].
Qed.

(** X21.  The language chart counts every repository once.
    [languageBreakdown] has one entry for each language that occurs, its
    count is the number of repositories of that language, and the counts
    add up to the number of repositories that declare a language.  On
    the analytics screen every language shown has a count between 1 and
    the total the percentages are taken of, which is therefore positive
    whenever a language is shown; with at most eight languages that
    total is the number of repositories that declare a language. *)
Theorem language_chart_counts_every_repository_once :
  forall (repos : list GitHubRepo),
    NoDup (map fst (languageBreakdown repos))
    /\ (forall k n,
           In (k, n) (languageBreakdown repos) ->
           k <> EmptyString /\ 1 <= n
           /\ n = Z.of_nat (List.length
                              (filter (fun r => Js.opt_str_eqb (language r) k) repos)))
    /\ fold_left (fun sum entry => sum + snd entry) (languageBreakdown repos) 0
       = Z.of_nat (List.length (filter (fun r => Js.truthy_str (language r)) repos))
    /\ (forall e,
           In e (AnalyticsScreen.sortedLangs (languageBreakdown repos)) ->
           1 <= snd e <= AnalyticsScreen.totalLangRepos (languageBreakdown repos))
    /\ AnalyticsScreen.totalLangRepos (languageBreakdown repos)
       <= Z.of_nat (List.length (filter (fun r => Js.truthy_str (language r)) repos))
    /\ ((List.length (languageBreakdown repos) <= 8)%nat ->
        AnalyticsScreen.totalLangRepos (languageBreakdown repos)
        = Z.of_nat (List.length (filter (fun r => Js.truthy_str (language r)) repos))).
Proof.
  intros repos.
  destruct (languageBreakdown_inv repos [] (NoDup_nil _) (Forall_nil _))
    as (N & F & S & C).
  fold (languageBreakdown repos) in N, F, S, C. cbn zeta in S, C.
  change (fold_right Z.add 0 (map snd [])) with 0 in S. rewrite Z.add_0_l in S.
  set (m := languageBreakdown repos) in *.
  assert (F1 : Forall (fun e : string * Z => 1 <= snd e) m).
  { apply (Forall_impl (P := fun e => 1 <= snd e /\ fst e <> EmptyString));
      [intros e He; apply He|exact F]. }
  pose proof (sort_perm (string * Z) (fun a b => snd b - snd a) m) as P.
  assert (F2 : Forall (fun e : string * Z => 1 <= snd e)
                      (Js.sort (fun a b => snd b - snd a) m)).
  { exact (@Permutation_Forall _ _ m _ (Permutation_sym P) F1). }
  assert (F3 : Forall (fun e : string * Z => 1 <= snd e) (AnalyticsScreen.sortedLangs m)).
  { unfold AnalyticsScreen.sortedLangs. apply Forall_forall. intros e He.
    apply (proj1 (Forall_forall _ _) F2). apply (In_firstn _ _ _ He). }
  split; [exact N|]. split.
  { intros k n Hin.
    pose proof (proj1 (Forall_forall _ _) F (k, n) Hin) as [H1 H2]. simpl in H1, H2.
    split; [exact H2|]. split; [exact H1|].
    rewrite <- (count_of_entry m k n N Hin). rewrite (C k H2). simpl. lia. }
  split; [rewrite fold_left_sum, S; apply Z.add_0_l|].
  split.
  { intros e He. split; [exact (proj1 (Forall_forall _ _) F3 e He)|].
    unfold AnalyticsScreen.totalLangRepos. rewrite fold_left_sum.
    rewrite Z.add_0_l. exact (sum_bounds _ F3 e He). }
  split.
  { unfold AnalyticsScreen.totalLangRepos, AnalyticsScreen.sortedLangs.
    rewrite fold_left_sum.
    pose proof (sum_firstn 8 _ F2) as H. rewrite (sum_perm _ _ P) in H.
    rewrite S in H. rewrite Z.add_0_l. exact H. }
  intros Hlen.
  unfold AnalyticsScreen.totalLangRepos, AnalyticsScreen.sortedLangs.
  rewrite fold_left_sum, firstn_all2;
    [|rewrite (Permutation_length P); exact Hlen].
  rewrite (sum_perm _ _ P), S. apply Z.add_0_l.
Qed.

Lemma language_chart_counts_every_repository_once_witness :
  languageBreakdown Fixtures.some_repos = [("TypeScript", 2); ("Rust", 1)]
  /\ AnalyticsScreen.totalLangRepos (languageBreakdown Fixtures.some_repos) = 3.
Proof.
  split; [vm_compute; reflexivity|].
  refine (proj2 (proj2 (proj2 (proj2 (proj2
            (language_chart_counts_every_repository_once Fixtures.some_repos))))) _).
  vm_compute. lia.
Defined.

End AnalyticsProperties.

(** ** Issue summaries *)

Section SummaryCache.
Import GroqService.

Lemma cache_get_set (k v : string) (c : Cache) :
  cache_get k (cache_set k v c) = Some v.
Proof.
  induction c as [|[k' v'] c IH]; simpl; [rewrite String.eqb_refl; reflexivity|].
  destruct (String.eqb k' k) eqn:E; simpl; rewrite E; [reflexivity|exact IH].
Qed.

Lemma cache_get_set_other (k k0 v : string) (c : Cache) :
  k0 <> k -> cache_get k0 (cache_set k v c) = cache_get k0 c.
Proof.
  intros Hne. induction c as [|[k' v'] c IH]; simpl.
  - destruct (String.eqb k k0) eqn:E; [|reflexivity].
    apply String.eqb_eq in E. congruence.
  - destruct (String.eqb k' k) eqn:E; simpl.
    + apply String.eqb_eq in E. subst k'.
      destruct (String.eqb k k0) eqn:E0; [|reflexivity].
      apply String.eqb_eq in E0. congruence.
    + rewrite IH. reflexivity.
Qed.

Lemma summary_not_empty (o : option string) :
  Js.str_or o "Unable to generate summary." <> EmptyString.
Proof.
  unfold Js.str_or. destruct o as [s|]; [|discriminate].
  destruct (String.eqb s EmptyString) eqn:E; [discriminate|].
  apply String.eqb_neq. exact E.
Qed.

Lemma truthy_some (s : string) : s <> EmptyString -> Js.truthy_str (Some s) = true.
Proof.
  intros H. unfold Js.truthy_str. apply String.eqb_neq in H. rewrite H. reflexivity.
Qed.

(** A successful call leaves a usable summary under the key. *)
Lemma summary_resolved (title body : string) (labels : list string) (repo : string)
      (response : GitHubService.HttpResponse GroqData) (c : Cache) :
  GitHubService.ok response = true ->
  exists s,
    s <> EmptyString
    /\ outcome (getIssueSummary title body labels repo (Some response) c) = Resolved s
    /\ cache_get (repo ++ ":" ++ title)
                 (cache (getIssueSummary title body labels repo (Some response) c))
       = Some s
    /\ (forall k, k <> (repo ++ ":" ++ title)%string ->
                  cache_get k (cache (getIssueSummary title body labels repo
                                                      (Some response) c))
                  = cache_get k c)
    /\ (posted (getIssueSummary title body labels repo (Some response) c) = []
        \/ (Js.truthy_str (cache_get (repo ++ ":" ++ title) c) = false
            /\ posted (getIssueSummary title body labels repo (Some response) c)
               = [prompt_of title body labels repo])).
Proof.
  intros Hok. unfold getIssueSummary.
  destruct (Js.truthy_str (cache_get (repo ++ ":" ++ title) c)) eqn:T.
  - unfold Js.truthy_str in T.
    destruct (cache_get (repo ++ ":" ++ title) c) as [s|] eqn:G; [|discriminate].
    destruct (String.eqb s EmptyString) eqn:E; [discriminate|].
    exists s. cbn [outcome cache posted]. unfold Js.str_or. rewrite E.
    split; [apply String.eqb_neq; exact E|]. split; [reflexivity|].
    split; [exact G|]. split; [reflexivity|left; reflexivity].
  - rewrite Hok. cbn [negb outcome cache posted].
    eexists. split; [apply summary_not_empty|]. split; [reflexivity|].
    split; [apply cache_get_set|].
    split; [intros k Hk; apply cache_get_set_other; exact Hk|].
    right. split; reflexivity.
Qed.

Lemma summary_cached (title body : string) (labels : list string) (repo : string)
      (answer : option (GitHubService.HttpResponse GroqData)) (c : Cache) (s : string) :
  s <> EmptyString -> cache_get (repo ++ ":" ++ title) c = Some s ->
  getIssueSummary title body labels repo answer c
  = {| outcome := Resolved s; cache := c; posted := [] |}.
Proof.
  intros Hs G. unfold getIssueSummary. rewrite G, (truthy_some s Hs).
  unfold Js.str_or. apply String.eqb_neq in Hs. rewrite Hs. reflexivity.
Qed.

End SummaryCache.

Section SummaryProperties.
Import Types.
Import GroqService.

(** X22.  A summary is asked for once per repository and title.  After
    a call of [getIssueSummary] that the endpoint answered with success,
    every later call for the same repository and title gives the same,
    non-empty summary and posts nothing, whatever body and labels it is
    given and whatever the endpoint would answer; the summaries cached
    under other keys are untouched.  A call that fails (the endpoint
    refuses or cannot be reached) leaves the cache as it was, so the
    next call for that key posts its prompt again. *)
Theorem summary_is_fetched_once_per_title :
  forall (title body : string) (labels : list string) (repo : string) (c : Cache),
    (forall response,
        GitHubService.ok response = true ->
        exists s,
          s <> EmptyString
          /\ outcome (getIssueSummary title body labels repo (Some response) c)
             = Resolved s
          /\ (forall body' labels' answer',
                 getIssueSummary title body' labels' repo answer'
                   (cache (getIssueSummary title body labels repo (Some response) c))
                 = {| outcome := Resolved s;
                      cache := cache (getIssueSummary title body labels repo
                                                      (Some response) c);
                      posted := [] |})
          /\ (forall k, k <> (repo ++ ":" ++ title)%string ->
                        cache_get k (cache (getIssueSummary title body labels repo
                                                            (Some response) c))
                        = cache_get k c))
    /\ (forall answer,
           Js.truthy_str (cache_get (repo ++ ":" ++ title) c) = false ->
           match answer with
           | Some response => GitHubService.ok response = false
           | None => True
           end ->
           (exists e, outcome (getIssueSummary title body labels repo answer c)
                      = Rejected e)
           /\ cache (getIssueSummary title body labels repo answer c) = c
           /\ posted (getIssueSummary title body labels repo answer c)
              = [prompt_of title body labels repo]
           /\ forall response,
               GitHubService.ok response = true ->
               posted (getIssueSummary title body labels repo (Some response)
                         (cache (getIssueSummary title body labels repo answer c)))
               = [prompt_of title body labels repo]).
Proof.
  intros title body labels repo c. split.
  - intros response Hok.
    destruct (summary_resolved title body labels repo response c Hok)
      as (s & Hs & Ho & Hg & Hk & _).
    exists s. split; [exact Hs|]. split; [exact Ho|]. split; [|exact Hk].
    intros body' labels' answer'. apply summary_cached; assumption.
  - intros answer T Hfail. unfold getIssueSummary. rewrite T.
    destruct answer as [response|].
    + rewrite Hfail. cbn [negb outcome cache posted]. rewrite T.
      split; [eexists; reflexivity|]. split; [reflexivity|]. split; [reflexivity|].
      intros response' Hok'. rewrite Hok'. reflexivity.
    + cbn [outcome cache posted]. rewrite T.
      split; [eexists; reflexivity|]. split; [reflexivity|]. split; [reflexivity|].
      intros response' Hok'. rewrite Hok'. reflexivity.
Qed.

Lemma summary_is_fetched_once_per_title_witness :
  exists s,
    outcome (getIssueSummary "Crash on start" "It crashes." ["bug"] "octo/deck"
               (Some (Fixtures.completion " Starts, then crashes. ")) [])
    = Resolved s
    /\ getIssueSummary "Crash on start" "Another body" [] "octo/deck" None
         (cache (getIssueSummary "Crash on start" "It crashes." ["bug"] "octo/deck"
                   (Some (Fixtures.completion " Starts, then crashes. ")) []))
       = {| outcome := Resolved s;
            cache := cache (getIssueSummary "Crash on start" "It crashes." ["bug"]
                              "octo/deck"
                              (Some (Fixtures.completion " Starts, then crashes. ")) []);
            posted := [] |}.
Proof.
  destruct (proj1 (summary_is_fetched_once_per_title
                     "Crash on start" "It crashes." ["bug"] "octo/deck" [])
                  (Fixtures.completion " Starts, then crashes. ") eq_refl)
    as (s & _ & Ho & Hc & _).
  exists s. split; [exact Ho|]. apply Hc.
Defined.

(** X23.  The summary button of a card.  A tap on a card that shows no
    summary and is not loading, answered with success, leaves the card
    with a non-empty summary and without error; from then on taps on
    that card do nothing at all.  A card mounted later for an issue with
    the same repository and title shows that same summary at its first
    tap without posting anything, whatever the body of its issue.  A tap
    that fails posts one prompt, raises the error flag and leaves the
    card without summary, so that the next tap asks again. *)
Theorem card_summary_is_asked_once :
  forall (issue : NormalizedIssue) (card : IssueCard.Card),
    Js.truthy_str (IssueCard.summary card) = false ->
    IssueCard.summaryLoading card = false ->
    (forall response,
        GitHubService.ok response = true ->
        exists s,
          s <> EmptyString
          /\ IssueCard.summary (IssueCard.handleAISummary issue (Some response) card)
             = Some s
          /\ IssueCard.summaryError
               (IssueCard.handleAISummary issue (Some response) card) = false
          /\ (forall answer,
                 IssueCard.handleAISummary issue answer
                   (IssueCard.handleAISummary issue (Some response) card)
                 = IssueCard.handleAISummary issue (Some response) card)
          /\ (forall issue' answer,
                 repo issue' = repo issue -> title issue' = title issue ->
                 IssueCard.summary
                   (IssueCard.handleAISummary issue' answer
                      (IssueCard.mounted
                         (IssueCard.summaryCache
                            (IssueCard.handleAISummary issue (Some response) card))))
                 = Some s
                 /\ IssueCard.prompts
                      (IssueCard.handleAISummary issue' answer
                         (IssueCard.mounted
                            (IssueCard.summaryCache
                               (IssueCard.handleAISummary issue (Some response) card))))
                    = []))
    /\ (forall answer,
           Js.truthy_str (cache_get (repo issue ++ ":" ++ title issue)
                                    (IssueCard.summaryCache card)) = false ->
           match answer with
           | Some response => GitHubService.ok response = false
           | None => True
           end ->
           IssueCard.summary (IssueCard.handleAISummary issue answer card)
           = IssueCard.summary card
           /\ IssueCard.summaryError (IssueCard.handleAISummary issue answer card) = true
           /\ IssueCard.summaryLoading (IssueCard.handleAISummary issue answer card)
              = false
           /\ IssueCard.summaryCache (IssueCard.handleAISummary issue answer card)
              = IssueCard.summaryCache card
           /\ List.length (IssueCard.prompts (IssueCard.handleAISummary issue answer card))
              = S (List.length (IssueCard.prompts card))).
Proof.
  intros issue card Hs Hl. split.
  - intros response Hok.
    destruct (summary_resolved (title issue) (Js.str_or (Some (body issue)) EmptyString)
                (map label_name (labels issue)) (repo issue) response
                (IssueCard.summaryCache card) Hok)
      as (s & Hne & Ho & Hg & _ & _).
    assert (E1 : IssueCard.handleAISummary issue (Some response) card
                 = {| IssueCard.summary := Some s;
                      IssueCard.summaryLoading := false;
                      IssueCard.summaryError := false;
                      IssueCard.summaryCache :=
                        cache (getIssueSummary (title issue)
                                 (Js.str_or (Some (body issue)) EmptyString)
                                 (map label_name (labels issue)) (repo issue)
                                 (Some response) (IssueCard.summaryCache card));
                      IssueCard.prompts :=
                        (IssueCard.prompts card
                         ++ posted (getIssueSummary (title issue)
                                      (Js.str_or (Some (body issue)) EmptyString)
                                      (map label_name (labels issue)) (repo issue)
                                      (Some response) (IssueCard.summaryCache card)))%list
                   |}).
    { unfold IssueCard.handleAISummary. rewrite Hs, Hl. cbn [orb]. rewrite Ho.
      reflexivity. }
    exists s. rewrite E1. cbn [IssueCard.summary IssueCard.summaryError
                               IssueCard.summaryCache].
    split; [exact Hne|]. split; [reflexivity|]. split; [reflexivity|]. split.
    + intros answer. unfold IssueCard.handleAISummary at 1.
      cbn [IssueCard.summary]. rewrite (truthy_some s Hne). reflexivity.
    + intros issue' answer Hr Ht.
      unfold IssueCard.handleAISummary, IssueCard.mounted.
      cbn [IssueCard.summary IssueCard.summaryLoading IssueCard.summaryCache
           IssueCard.prompts Js.truthy_str orb].
      rewrite Hr, Ht.
      rewrite (summary_cached (title issue) _ _ (repo issue) answer _ s Hne Hg).
      cbn [outcome cache posted IssueCard.summary IssueCard.prompts app].
      split; reflexivity.
  - intros answer T Hfail.
    unfold IssueCard.handleAISummary. rewrite Hs, Hl. cbn [orb].
    unfold getIssueSummary. rewrite T.
    destruct answer as [response|].
    + rewrite Hfail. cbn [negb outcome cache posted IssueCard.summary
                              IssueCard.summaryError IssueCard.summaryLoading
                              IssueCard.summaryCache IssueCard.prompts].
      repeat split; try reflexivity. rewrite length_app. simpl. lia.
    + cbn [outcome cache posted IssueCard.summary IssueCard.summaryError
           IssueCard.summaryLoading IssueCard.summaryCache IssueCard.prompts].
      repeat split; try reflexivity. rewrite length_app. simpl. lia.
Qed.

Lemma card_summary_is_asked_once_witness :
  exists s,
    IssueCard.summary
      (IssueCard.handleAISummary Fixtures.first_card
         (Some (Fixtures.completion "Octo deck issue."))
         (IssueCard.mounted []))
    = Some s
    /\ IssueCard.summary
         (IssueCard.handleAISummary Fixtures.first_card (Some Fixtures.rate_limited)
            (IssueCard.mounted
               (IssueCard.summaryCache
                  (IssueCard.handleAISummary Fixtures.first_card
                     (Some (Fixtures.completion "Octo deck issue."))
                     (IssueCard.mounted [])))))
       = Some s.
Proof.
  destruct (proj1 (card_summary_is_asked_once Fixtures.first_card (IssueCard.mounted [])
                     eq_refl eq_refl)
                  (Fixtures.completion "Octo deck issue.") eq_refl)
    as (s & _ & Hs & _ & _ & Hc).
  exists s. split; [exact Hs|].
  exact (proj1 (Hc Fixtures.first_card (Some Fixtures.rate_limited) eq_refl eq_refl)).
Defined.

End SummaryProperties.

(** ** A page that fails to load *)

Section FailedFetch.
Import Types.
Import MainScreen.
Import Vocabulary.

Lemma commit_not_loading (prev r : Screen) :
  fetch_deps_same (filters prev) (filters r) = true ->
  loading r = false -> loading (commit prev r) = false.
Proof.
  intros D L. unfold commit. rewrite D. unfold autoLoadEffect, fetchIssues_begin.
  destruct (autoLoad_deps_same prev r), (currentIndex prev =? currentIndex r);
    repeat match goal with
           | |- context [if ?b then _ else _] => destruct b
           end; simpl; solve [exact L | reflexivity].
Qed.

(** The state a failed fetch leaves before the render. *)
Lemma fetchSettled_failed (session : GitHubService.Session) (s : Screen)
      (pf : PendingFetch) (e : GitHubService.Error) :
  fetches s = [pf] -> fetchIssues_call session pf = GitHubService.Err e ->
  fetchSettled 0 session s
  = set_loadingMore false
      (set_loading false
         (alert (AlertError "Error" e "Failed to load issues") (set_fetches [] s))).
Proof.
  intros F C. unfold fetchSettled. rewrite F. cbn [nth_error remove_nth].
  unfold fetchIssues_settle. rewrite C. reflexivity.
Qed.

End FailedFetch.

Section FailedFetchProperty.
Import Types.
Import MainScreen.
Import Vocabulary.

(** X24.  A page that fails to load changes nothing but the alerts.
    When the one fetch in flight fails, the list, the index, the page
    number and [hasMore] stay as they were, one alert with the error is
    raised and the spinner is taken down.  If it was the next page that
    failed and the current card is still among the last three, that same
    page is asked for again in the render that follows; otherwise
    nothing is in flight afterwards, and a failed first page leaves the
    card area on its empty-feed message. *)
Theorem failed_fetch_keeps_the_deck :
  forall (W : Q) (s : Screen) (session : GitHubService.Session)
         (pf : PendingFetch) (e : GitHubService.Error),
    fetches s = [pf] -> fetchIssues_call session pf = GitHubService.Err e ->
    (issues (handle W (FetchSettled 0 session) s) = issues s
     /\ currentIndex (handle W (FetchSettled 0 session) s) = currentIndex s
     /\ page (handle W (FetchSettled 0 session) s) = page s
     /\ hasMore (handle W (FetchSettled 0 session) s) = hasMore s
     /\ loading (handle W (FetchSettled 0 session) s) = false
     /\ alerts (handle W (FetchSettled 0 session) s)
        = (alerts s ++ [AlertError "Error" e "Failed to load issues"])%list)
    /\ (loadingMore s = true -> near_end s && hasMore s = true ->
        needsSelection (filters s) = false ->
        fetches (handle W (FetchSettled 0 session) s) = [next_page_of s]
        /\ loadingMore (handle W (FetchSettled 0 session) s) = true)
    /\ (loadingMore s = false \/ near_end s && hasMore s = false ->
        fetches (handle W (FetchSettled 0 session) s) = []
        /\ loadingMore (handle W (FetchSettled 0 session) s) = false)
    /\ (issues s = [] -> needsSelection (filters s) = false ->
        cardArea (handle W (FetchSettled 0 session) s) = NoIssuesFound).
Proof.
  intros W s session pf e F C.
  unfold handle, render. cbn [dispatch].
  rewrite (fetchSettled_failed session s pf e F C).
  set (d := set_loadingMore false
              (set_loading false
                 (alert (AlertError "Error" e "Failed to load issues")
                        (set_fetches [] s)))).
  assert (D1 : fetch_deps_same (filters s) (filters d) = true)
    by apply fetch_deps_same_refl.
  assert (D2 : fetch_deps_same (filters d) (filters (commit s d)) = true)
    by (rewrite (commit_filters _ _ D1); apply fetch_deps_same_refl).
  destruct (commit_frame s d D1) as ((A1 & A2 & _ & _ & A5 & A6 & _ & _ & _ & _ & _ & _
                                      & _ & _ & A15) & _).
  destruct (commit_frame d (commit s d) D2)
    as ((B1 & B2 & _ & _ & B5 & B6 & _ & _ & _ & _ & _ & _ & _ & _ & B15) & _).
  assert (L1 : loading (commit s d) = false)
    by (apply commit_not_loading; [exact D1|reflexivity]).
  assert (L2 : loading (commit d (commit s d)) = false)
    by (apply commit_not_loading; [exact D2|exact L1]).
  assert (Auto : autoLoad_deps_same s d = negb (loadingMore s)).
  { unfold autoLoad_deps_same, d. simpl.
    rewrite Z.eqb_refl, Nat.eqb_refl, Z.eqb_refl.
    destruct (hasMore s), (loadingMore s); reflexivity. }
  assert (Guard : near_end d && hasMore d && negb (loadingMore d)
                  = near_end s && hasMore s).
  { unfold near_end, d. simpl. apply andb_true_r. }
  split.
  { rewrite B1, A1, B2, A2, B5, A5, B6, A6, B15, A15. repeat split; try reflexivity.
    exact L2. }
  split.
  { intros LM G N.
    assert (P : fetches (commit s d) = [next_page_of s]
                /\ loadingMore (commit s d) = true).
    { destruct (commit_prefetches s d D1) as (C1 & C2 & _).
      - rewrite Auto, LM. reflexivity.
      - rewrite Guard. exact G.
      - exact N.
      - split; [exact C1|exact C2]. }
    destruct P as (P1 & P2).
    assert (U : feed_untouched (commit d (commit s d)) (commit s d)).
    { apply commit_feed_untouched; [exact D2|]. rewrite P2. apply andb_false_r. }
    destruct U as (UF & _ & UL & _). rewrite UF, UL. split; assumption. }
  split.
  { intros H.
    assert (U1 : feed_untouched (commit s d) d).
    { destruct H as [LM | G].
      - unfold commit. rewrite D1, Auto, LM. apply commit_refs_untouched.
      - apply commit_feed_untouched; [exact D1|]. rewrite Guard. exact G. }
    assert (U2 : feed_untouched (commit d (commit s d)) (commit s d)).
    { unfold commit at 1. rewrite D2.
      replace (autoLoad_deps_same d (commit s d)) with true;
        [apply commit_refs_untouched|].
      destruct U1 as (_ & _ & U3 & U4 & U5 & _ & U7).
      unfold autoLoad_deps_same. rewrite A2, U7, U5, U3, U4.
      rewrite Z.eqb_refl, Nat.eqb_refl, Z.eqb_refl.
      destruct (hasMore d), (loadingMore d); reflexivity. }
    destruct U1 as (F1 & _ & M1 & _). destruct U2 as (F2 & _ & M2 & _).
    rewrite F2, F1, M2, M1. split; reflexivity. }
  intros He N.
  assert (I1 : issues (commit d (commit s d)) = []) by (rewrite B1, A1; exact He).
  unfold cardArea. rewrite L2.
  destruct (commit_frame d (commit s d) D2) as ((_ & _ & Fi2 & _) & _).
  destruct (commit_frame s d D1) as ((_ & _ & Fi1 & _) & _).
  rewrite Fi2, Fi1. change (filters d) with (filters s). rewrite N, I1. reflexivity.
Qed.

Lemma failed_fetch_keeps_the_deck_witness :
  fetches (handle Fixtures.width (FetchSettled 0 Fixtures.signed_out) mount) = []
  /\ cardArea (handle Fixtures.width (FetchSettled 0 Fixtures.signed_out) mount)
     = NoIssuesFound.
Proof.
  pose proof (failed_fetch_keeps_the_deck
                Fixtures.width mount Fixtures.signed_out
                (first_page_of (filters mount)) GitHubService.TokenNotSet
                eq_refl eq_refl) as (_ & _ & H3 & H4).
  split; [exact (proj1 (H3 (or_introl eq_refl)))|exact (H4 eq_refl eq_refl)].
Defined.

End FailedFetchProperty.

(** ** Signing in, starting up, signing out *)

Section SignInProperties.
Import GitHubService.
Import AccessToken.
Import AuthService.
Import LoginScreen.

(** X25.  The token of a completed exchange is kept, whatever Firebase
    says.  [exchangeCodeForToken] gives a token exactly when the token
    endpoint answers with success and a non-empty [access_token].  When
    it does (and the PKCE verifier is there), [handleCodeExchange]
    leaves that token in memory, persisted twice, so that the service
    gets it without reading the storage, also when the Firebase sign-in
    that follows fails; only then is an alert raised and the spinner
    taken down.  When the verifier is missing or the exchange fails, the
    token module is not touched and one alert is raised. *)
Theorem exchanged_token_is_kept :
  forall (codeVerifier : option string) (answer : option (HttpResponse TokenData))
         (credential : Credential) (l : Login),
    (forall t,
        exchangeCodeForToken answer = Done t <->
        exists response,
          answer = Some response /\ ok response = true
          /\ access_token (json response) = Some t /\ t <> EmptyString)
    /\ (forall t,
           Js.truthy_str codeVerifier = true ->
           exchangeCodeForToken answer = Done t ->
           githubAccessToken (store (handleCodeExchange codeVerifier answer credential l))
           = Some t
           /\ storageCalls (store (handleCodeExchange codeVerifier answer credential l))
              = (storageCalls (store l) ++ [SetItem t; SetItem t])%list
           /\ (forall stored,
                  fst (AccessToken.getAccessToken stored
                         (store (handleCodeExchange codeVerifier answer credential l)))
                  = Ok (Some t))
           /\ match credential with
              | SignedIn _ =>
                  alerts (handleCodeExchange codeVerifier answer credential l) = alerts l
                  /\ isLoading (handleCodeExchange codeVerifier answer credential l)
                     = isLoading l
              | _ =>
                  alerts (handleCodeExchange codeVerifier answer credential l)
                  = (alerts l ++ [GitHubSignInFailed])%list
                  /\ isLoading (handleCodeExchange codeVerifier answer credential l)
                     = false
              end)
    /\ (Js.truthy_str codeVerifier = false
        \/ (exists e, exchangeCodeForToken answer = Failed e) ->
        store (handleCodeExchange codeVerifier answer credential l) = store l
        /\ isLoading (handleCodeExchange codeVerifier answer credential l) = false
        /\ List.length (alerts (handleCodeExchange codeVerifier answer credential l))
           = S (List.length (alerts l))).
Proof.
  intros codeVerifier answer credential l.
  assert (X : forall t,
             exchangeCodeForToken answer = Done t <->
             exists response,
               answer = Some response /\ ok response = true
               /\ access_token (json response) = Some t /\ t <> EmptyString).
  { intros t. unfold exchangeCodeForToken. split.
    - destruct answer as [response|]; [|discriminate].
      destruct (ok response) eqn:Eok; cbn [negb]; [|discriminate].
      unfold Js.truthy_str, Js.str_or.
      destruct (access_token (json response)) as [a|] eqn:Ea; [|discriminate].
      destruct (String.eqb a EmptyString) eqn:E; cbn [negb]; [discriminate|].
      intros H. inversion H; subst. exists response.
      split; [reflexivity|]. split; [exact Eok|]. split; [exact Ea|].
      apply String.eqb_neq. exact E.
    - intros (response & -> & Hok & Ha & Hne). rewrite Hok, Ha. cbn [negb].
      unfold Js.truthy_str, Js.str_or. apply String.eqb_neq in Hne. rewrite Hne.
      reflexivity. }
  split; [exact X|]. split.
  - intros t Hv Hx.
    destruct (proj1 (X t) Hx) as (_ & _ & _ & _ & Hne).
    apply String.eqb_neq in Hne.
    unfold handleCodeExchange. rewrite Hv, Hx. cbn [negb].
    unfold signInWithGitHub, setGitHubAccessToken, called, AccessToken.getAccessToken,
      Js.truthy_str.
    destruct credential; cbn [store githubAccessToken storageCalls fail fst snd
                                alerts isLoading negb];
      rewrite ?Hne; cbn [negb];
      (split; [reflexivity|]); (split; [rewrite <- app_assoc; reflexivity|]);
      (split; [intros stored; reflexivity|]); split; reflexivity.
  - intros H. unfold handleCodeExchange.
    destruct (Js.truthy_str codeVerifier) eqn:Hv; cbn [negb].
    + destruct H as [H | (e & He)]; [discriminate|]. rewrite He.
      cbn [fail store isLoading alerts]. rewrite length_app. simpl.
      repeat split; lia.
    + cbn [fail store isLoading alerts]. rewrite length_app. simpl.
      repeat split; lia.
Qed.

Lemma exchanged_token_is_kept_witness :
  githubAccessToken
    (store (handleCodeExchange (Some "verifier") (Some Fixtures.granted)
                               CredentialRejected Fixtures.signing_in))
  = Some "gho_token".
Proof.
  refine (proj1 (proj1 (proj2 (exchanged_token_is_kept
                                 (Some "verifier") (Some Fixtures.granted)
                                 CredentialRejected Fixtures.signing_in))
                       "gho_token" eq_refl eq_refl)).
Defined.

(** X26.  At start-up the main screen is shown for every user Firebase
    reports, with or without a GitHub token.  Before the first
    authentication event nothing is rendered; after it the login screen
    is shown when there is no user (the token module being left alone)
    and the main screen when there is one.  In that case the token the
    service will use is the one in memory, or else the stored one; when
    neither is usable the main screen is shown all the same, and the
    service has no token.  Signing out forgets the token and asks the
    storage to remove it even when the Firebase sign-out fails. *)
Theorem reported_user_reaches_the_main_screen :
  forall (stored : Result (option string)) (st : Store),
    App.shown (App.launched st) = App.Nothing
    /\ App.shown (App.authStateChanged None stored (App.launched st)) = App.Login
    /\ App.store (App.authStateChanged None stored (App.launched st)) = st
    /\ (forall uid,
           App.shown (App.authStateChanged (Some uid) stored (App.launched st)) = App.Main
           /\ (forall up,
                  Vocabulary.signed_in
                    {| token := githubAccessToken
                                  (App.store (App.authStateChanged (Some uid) stored
                                                                   (App.launched st)));
                       upstream := up |}
                  = Js.truthy_str (githubAccessToken st)
                    || match stored with
                       | Ok o => Js.truthy_str o
                       | Err _ => false
                       end)
           /\ (Js.truthy_str (githubAccessToken st) = true ->
               App.store (App.authStateChanged (Some uid) stored (App.launched st)) = st))
    /\ (forall firebase,
           githubAccessToken (snd (signOut firebase st)) = None
           /\ storageCalls (snd (signOut firebase st))
              = (storageCalls st ++ [RemoveItem])%list
           /\ (fst (signOut firebase st) = Done tt <-> firebase = true)).
Proof.
  intros stored st.
  split; [reflexivity|]. split; [reflexivity|]. split; [reflexivity|]. split.
  - intros uid. split; [reflexivity|].
    unfold App.authStateChanged, App.launched, getStoredAccessToken, called,
      Vocabulary.signed_in.
    cbn [App.store token].
    destruct (Js.truthy_str (githubAccessToken st)) eqn:T.
    + split; [intros up; cbn [snd]; rewrite T; reflexivity|]. intros _. reflexivity.
    + split; [|discriminate]. intros up.
      destruct stored as [o|e]; cbn [snd orb].
      * destruct (Js.truthy_str o) eqn:To; cbn [snd githubAccessToken];
          [exact To|exact T].
      * exact T.
  - intros firebase. unfold signOut, clearGitHubAccessToken, called.
    destruct firebase; cbn [fst snd githubAccessToken storageCalls].
    + repeat split; reflexivity.
    + split; [reflexivity|]. split; [reflexivity|]. split; discriminate.
Qed.

End SignInProperties.

(** ** The age shown on a card *)

Section TimeAgoProperty.

Lemma floor_bounds (a k : Z) : 0 < k -> a / k * k <= a < (a / k + 1) * k.
Proof.
  intros Hk. pose proof (Z.div_mod a k ltac:(lia)) as E.
  pose proof (Z.mod_pos_bound a k Hk) as B. nia.
Qed.

(** X27.  The age on a card is the elapsed time rounded down.  The
    label of [getTimeAgo] counts whole minutes below an hour, whole
    hours below a day, whole days below thirty days and periods of
    thirty days from there on, and the number shown is always the
    elapsed time rounded down to that unit: "5h ago" is shown from five
    hours up to, but not including, six.  A time in the future gives a
    negative number of minutes. *)
Theorem time_ago_is_the_elapsed_time_rounded_down :
  forall (now date : Z),
    match IssueCard.getTimeAgo now date with
    | (n, IssueCard.Minutes) =>
        n * 60000 <= now - date < (n + 1) * 60000 /\ n < 60
    | (n, IssueCard.Hours) =>
        n * 3600000 <= now - date < (n + 1) * 3600000 /\ 1 <= n < 24
    | (n, IssueCard.Days) =>
        n * 86400000 <= now - date < (n + 1) * 86400000 /\ 1 <= n < 30
    | (n, IssueCard.Months) =>
        n * 2592000000 <= now - date < (n + 1) * 2592000000 /\ 1 <= n
    end.
Proof.
  intros now date. unfold IssueCard.getTimeAgo.
  set (diff := now - date).
  pose proof (floor_bounds diff 60000 ltac:(lia)) as B1.
  pose proof (floor_bounds (diff / 60000) 60 ltac:(lia)) as B2.
  pose proof (floor_bounds (diff / 60000 / 60) 24 ltac:(lia)) as B3.
  pose proof (floor_bounds (diff / 60000 / 60 / 24) 30 ltac:(lia)) as B4.
  destruct (diff / 60000 <? 60) eqn:E1.
  { apply Z.ltb_lt in E1. lia. }
  apply Z.ltb_ge in E1.
  destruct (diff / 60000 / 60 <? 24) eqn:E2.
  { apply Z.ltb_lt in E2. lia. }
  apply Z.ltb_ge in E2.
  destruct (diff / 60000 / 60 / 24 <? 30) eqn:E3.
  { apply Z.ltb_lt in E3. lia. }
  apply Z.ltb_ge in E3. lia.
Qed.

End TimeAgoProperty.
